(** * Normalization and quality pipeline of the earnings agent

    A shallow embedding of the Python sources under
    [earnings_agent/quality_engine], [earnings_agent/normalization] and
    [earnings_agent/llm], with the properties the design document states
    about them.

    Conventions of the embedding:
    - a Python [dict] with a fixed set of documented keys is a record; a key
      read with [.get] is an [option] field ([None]: key absent or JSON null);
    - a Python [set] of strings is a [gset string]; [sorted] is a merge sort
      on the code-point order of [str];
    - a database table is the list of its rows; a unique column is a
      hypothesis on the list where a statement needs it;
    - a function that can raise returns a [result]. *)

From Stdlib Require Import String ZArith List OrderedTypeEx Lia.
From stdpp Require Import base decidable option list sorting gmap strings.

Set Warnings "-register-all".
Open Scope string_scope.
Open Scope list_scope.
Open Scope nat_scope.

(** ** Python strings: order, truthiness, [sorted] *)

Module Py.

(** [a <= b] on [str]: lexicographic on code points. *)
Definition str_le (a b : string) : Prop := String.leb a b = true.

(** [a < b] on [str]. *)
Definition str_lt (a b : string) : Prop := String.ltb a b = true.

#[export] Instance str_le_dec a b : Decision (str_le a b).
Proof. unfold str_le. apply _. Defined.

#[export] Instance str_lt_dec a b : Decision (str_lt a b).
Proof. unfold str_lt. apply _. Defined.

(** [sorted(xs)] for a list of strings. *)
Definition sorted (l : list string) : list string := merge_sort str_le l.

(** [bool(s)] for a string: the empty string is falsy. *)
Definition truthy (s : string) : bool :=
  match s with EmptyString => false | String _ _ => true end.

(** [bool(o)] for a value read with [.get]: absent, null and [""] are falsy. *)
Definition truthy_opt (o : option string) : bool :=
  match o with Some s => truthy s | None => false end.

(** [sub in s] for strings. *)
Definition contains (sub s : string) : bool :=
  match String.index 0 sub s with Some _ => true | None => false end.

(** [s.lower()], on the ASCII letters (the keys tested by the source are
    ASCII; other bytes are left as they are). *)
Definition lower_ascii (c : Ascii.ascii) : Ascii.ascii :=
  let n := Ascii.nat_of_ascii c in
  if (65 <=? n) && (n <=? 90) then Ascii.ascii_of_nat (n + 32) else c.

Fixpoint lower (s : string) : string :=
  match s with
  | EmptyString => EmptyString
  | String c s' => String (lower_ascii c) (lower s')
  end.

(** The ASCII characters [str.strip()] removes. *)
Definition is_space (c : Ascii.ascii) : bool :=
  let n := Ascii.nat_of_ascii c in
  ((9 <=? n) && (n <=? 13)) || ((28 <=? n) && (n <=? 32)).

Fixpoint lstrip (s : string) : string :=
  match s with
  | EmptyString => EmptyString
  | String c s' => if is_space c then lstrip s' else s
  end.

Fixpoint rstrip (s : string) : string :=
  match s with
  | EmptyString => EmptyString
  | String c s' =>
      match rstrip s' with
      | EmptyString => if is_space c then EmptyString else String c EmptyString
      | r => String c r
      end
  end.

(** [s.strip()]. *)
Definition strip (s : string) : string := rstrip (lstrip s).

(** [" ".join(parts)]. *)
Definition join_spaces (parts : list string) : string :=
  String.concat " " parts.

(** [any(k in text for k in keys)]. *)
Definition any_in (keys : list string) (text : string) : bool :=
  existsb (λ k, contains k text) keys.

(** A call either returns or raises. *)
Inductive result (A : Type) : Type :=
| Returned (a : A)
| Raised (exception : string).
Arguments Returned {A} a.
Arguments Raised {A} exception.

(** [l] lists the set [X] in strictly increasing order: what
    [sorted(list(X))] is for a set. *)
Definition sorted_listing (l : list string) (X : gset string) : Prop :=
  StronglySorted str_lt l ∧ ∀ x, x ∈ l ↔ x ∈ X.

End Py.

(** ** Taxonomy playbook: statement trees and their leaves *)

Module Playbook.

(** A playbook node: [id], optional [children], optional [extractable]. *)
Inductive node : Type :=
  Node (id : string) (children : option (list node)) (extractable : option bool).

Definition node_id (n : node) : string :=
  match n with Node i _ _ => i end.

Definition node_children (n : node) : option (list node) :=
  match n with Node _ c _ => c end.

Definition node_extractable (n : node) : option bool :=
  match n with Node _ _ e => e end.

(** [not children]: the key is absent, null, or an empty list. *)
Definition childless (n : node) : bool :=
  match node_children n with
  | None | Some [] => true
  | Some (_ :: _) => false
  end.

(** Body of the [for node in nodes] loop of
    [playbook_utils._get_leaf_ids_recursive]: what one node contributes. *)
Fixpoint leaf_ids_of_node (n : node) : list string :=
  match n with
  | Node i c e =>
      match c with
      | None | Some [] => if default true e then [i] else []
      | Some (ch :: chs) =>
          (fix extend (l : list node) : list string :=
             match l with
             | [] => []
             | m :: l' => leaf_ids_of_node m ++ extend l'
             end) (ch :: chs)
      end
  end.

(** [playbook_utils._get_leaf_ids_recursive(nodes)]. *)
Definition _get_leaf_ids_recursive (nodes : list node) : list string :=
  flat_map leaf_ids_of_node nodes.

(** The inner [rec(n)] of [StatementPlaybookLoader._flatten_leaves], as the
    list of ids it appends to [leaves]. *)
Fixpoint rec (n : node) : list string :=
  match n with
  | Node i c _ =>
      match c with
      | None | Some [] => [i]
      | Some (ch :: chs) =>
          (fix each (l : list node) : list string :=
             match l with
             | [] => []
             | m :: l' => rec m ++ each l'
             end) (ch :: chs)
      end
  end.

(** [StatementPlaybookLoader._flatten_leaves(nodes)]. *)
Definition _flatten_leaves (nodes : list node) : list string :=
  flat_map rec nodes.

(** Pre-order listing of a tree: the node, then its children's subtrees
    from left to right. *)
Fixpoint preorder (n : node) : list node :=
  n ::
  match n with
  | Node _ c _ =>
      match c with
      | None => []
      | Some chs =>
          (fix sub (l : list node) : list node :=
             match l with
             | [] => []
             | m :: l' => preorder m ++ sub l'
             end) chs
      end
  end.

Definition preorder_forest (nodes : list node) : list node :=
  flat_map preorder nodes.

(** A node is explicitly marked non-extractable. *)
Definition marked_non_extractable (n : node) : bool :=
  match node_extractable n with Some false => true | _ => false end.

(** The keep-test of the design document, as a boolean. *)
Definition kept (n : node) : bool :=
  childless n && negb (marked_non_extractable n).

(** The flattening the design document describes: visit in pre-order, keep
    the childless nodes that are not marked non-extractable. *)
Definition spec_flatten (nodes : list node) : list string :=
  map node_id (List.filter kept (preorder_forest nodes)).

End Playbook.

(** ** Stage 1a: completeness check *)

Module Completeness.

(** One entry of [normalized_figures]; only [playbook_id] is read by the
    check ([None]: key absent or null). *)
Record figure : Type := {
  playbook_id : option string;
  value : option Z
}.

(** The statement dictionary handed to the check: the [normalized_figures]
    key, if present, and the names of the other keys of the dictionary. *)
Record statement_data : Type := {
  normalized_figures : option (list figure);
  other_keys : list string
}.

(** [not parsed_statement_data] for a dictionary: it has no key at all. *)
Definition is_empty_dict (d : statement_data) : bool :=
  match normalized_figures d, other_keys d with
  | None, [] => true
  | _, _ => false
  end.

Inductive status : Type := SUCCESS | FAILURE.

(** The [details] dictionary of a result; each key is optional. *)
Record details : Type := {
  missing_ids : option (list string);
  unexpected_ids : option (list string);
  reason : option string
}.

Record result : Type := {
  res_status : status;
  res_details : option details
}.

(** [{item['playbook_id'] for item in figures if item.get('playbook_id')}]. *)
Definition present_ids (figs : list figure) : gset string :=
  list_to_set
    (omap (λ item, if Py.truthy_opt (playbook_id item) then playbook_id item else None)
          figs).

(** [run_completeness_check(parsed_statement_data, expected_leaf_ids)];
    the first argument is [None] when the caller passes Python's [None]. *)
Definition run_completeness_check
    (parsed_statement_data : option statement_data)
    (expected_leaf_ids : list string) : result :=
  let not_found :=
    {| res_status := FAILURE;
       res_details := Some {| missing_ids := Some expected_leaf_ids;
                              unexpected_ids := None;
                              reason := Some "Normalized figures array not found." |} |} in
  match parsed_statement_data with
  | None => not_found
  | Some d =>
      if is_empty_dict d then not_found else
      match normalized_figures d with
      | None => not_found
      | Some figs =>
          let present := present_ids figs in
          let expected_set : gset string := list_to_set expected_leaf_ids in
          let unexpected := Py.sorted (elements (present ∖ expected_set)) in
          let missing := expected_set ∖ present in
          if decide (missing = ∅) then
            {| res_status := SUCCESS;
               res_details :=
                 match unexpected with
                 | [] => None
                 | _ :: _ => Some {| missing_ids := None;
                                     unexpected_ids := Some unexpected;
                                     reason := None |}
                 end |}
          else
            {| res_status := FAILURE;
               res_details :=
                 Some {| missing_ids := Some (Py.sorted (elements missing));
                         unexpected_ids :=
                           match unexpected with
                           | [] => None
                           | _ :: _ => Some unexpected
                           end;
                         reason := None |} |}
      end
  end.

End Completeness.

(** ** Quality engine: stage runs and the waterfall reset *)

Module QualityEngine.

(** [stage1.CURRENT_STAGE_1_VERSION]. *)
Definition CURRENT_STAGE_1_VERSION : string := "1.0".

(** The JSONB [details] column: what stage 1 stores there. *)
Inductive run_details : Type :=
| CompletenessDetails (d : Completeness.details)
| ErrorDetails (error : string).

(** A row of [quality_engine_runs] ([models.QualityEngineRun]); the nullable
    columns are [option]s. *)
Record QualityEngineRun : Type := {
  run_id : Z;
  doc_id : Z;
  stage_1_status : string;
  stage_2_status : string;
  stage_3_status : string;
  stage_4_status : string;
  stage_5_status : string;
  stage_1_version : option string;
  stage_2_version : option string;
  stage_3_version : option string;
  stage_4_version : option string;
  stage_5_version : option string;
  failure_reason : option string;
  details : option run_details;
  playbook_config_hash : option string
}.

(** The [WHERE] clause of [stmt_reset_s1]:
    [stage_1_status = 'PASSED' AND stage_1_version != CURRENT_STAGE_1_VERSION].
    In SQL a NULL version makes the comparison unknown, so the row is not
    selected. *)
Definition stmt_reset_s1_where (r : QualityEngineRun) : bool :=
  String.eqb (stage_1_status r) "PASSED" &&
  match stage_1_version r with
  | Some v => negb (String.eqb v CURRENT_STAGE_1_VERSION)
  | None => false
  end.

(** The [.values(...)] of [stmt_reset_s1] applied to a row. *)
Definition stmt_reset_s1_values (r : QualityEngineRun) : QualityEngineRun :=
  {| run_id := run_id r;
     doc_id := doc_id r;
     stage_1_status := "PENDING"; stage_1_version := None;
     stage_2_status := "PENDING"; stage_2_version := None;
     stage_3_status := "PENDING"; stage_3_version := None;
     stage_4_status := "PENDING"; stage_4_version := None;
     stage_5_status := "PENDING"; stage_5_version := None;
     failure_reason := Some "Resetting due to new Stage 1 version";
     details := None;
     playbook_config_hash := playbook_config_hash r |}.

(** What the sweep does to one row. *)
Definition reset_row (r : QualityEngineRun) : QualityEngineRun :=
  if stmt_reset_s1_where r then stmt_reset_s1_values r else r.

(** [trigger_waterfall_resets()], as a transformer of the table: the single
    [UPDATE] it executes and commits. *)
Definition trigger_waterfall_resets (runs : list QualityEngineRun)
  : list QualityEngineRun :=
  map reset_row runs.

(** Status and version of stage [k] (1 to 5) of a row. *)
Definition stage_status (k : nat) (r : QualityEngineRun) : string :=
  match k with
  | 1 => stage_1_status r
  | 2 => stage_2_status r
  | 3 => stage_3_status r
  | 4 => stage_4_status r
  | _ => stage_5_status r
  end.

Definition stage_version (k : nat) (r : QualityEngineRun) : option string :=
  match k with
  | 1 => stage_1_version r
  | 2 => stage_2_version r
  | 3 => stage_3_version r
  | 4 => stage_4_version r
  | _ => stage_5_version r
  end.

(** Stage [k] of [r] passed with a stamped version that is not the deployed
    one. *)
Definition drifted (current : nat → string) (k : nat) (r : QualityEngineRun) : Prop :=
  stage_status k r = "PASSED" ∧
  ∃ v, stage_version k r = Some v ∧ v ≠ current k.

(** The waterfall property as the design document words it, for stage [k]
    of a row and deployed versions [current]: after one sweep stage [k] and
    the later ones are PENDING with no version and a reason is recorded, the
    earlier ones are as before, and a second sweep changes nothing. *)
Definition waterfall_reset_at (current : nat → string) (k : nat)
    (r : QualityEngineRun) : Prop :=
  let r' := reset_row r in
  (∀ j, k ≤ j ≤ 5 → stage_status j r' = "PENDING" ∧ stage_version j r' = None) ∧
  is_Some (failure_reason r') ∧
  (∀ j, 1 ≤ j < k →
        stage_status j r' = stage_status j r ∧ stage_version j r' = stage_version j r) ∧
  reset_row r' = r'.

(** A run whose stage 1 passed at the deployed version and whose stage 2
    passed at an older version than the one deployed for stage 2. *)
Definition stage_2_drift_run : QualityEngineRun :=
  {| run_id := 7; doc_id := 42;
     stage_1_status := "PASSED"; stage_1_version := Some CURRENT_STAGE_1_VERSION;
     stage_2_status := "PASSED"; stage_2_version := Some "0.9";
     stage_3_status := "PASSED"; stage_3_version := Some "1.0";
     stage_4_status := "PENDING"; stage_4_version := None;
     stage_5_status := "PENDING"; stage_5_version := None;
     failure_reason := None; details := None; playbook_config_hash := None |}.

(** A run whose stage 1 passed at an older version. *)
Definition stage_1_drift_run : QualityEngineRun :=
  {| run_id := 8; doc_id := 43;
     stage_1_status := "PASSED"; stage_1_version := Some "0.9";
     stage_2_status := "PASSED"; stage_2_version := Some "1.0";
     stage_3_status := "FAILED"; stage_3_version := None;
     stage_4_status := "PENDING"; stage_4_version := None;
     stage_5_status := "PENDING"; stage_5_version := None;
     failure_reason := Some "stage 3 failed"; details := None;
     playbook_config_hash := None |}.

End QualityEngine.

(** ** The records of the normalization pipeline *)

(** A figure of the oracle's unit analysis. The keys the source reads with
    [fig['...']] are fields, those it reads with [.get] are [option]s. *)
Module Figure.
Record t : Type := {
  label : string;
  value : string;
  representation : string;
  currency_context : option string;
  ratio_context : option string;
  confidence : string;
  reasoning : option string
}.
End Figure.

Module StatementAnalysis.
Record t : Type := {
  statement_type : string;
  standard_mapping : option string;
  statement_currency : option string;
  figures : list Figure.t
}.
End StatementAnalysis.

Module FilingAnalysis.
Record t : Type := {
  overall_confidence : option string;
  requires_human_review : option bool;
  currency_contexts_found : list string
}.
End FilingAnalysis.

(** A validated unit analysis: both top-level sections are there. *)
Module Analysis.
Record t : Type := {
  filing_analysis : FilingAnalysis.t;
  statement_analyses : list StatementAnalysis.t
}.
End Analysis.

(** A decoded JSON object that may or may not have the two sections. *)
Module RawAnalysis.
Record t : Type := {
  filing_analysis : option FilingAnalysis.t;
  statement_analyses : option (list StatementAnalysis.t)
}.
End RawAnalysis.

(** A figure as the statement normalizer stored it; the label normalizer
    reads its label and its suspect markers. *)
Module OriginalFigure.
Record t : Type := {
  label : string;
  suspect : option bool;
  suspect_reason : option string
}.
End OriginalFigure.

(** The value stored under one statement slot: a dictionary with figures, or
    something that is not a dictionary (the ["NOT_PROVIDED"] sentinel). *)
Inductive statement_content : Type :=
| NOT_PROVIDED
| StatementDict (figures : option (list OriginalFigure.t)).

Module StatementNormalizedData.
Record t : Type := {
  standalone : option (list (string * statement_content));
  consolidated : option (list (string * statement_content))
}.
End StatementNormalizedData.

(** One entry of the final canonical map. *)
Module LabelEntry.
Record t : Type := {
  value : string;
  representation : option string;
  currency_context : option string;
  suspect : bool;
  suspect_reason : option string
}.
End LabelEntry.

(** [final_data = {'standalone': {}, 'consolidated': {}}]. *)
Module LabelNormalizedData.
Record t : Type := {
  standalone : gmap string LabelEntry.t;
  consolidated : gmap string LabelEntry.t
}.
End LabelNormalizedData.

(** [{'llm_unit_analysis': analysis}]. *)
Module UnitNormalizedData.
Record t : Type := {
  llm_unit_analysis : option Analysis.t
}.
End UnitNormalizedData.

(** The [normalized_data] JSONB column. *)
Module NormalizedData.
Record t : Type := {
  statement_normalized_data : option StatementNormalizedData.t;
  unit_normalized_data : option UnitNormalizedData.t;
  label_normalized_data : option LabelNormalizedData.t
}.
End NormalizedData.

(** Rows of [staged_normalized_data]. The surrogate [id] columns of the
    tables are assigned by the database and never read by the code below. *)
Module StagedNormalizedData.
Record t : Type := {
  doc_id : Z;
  ticker : string;
  fiscal_date : string;
  normalized_data : NormalizedData.t;
  statement_normalized : bool;
  unit_review_status : string;
  label_review_status : string
}.
End StagedNormalizedData.

(** A raw figure of the parsed document: passed on to the oracle as it is. *)
Module RawFigure.
Record t : Type := {
  label : string;
  value : string
}.
End RawFigure.

(** One statement of [content['llm_call_2']]. *)
Module ParsedStatement.
Record t : Type := {
  statement_type : option string;
  currency : option string;
  quarter : option string;
  figures : option (list RawFigure.t)
}.
End ParsedStatement.

Module ParsedContent.
Record t : Type := {
  llm_call_2 : option (list ParsedStatement.t)
}.
End ParsedContent.

Module ParsedDocument.
Record t : Type := {
  doc_id : Z;
  asset_id : Z;
  content : option ParsedContent.t
}.
End ParsedDocument.

(** An entry of [suspicious_figures]. *)
Module SuspiciousFigure.
Record t : Type := {
  statement_type : string;
  standard_mapping : string;
  label : string;
  value : string;
  representation : string;
  reasoning : string
}.
End SuspiciousFigure.

Module FilingData.
Record t : Type := {
  suspicious_figures : list SuspiciousFigure.t;
  total_figures_analyzed : nat;
  low_confidence_count : nat
}.
End FilingData.

(** Rows of [unit_review_queue]; [doc_id] is unique. *)
Module UnitReviewQueue.
Record t : Type := {
  doc_id : Z;
  asset_id : Z;
  ticker : string;
  fiscal_date : string;
  llm_analysis : Analysis.t;
  filing_data : FilingData.t;
  status : string;
  reviewed_by : option string;
  human_corrections : option Analysis.t
}.
End UnitReviewQueue.

(** Where a cached label was first seen. *)
Module SourceContext.
Record t : Type := {
  doc_id : Z;
  ticker : string;
  statement_key : string;
  standard_mapping : string
}.
End SourceContext.

(** Rows of [label_mapping_cache]; the primary key is
    [(raw_label, industry)]. *)
Module LabelMapping.
Record t : Type := {
  raw_label : string;
  industry : string;
  normalized_label : option string;
  status : string;
  processed : bool;
  source_context : option SourceContext.t;
  last_reviewed_at : option string;
  reviewed_by : option string
}.
Definition key (m : t) : string * string := (raw_label m, industry m).
End LabelMapping.

Module Classification.
Record t : Type := {
  industry_name : option string
}.
End Classification.

(** Rows of [company_master], with the joined classification. *)
Module CompanyMaster.
Record t : Type := {
  ticker : string;
  classification : option Classification.t
}.
End CompanyMaster.

(** The tables the normalization phases read and write. *)
Module Db.
Record t : Type := {
  staged_normalized_data : list StagedNormalizedData.t;
  parsed_documents : list ParsedDocument.t;
  unit_review_queue : list UnitReviewQueue.t;
  label_mapping_cache : list LabelMapping.t;
  company_master : list CompanyMaster.t
}.
End Db.

(** ** [storage/database.py]: the normalization stage functions

    These helpers stand in [storage/database.py] as a commented-out block;
    they are embedded from that text. Each opens its own session and commits,
    so each is a function from tables to tables. *)

Module Database.

(** [session.query(StagedNormalizedData).filter_by(doc_id=doc_id).one_or_none()]. *)
Definition staged_by_doc_id (doc_id : Z) (db : Db.t) : option StagedNormalizedData.t :=
  List.find (λ r, Z.eqb (StagedNormalizedData.doc_id r) doc_id)
            (Db.staged_normalized_data db).

(** [session.get(ParsedDocument, doc_id)]. *)
Definition parsed_by_doc_id (doc_id : Z) (db : Db.t) : option ParsedDocument.t :=
  List.find (λ r, Z.eqb (ParsedDocument.doc_id r) doc_id) (Db.parsed_documents db).

(** [get_docs_pending_unit_normalization()]. *)
Definition get_docs_pending_unit_normalization (db : Db.t) : list Z :=
  map StagedNormalizedData.doc_id
    (List.filter (λ r, StagedNormalizedData.statement_normalized r &&
                       String.eqb (StagedNormalizedData.unit_review_status r) "PENDING")
                 (Db.staged_normalized_data db)).

(** [get_docs_pending_label_normalization()]. *)
Definition get_docs_pending_label_normalization (db : Db.t) : list Z :=
  map StagedNormalizedData.doc_id
    (List.filter (λ r, (String.eqb (StagedNormalizedData.unit_review_status r) "APPROVED" ||
                        String.eqb (StagedNormalizedData.unit_review_status r) "AUTO_APPROVED") &&
                       String.eqb (StagedNormalizedData.label_review_status r) "PENDING")
                 (Db.staged_normalized_data db)).

(** [get_docs_pending_label_review()]. *)
Definition get_docs_pending_label_review (db : Db.t) : list Z :=
  map StagedNormalizedData.doc_id
    (List.filter (λ r, String.eqb (StagedNormalizedData.label_review_status r) "PENDING_REVIEW")
                 (Db.staged_normalized_data db)).

Definition mem_Z (x : Z) (l : list Z) : bool := existsb (Z.eqb x) l.

Definition set_unit_review_status (status : string) (r : StagedNormalizedData.t)
  : StagedNormalizedData.t :=
  {| StagedNormalizedData.doc_id := StagedNormalizedData.doc_id r;
     StagedNormalizedData.ticker := StagedNormalizedData.ticker r;
     StagedNormalizedData.fiscal_date := StagedNormalizedData.fiscal_date r;
     StagedNormalizedData.normalized_data := StagedNormalizedData.normalized_data r;
     StagedNormalizedData.statement_normalized := StagedNormalizedData.statement_normalized r;
     StagedNormalizedData.unit_review_status := status;
     StagedNormalizedData.label_review_status := StagedNormalizedData.label_review_status r |}.

Definition set_label_review_status (status : string) (r : StagedNormalizedData.t)
  : StagedNormalizedData.t :=
  {| StagedNormalizedData.doc_id := StagedNormalizedData.doc_id r;
     StagedNormalizedData.ticker := StagedNormalizedData.ticker r;
     StagedNormalizedData.fiscal_date := StagedNormalizedData.fiscal_date r;
     StagedNormalizedData.normalized_data := StagedNormalizedData.normalized_data r;
     StagedNormalizedData.statement_normalized := StagedNormalizedData.statement_normalized r;
     StagedNormalizedData.unit_review_status := StagedNormalizedData.unit_review_status r;
     StagedNormalizedData.label_review_status := status |}.

Definition set_normalized_data (d : NormalizedData.t) (r : StagedNormalizedData.t)
  : StagedNormalizedData.t :=
  {| StagedNormalizedData.doc_id := StagedNormalizedData.doc_id r;
     StagedNormalizedData.ticker := StagedNormalizedData.ticker r;
     StagedNormalizedData.fiscal_date := StagedNormalizedData.fiscal_date r;
     StagedNormalizedData.normalized_data := d;
     StagedNormalizedData.statement_normalized := StagedNormalizedData.statement_normalized r;
     StagedNormalizedData.unit_review_status := StagedNormalizedData.unit_review_status r;
     StagedNormalizedData.label_review_status := StagedNormalizedData.label_review_status r |}.

Definition with_staged (rows : list StagedNormalizedData.t) (db : Db.t) : Db.t :=
  {| Db.staged_normalized_data := rows;
     Db.parsed_documents := Db.parsed_documents db;
     Db.unit_review_queue := Db.unit_review_queue db;
     Db.label_mapping_cache := Db.label_mapping_cache db;
     Db.company_master := Db.company_master db |}.

Definition with_unit_review_queue (rows : list UnitReviewQueue.t) (db : Db.t) : Db.t :=
  {| Db.staged_normalized_data := Db.staged_normalized_data db;
     Db.parsed_documents := Db.parsed_documents db;
     Db.unit_review_queue := rows;
     Db.label_mapping_cache := Db.label_mapping_cache db;
     Db.company_master := Db.company_master db |}.

Definition with_label_mapping_cache (rows : list LabelMapping.t) (db : Db.t) : Db.t :=
  {| Db.staged_normalized_data := Db.staged_normalized_data db;
     Db.parsed_documents := Db.parsed_documents db;
     Db.unit_review_queue := Db.unit_review_queue db;
     Db.label_mapping_cache := rows;
     Db.company_master := Db.company_master db |}.

(** [mark_docs_unit_review_status(doc_ids, status)]:
    [UPDATE ... SET unit_review_status = status WHERE doc_id IN doc_ids]. *)
Definition mark_docs_unit_review_status (doc_ids : list Z) (status : string)
    (db : Db.t) : Db.t :=
  match doc_ids with
  | [] => db
  | _ :: _ =>
      with_staged
        (map (λ r, if mem_Z (StagedNormalizedData.doc_id r) doc_ids
                   then set_unit_review_status status r else r)
             (Db.staged_normalized_data db))
        db
  end.

(** [mark_docs_label_review_status(doc_ids, status)]. *)
Definition mark_docs_label_review_status (doc_ids : list Z) (status : string)
    (db : Db.t) : Db.t :=
  match doc_ids with
  | [] => db
  | _ :: _ =>
      with_staged
        (map (λ r, if mem_Z (StagedNormalizedData.doc_id r) doc_ids
                   then set_label_review_status status r else r)
             (Db.staged_normalized_data db))
        db
  end.

(** The [server_default] declared for [UnitReviewQueue.status] in
    [models.py]: the string [server_default="'PENDING_REVIEW'"], which is
    emitted as a string literal, so that the default value is the text with
    its two quote characters. *)
Definition unit_review_status_server_default : string := "'PENDING_REVIEW'".

(** [ck_unit_review_queue_status]:
    [status IN ('PENDING_REVIEW','APPROVED','REJECTED')]. *)
Definition ck_unit_review_queue_status (status : string) : bool :=
  existsb (String.eqb status) ["PENDING_REVIEW"; "APPROVED"; "REJECTED"].

(** The row [create_unit_review_record] proposes for insertion: the given
    columns, the others (no [status] is given) at their defaults. *)
Definition new_unit_review_row (doc_id asset_id : Z) (ticker fiscal_date : string)
    (llm_analysis : Analysis.t) (filing_data : FilingData.t) : UnitReviewQueue.t :=
  {| UnitReviewQueue.doc_id := doc_id;
     UnitReviewQueue.asset_id := asset_id;
     UnitReviewQueue.ticker := ticker;
     UnitReviewQueue.fiscal_date := fiscal_date;
     UnitReviewQueue.llm_analysis := llm_analysis;
     UnitReviewQueue.filing_data := filing_data;
     UnitReviewQueue.status := unit_review_status_server_default;
     UnitReviewQueue.reviewed_by := None;
     UnitReviewQueue.human_corrections := None |}.

(** [ON CONFLICT (doc_id) DO UPDATE SET llm_analysis, filing_data, created_at]. *)
Definition unit_review_on_conflict (new old : UnitReviewQueue.t) : UnitReviewQueue.t :=
  {| UnitReviewQueue.doc_id := UnitReviewQueue.doc_id old;
     UnitReviewQueue.asset_id := UnitReviewQueue.asset_id old;
     UnitReviewQueue.ticker := UnitReviewQueue.ticker old;
     UnitReviewQueue.fiscal_date := UnitReviewQueue.fiscal_date old;
     UnitReviewQueue.llm_analysis := UnitReviewQueue.llm_analysis new;
     UnitReviewQueue.filing_data := UnitReviewQueue.filing_data new;
     UnitReviewQueue.status := UnitReviewQueue.status old;
     UnitReviewQueue.reviewed_by := UnitReviewQueue.reviewed_by old;
     UnitReviewQueue.human_corrections := UnitReviewQueue.human_corrections old |}.

Fixpoint upsert_unit_review (new : UnitReviewQueue.t) (rows : list UnitReviewQueue.t)
  : list UnitReviewQueue.t :=
  match rows with
  | [] => [new]
  | old :: rows' =>
      if Z.eqb (UnitReviewQueue.doc_id old) (UnitReviewQueue.doc_id new)
      then unit_review_on_conflict new old :: rows'
      else old :: upsert_unit_review new rows'
  end.

(** [create_unit_review_record(review_data)]: the proposed row is checked
    against the constraint of the table before the conflict on [doc_id] is
    looked at; a violation raises and nothing is written. *)
Definition create_unit_review_record (review_data : UnitReviewQueue.t) (db : Db.t)
  : Py.result Db.t :=
  if ck_unit_review_queue_status (UnitReviewQueue.status review_data)
  then Py.Returned
         (with_unit_review_queue
            (upsert_unit_review review_data (Db.unit_review_queue db)) db)
  else Py.Raised "IntegrityError: ck_unit_review_queue_status".

(** [get_label_mapping(raw_label, industry)]: [session.get] on the composite
    key. A company without industry name gives [None] as second component,
    which no row has. *)
Definition get_label_mapping (raw_label : string) (industry : option string)
    (db : Db.t) : option LabelMapping.t :=
  match industry with
  | None => None
  | Some ind =>
      List.find (λ m, String.eqb (LabelMapping.raw_label m) raw_label &&
                      String.eqb (LabelMapping.industry m) ind)
                (Db.label_mapping_cache db)
  end.

(** [ON CONFLICT (raw_label, industry) DO UPDATE SET normalized_label,
    status, last_reviewed_at, reviewed_by] to the values of the new row. *)
Definition label_mapping_on_conflict (new old : LabelMapping.t) : LabelMapping.t :=
  {| LabelMapping.raw_label := LabelMapping.raw_label old;
     LabelMapping.industry := LabelMapping.industry old;
     LabelMapping.normalized_label := LabelMapping.normalized_label new;
     LabelMapping.status := LabelMapping.status new;
     LabelMapping.processed := LabelMapping.processed old;
     LabelMapping.source_context := LabelMapping.source_context old;
     LabelMapping.last_reviewed_at := LabelMapping.last_reviewed_at new;
     LabelMapping.reviewed_by := LabelMapping.reviewed_by new |}.

Fixpoint upsert_row (new : LabelMapping.t) (rows : list LabelMapping.t)
  : list LabelMapping.t :=
  match rows with
  | [] => [new]
  | old :: rows' =>
      if String.eqb (LabelMapping.raw_label old) (LabelMapping.raw_label new) &&
         String.eqb (LabelMapping.industry old) (LabelMapping.industry new)
      then label_mapping_on_conflict new old :: rows'
      else old :: upsert_row new rows'
  end.

(** [upsert_label_mapping(mapping_data)]. *)
Definition upsert_label_mapping (mapping_data : LabelMapping.t) (db : Db.t) : Db.t :=
  with_label_mapping_cache (upsert_row mapping_data (Db.label_mapping_cache db)) db.

(** [get_company_context(session, ticker)]: the first company with the
    ticker, its classification joined. *)
Definition get_company_context (ticker : string) (db : Db.t) : option CompanyMaster.t :=
  List.find (λ c, String.eqb (CompanyMaster.ticker c) ticker) (Db.company_master db).

End Database.

(** ** [llm/normalizer_client.py]: the oracle client *)

Module NormalizerClient.

Definition LLM_MAX_RETRIES : nat := 3.
Definition LLM_INITIAL_BACKOFF : nat := 5.

(** The context of the unit-analysis request ([create_llm_analysis_payload]). *)
Module UnitPayload.
Record statement : Type := {
  statement_type : string;
  currency : string;
  quarter : string;
  figures : list RawFigure.t
}.
Record t : Type := {
  company : string;
  fiscal_date : string;
  statements_with_currency_context : list statement;
  note : string
}.
End UnitPayload.

(** The context of the label-mapping request ([context_payload]). *)
Module LabelPayload.
Record t : Type := {
  industry : string;
  statement_key : string;
  statement_name : string;
  statement_currency : option string;
  standard_names : list string;
  raw_labels : list string
}.
End LabelPayload.

(** [context_text]: the JSON document sent along with the prompt. *)
Inductive context : Type :=
| UnitContext (p : UnitPayload.t)
| LabelContext (p : LabelPayload.t).

(** The text of a response, seen through [json.loads]: not JSON at all; an
    object read as a unit analysis, with the sections it has; an object from
    strings (raw labels) to strings or null; an array, whose elements that
    are strings are kept and the others are [None]; a string; or null, a
    boolean or a number. *)
Inductive body : Type :=
| NotJson (text : string)
| UnitAnalysisJson (a : RawAnalysis.t)
| LabelMappingsJson (items : list (string * option string))
| JsonArray (elements : list (option string))
| JsonString (s : string)
| JsonScalar (text : string).

(** What one [client.models.generate_content] attempt does. *)
Inductive attempt_outcome : Type :=
| ApiError (e : string)
| EmptyText
| ResponseText (b : body).

(** The world outside the process: the outcomes the service will give to the
    attempts still to come (an exhausted script keeps failing), the contexts
    of the attempts made so far and the [time.sleep] durations so far. *)
Record world : Type := {
  service : list attempt_outcome;
  attempts_made : list context;
  slept : list nat
}.

Definition generate_content (c : context) (w : world) : attempt_outcome * world :=
  match service w with
  | [] => (ApiError "service unavailable",
           {| service := []; attempts_made := attempts_made w ++ [c]; slept := slept w |})
  | o :: rest =>
      (o, {| service := rest; attempts_made := attempts_made w ++ [c]; slept := slept w |})
  end.

Definition sleep (seconds : nat) (w : world) : world :=
  {| service := service w; attempts_made := attempts_made w; slept := slept w ++ [seconds] |}.

(** The [for attempt in range(LLM_MAX_RETRIES)] loop from iteration
    [attempt] on, with [remaining] iterations left; after the loop comes the
    final [raise RuntimeError]. *)
Fixpoint retry_loop (remaining attempt : nat) (c : context) (w : world)
  : Py.result body * world :=
  match remaining with
  | 0 => (Py.Raised "RuntimeError: LLM call failed after all retry attempts.", w)
  | S remaining' =>
      let '(o, w1) := generate_content c w in
      let on_exception (e : string) :=
        if attempt + 1 =? LLM_MAX_RETRIES then (Py.Raised e, w1)
        else retry_loop remaining' (S attempt) c
               (sleep (LLM_INITIAL_BACKOFF * 2 ^ attempt) w1) in
      match o with
      | ResponseText b => (Py.Returned b, w1)
      | EmptyText => on_exception "ValueError: LLM returned an empty response."
      | ApiError e => on_exception e
      end
  end.

(** [call_gemini_with_retry(model_name, prompt, context_text, ...)]. *)
Definition call_gemini_with_retry (c : context) (w : world) : Py.result body * world :=
  retry_loop LLM_MAX_RETRIES 0 c w.

(** [call_gemini_with_json]: the same call in JSON mode. *)
Definition call_gemini_with_json (c : context) (w : world) : Py.result body * world :=
  call_gemini_with_retry c w.

(** The exception an attempt ends with, if it does not give a text. *)
Definition exception_of (o : attempt_outcome) : option string :=
  match o with
  | ApiError e => Some e
  | EmptyText => Some "ValueError: LLM returned an empty response."
  | ResponseText _ => None
  end.

End NormalizerClient.

(** ** [normalization/unit_normalizer.py] *)

Module UnitNormalizer.

Import NormalizerClient.

(** [get_filing_context_for_analysis(doc_id, session)]. *)
Definition get_filing_context_for_analysis (doc_id : Z) (db : Db.t)
  : Py.result (option StatementNormalizedData.t * option ParsedContent.t) :=
  match Database.staged_by_doc_id doc_id db with
  | None => Py.Raised "ValueError: No staged data found"
  | Some staged_data =>
      match Database.parsed_by_doc_id doc_id db with
      | None => Py.Raised "ValueError: No parsed document found"
      | Some parsed_doc =>
          Py.Returned
            (NormalizedData.statement_normalized_data
               (StagedNormalizedData.normalized_data staged_data),
             ParsedDocument.content parsed_doc)
      end
  end.

(** [create_llm_analysis_payload(statement_data, original_content, ticker,
    fiscal_date)]; a null [content] makes the [in] test raise. *)
Definition create_llm_analysis_payload
    (statement_data : option StatementNormalizedData.t)
    (original_content : option ParsedContent.t)
    (ticker fiscal_date : string) : Py.result UnitPayload.t :=
  match original_content with
  | None => Py.Raised "TypeError: argument of type 'NoneType' is not iterable"
  | Some content =>
      let original_statements :=
        match ParsedContent.llm_call_2 content with
        | None => []
        | Some stmts =>
            map (λ stmt,
                   {| UnitPayload.statement_type := default "" (ParsedStatement.statement_type stmt);
                      UnitPayload.currency := default "" (ParsedStatement.currency stmt);
                      UnitPayload.quarter := default "" (ParsedStatement.quarter stmt);
                      UnitPayload.figures := default [] (ParsedStatement.figures stmt) |})
                stmts
        end in
      Py.Returned
        {| UnitPayload.company := ticker;
           UnitPayload.fiscal_date := fiscal_date;
           UnitPayload.statements_with_currency_context := original_statements;
           UnitPayload.note :=
             "Use the 'currency' field from each statement for currency figures in that statement" |}
  end.

(** [key in analysis] on the decoded value: the key test of a dictionary,
    the element test of a list, the substring test of a string; null, a
    boolean or a number is not iterable and the test raises [TypeError]. *)
Definition key_in (key : string) (analysis : body) : Py.result bool :=
  match analysis with
  | NotJson _ => Py.Raised "JSONDecodeError"
  | UnitAnalysisJson a =>
      Py.Returned
        (if String.eqb key "filing_analysis"
         then bool_decide (is_Some (RawAnalysis.filing_analysis a))
         else if String.eqb key "statement_analyses"
         then bool_decide (is_Some (RawAnalysis.statement_analyses a))
         else false)
  | LabelMappingsJson items => Py.Returned (existsb (String.eqb key) (map fst items))
  | JsonArray elements =>
      Py.Returned
        (existsb (λ e, match e with Some s => String.eqb key s | None => false end)
                 elements)
  | JsonString s => Py.Returned (Py.contains key s)
  | JsonScalar _ => Py.Raised "TypeError: argument is not iterable"
  end.

(** [all(key in analysis for key in required_keys)], from left to right. *)
Definition all_required_keys (analysis : body) : Py.result bool :=
  match key_in "filing_analysis" analysis with
  | Py.Raised e => Py.Raised e
  | Py.Returned false => Py.Returned false
  | Py.Returned true => key_in "statement_analyses" analysis
  end.

(** [parse_llm_unit_analysis(response_text)]: decode, test the two names
    with [in], and return the decoded value as it is. A text that is no
    JSON and a value that fails the test raise [ValueError]; the [TypeError]
    of a value that is not iterable is not caught by the [except] clause and
    leaves the function as it is. *)
Definition parse_llm_unit_analysis (response_text : body) : Py.result body :=
  match response_text with
  | NotJson _ => Py.Raised "ValueError: Could not parse unit analysis from LLM"
  | analysis =>
      match all_required_keys analysis with
      | Py.Returned true => Py.Returned analysis
      | Py.Returned false => Py.Raised "ValueError: Could not parse unit analysis from LLM"
      | Py.Raised e => Py.Raised e
      end
  end.

(** The decoded value as the analysis the later code reads: an object with
    both sections. On anything else that passed the test of the names the
    later code raises: indexing a list or a string with
    ['statement_analyses'] is a [TypeError], and in an object from strings
    to strings or null the section is null or a string, which cannot be
    iterated as statements or has no [get]. *)
Definition as_analysis (decoded : body) : option Analysis.t :=
  match decoded with
  | UnitAnalysisJson a =>
      match RawAnalysis.filing_analysis a, RawAnalysis.statement_analyses a with
      | Some fa, Some sas =>
          Some {| Analysis.filing_analysis := fa; Analysis.statement_analyses := sas |}
      | _, _ => None
      end
  | _ => None
  end.

(** [analyze_units_with_llm(doc_id, session)]: every exception is logged and
    raised again. *)
Definition analyze_units_with_llm (doc_id : Z) (db : Db.t) (w : world)
  : Py.result body * world :=
  match get_filing_context_for_analysis doc_id db with
  | Py.Raised e => (Py.Raised e, w)
  | Py.Returned (statement_data, original_content) =>
      match Database.staged_by_doc_id doc_id db with
      | None => (Py.Raised "NoResultFound", w)
      | Some staged_data =>
          match create_llm_analysis_payload statement_data original_content
                  (StagedNormalizedData.ticker staged_data)
                  (StagedNormalizedData.fiscal_date staged_data) with
          | Py.Raised e => (Py.Raised e, w)
          | Py.Returned analysis_payload =>
              match call_gemini_with_json (UnitContext analysis_payload) w with
              | (Py.Raised e, w') => (Py.Raised e, w')
              | (Py.Returned response_text, w') =>
                  (parse_llm_unit_analysis response_text, w')
              end
          end
      end
  end.

(** The entry [determine_review_requirement] appends for a low-confidence
    figure. *)
Definition suspicious_entry (stmt_analysis : StatementAnalysis.t) (figure : Figure.t)
  : SuspiciousFigure.t :=
  {| SuspiciousFigure.statement_type := StatementAnalysis.statement_type stmt_analysis;
     SuspiciousFigure.standard_mapping :=
       default "unknown" (StatementAnalysis.standard_mapping stmt_analysis);
     SuspiciousFigure.label := Figure.label figure;
     SuspiciousFigure.value := Figure.value figure;
     SuspiciousFigure.representation := Figure.representation figure;
     SuspiciousFigure.reasoning :=
       default "Low confidence from LLM" (Figure.reasoning figure) |}.

Definition is_low (figure : Figure.t) : bool :=
  String.eqb (Figure.confidence figure) "low".

(** [determine_review_requirement(analysis)]. *)
Definition determine_review_requirement (analysis : Analysis.t)
  : bool * list SuspiciousFigure.t :=
  let suspicious_figures :=
    flat_map (λ stmt_analysis,
                map (suspicious_entry stmt_analysis)
                    (List.filter is_low (StatementAnalysis.figures stmt_analysis)))
             (Analysis.statement_analyses analysis) in
  let filing_requires_review :=
    default false (FilingAnalysis.requires_human_review (Analysis.filing_analysis analysis)) in
  ((0 <? length suspicious_figures) || filing_requires_review, suspicious_figures).

(** [apply_unit_normalization_to_data(staged_data, analysis)]. *)
Definition apply_unit_normalization_to_data (staged_data : StagedNormalizedData.t)
    (analysis : Analysis.t) : UnitNormalizedData.t :=
  {| UnitNormalizedData.llm_unit_analysis := Some analysis |}.

(** [sum(len(stmt['figures']) for stmt in analysis['statement_analyses'])]. *)
Definition total_figures (analysis : Analysis.t) : nat :=
  list_sum (map (λ stmt, length (StatementAnalysis.figures stmt))
                (Analysis.statement_analyses analysis)).

(** [updated_data['unit_normalized_data'] = unit_normalized_data]. *)
Definition with_unit_normalized_data (u : UnitNormalizedData.t) (d : NormalizedData.t)
  : NormalizedData.t :=
  {| NormalizedData.statement_normalized_data := NormalizedData.statement_normalized_data d;
     NormalizedData.unit_normalized_data := Some u;
     NormalizedData.label_normalized_data := NormalizedData.label_normalized_data d |}.

(** The committed write of the auto-approve branch: the row of [doc_id] gets
    the new payload. *)
Definition store_normalized_data (doc_id : Z) (d : NormalizedData.t) (db : Db.t) : Db.t :=
  Database.with_staged
    (map (λ r, if Z.eqb (StagedNormalizedData.doc_id r) doc_id
               then Database.set_normalized_data d r else r)
         (Db.staged_normalized_data db))
    db.

(** [process_unit_normalization_discovery(doc_id, session)]: the status to
    give the document, with the tables and the world afterwards. Any
    exception is logged, the session rolled back and ['PENDING'] returned:
    that of the analysis, that of [determine_review_requirement] on a
    decoded value that is no analysis, and that of the insert into the
    queue. *)
Definition process_unit_normalization_discovery (doc_id : Z) (db : Db.t) (w : world)
  : string * Db.t * world :=
  match Database.staged_by_doc_id doc_id db with
  | None => ("PENDING", db, w)
  | Some staged_data =>
      match Database.parsed_by_doc_id doc_id db with
      | None => ("PENDING", db, w)
      | Some parsed_doc =>
          match analyze_units_with_llm doc_id db w with
          | (Py.Raised _, w') => ("PENDING", db, w')
          | (Py.Returned decoded, w') =>
              match as_analysis decoded with
              | None => ("PENDING", db, w')
              | Some analysis =>
                  let '(requires_review, suspicious_figures) :=
                    determine_review_requirement analysis in
                  if requires_review then
                    let review_data :=
                      Database.new_unit_review_row doc_id
                        (ParsedDocument.asset_id parsed_doc)
                        (StagedNormalizedData.ticker staged_data)
                        (StagedNormalizedData.fiscal_date staged_data)
                        analysis
                        {| FilingData.suspicious_figures := suspicious_figures;
                           FilingData.total_figures_analyzed := total_figures analysis;
                           FilingData.low_confidence_count := length suspicious_figures |} in
                    match Database.create_unit_review_record review_data db with
                    | Py.Returned db' => ("PENDING_REVIEW", db', w')
                    | Py.Raised _ => ("PENDING", db, w')
                    end
                  else
                    let unit_normalized_data :=
                      apply_unit_normalization_to_data staged_data analysis in
                    let updated_data :=
                      with_unit_normalized_data unit_normalized_data
                        (StagedNormalizedData.normalized_data staged_data) in
                    ("AUTO_APPROVED", store_normalized_data doc_id updated_data db, w')
              end
          end
      end
  end.

(** [status_updates[status].append(doc_id)], the dictionary kept in
    insertion order. *)
Fixpoint add_status_update (status : string) (doc_id : Z)
    (status_updates : list (string * list Z)) : list (string * list Z) :=
  match status_updates with
  | [] => [(status, [doc_id])]
  | (s, doc_list) :: rest =>
      if String.eqb s status then (s, doc_list ++ [doc_id]) :: rest
      else (s, doc_list) :: add_status_update status doc_id rest
  end.

(** The [for doc_id in doc_ids_to_process] loop. *)
Fixpoint process_all (doc_ids_to_process : list Z)
    (status_updates : list (string * list Z)) (db : Db.t) (w : world)
  : list (string * list Z) * Db.t * world :=
  match doc_ids_to_process with
  | [] => (status_updates, db, w)
  | doc_id :: rest =>
      let '(status, db', w') := process_unit_normalization_discovery doc_id db w in
      process_all rest (add_status_update status doc_id status_updates) db' w'
  end.

(** The [for status, doc_list in status_updates.items()] loop. *)
Fixpoint mark_all (status_updates : list (string * list Z)) (db : Db.t) : Db.t :=
  match status_updates with
  | [] => db
  | (status, doc_list) :: rest =>
      mark_all rest (Database.mark_docs_unit_review_status doc_list status db)
  end.

(** The sweep over a given list of documents: the two loops of
    [run_unit_normalizer_discovery]. *)
Definition discovery_sweep (doc_ids_to_process : list Z) (db : Db.t) (w : world)
  : Db.t * world :=
  let '(status_updates, db', w') := process_all doc_ids_to_process [] db w in
  (mark_all status_updates db', w').

(** [run_unit_normalizer_discovery(allow_llm)]; the documents to process are
    the slice [doc_ids[:0]]. *)
Definition run_unit_normalizer_discovery (allow_llm : bool) (db : Db.t) (w : world)
  : Db.t * world :=
  if negb allow_llm then (db, w)
  else
    let doc_ids := Database.get_docs_pending_unit_normalization db in
    match doc_ids with
    | [] => (db, w)
    | _ :: _ =>
        let doc_ids_to_process := take 0 doc_ids in
        discovery_sweep doc_ids_to_process db w
    end.

(** The low-confidence figures of an analysis, each with its statement, in
    the order of the analysis. *)
Definition low_confidence_figures (analysis : Analysis.t)
  : list (StatementAnalysis.t * Figure.t) :=
  flat_map (λ stmt_analysis,
              map (pair stmt_analysis)
                  (List.filter is_low (StatementAnalysis.figures stmt_analysis)))
           (Analysis.statement_analyses analysis).

(** The filing-level flag asks for a review. *)
Definition filing_flag (analysis : Analysis.t) : bool :=
  default false (FilingAnalysis.requires_human_review (Analysis.filing_analysis analysis)).

(** The unit review status of a document, if it has a staged row. *)
Definition unit_review_status_of (doc_id : Z) (db : Db.t) : option string :=
  StagedNormalizedData.unit_review_status <$> Database.staged_by_doc_id doc_id db.

(** The payload of a document, if it has a staged row. *)
Definition normalized_data_of (doc_id : Z) (db : Db.t) : option NormalizedData.t :=
  StagedNormalizedData.normalized_data <$> Database.staged_by_doc_id doc_id db.


End UnitNormalizer.

(** ** [normalization/label_normalizer.py] *)

Module LabelNormalizer.

Import NormalizerClient.

(** A YAML document of the playbook file. *)
Record playbook_doc : Type := {
  statement : option string;
  nodes : option (list Playbook.node)
}.

(** [StatementPlaybookLoader._load_all_statements]: the documents that have
    a statement name and nodes, later ones replacing earlier ones of the same
    name. An unreadable file is the empty list of documents. *)
Fixpoint _load_all_statements (docs : list playbook_doc) (trees : gmap string (list Playbook.node))
  : gmap string (list Playbook.node) :=
  match docs with
  | [] => trees
  | doc :: docs' =>
      match statement doc, nodes doc with
      | Some (String c s), Some (n :: ns) =>
          _load_all_statements docs' (<[String c s := n :: ns]> trees)
      | _, _ => _load_all_statements docs' trees
      end
  end.

(** [StatementPlaybookLoader(path)]: the precomputed [statement_leaves]. *)
Definition StatementPlaybookLoader (docs : list playbook_doc) : gmap string (list string) :=
  Playbook._flatten_leaves <$> _load_all_statements docs ∅.

(** [sp_loader.get_leaves_for(statement_key)]. *)
Definition get_leaves_for (sp_loader : gmap string (list string)) (statement_key : string)
  : list string :=
  default [] (sp_loader !! statement_key).

(** The statement key chosen from [standard_mapping] and, for cash flows,
    from the labels; [None] for an unknown statement. *)
Definition statement_key_of (std_map : string) (figures : list Figure.t) : option string :=
  let std_lower := Py.lower std_map in
  if Py.contains "pnl" std_lower || Py.contains "income" std_lower then Some "pnl"
  else if Py.contains "balance" std_lower then Some "balance_sheet"
  else if Py.contains "cash" std_lower then
    let labels_text := Py.join_spaces (map (λ f, Py.lower (Figure.label f)) figures) in
    if Py.any_in ["profit before"; "extraordinary"; "adjustments"; "working capital"] labels_text
    then Some "cash_flow_indirect"
    else if Py.any_in ["receipts from"; "payments to"; "operating activities - receipts"] labels_text
    then Some "cash_flow_direct"
    else Some "cash_flow_indirect"
  else None.

(** [list({(fig.get('label') or '').strip() for fig in figures if fig.get('label')})];
    Python leaves the order of a set open, the order of first occurrence is
    taken here. *)
Definition raw_labels_of (figures : list Figure.t) : list string :=
  remove_dups
    (map (λ fig, Py.strip (Figure.label fig))
         (List.filter (λ fig, Py.truthy (Figure.label fig)) figures)).

Definition in_processed (label industry : string) (processed : list (string * string)) : bool :=
  existsb (λ p, String.eqb (fst p) label && String.eqb (snd p) industry) processed.

(** What a discovery run carries along: the tables, the world, the set
    [processed_in_this_run] and the list [docs_to_update_status]. *)
Record run_state : Type := {
  db : Db.t;
  w : world;
  processed_in_this_run : list (string * string);
  docs_to_update_status : list Z
}.

(** The labels of a statement that are new relative to the cache. *)
Definition new_labels (raw_labels_this_stmt : list string) (industry : string)
    (st : run_state) : list string :=
  List.filter
    (λ label, negb (in_processed label industry (processed_in_this_run st)) &&
              negb (bool_decide (is_Some (Database.get_label_mapping label (Some industry) (db st)))))
    raw_labels_this_stmt.

(** The cache row written for one returned pair. *)
Definition discovered_row (label industry : string) (mapped_label : option string)
    (doc_id : Z) (ticker stmt_key std_map : string) : LabelMapping.t :=
  {| LabelMapping.raw_label := label;
     LabelMapping.industry := industry;
     LabelMapping.normalized_label := mapped_label;
     LabelMapping.status := "PENDING_REVIEW";
     LabelMapping.processed := false;
     LabelMapping.source_context :=
       Some {| SourceContext.doc_id := doc_id;
               SourceContext.ticker := ticker;
               SourceContext.statement_key := stmt_key;
               SourceContext.standard_mapping := std_map |};
     LabelMapping.last_reviewed_at := None;
     LabelMapping.reviewed_by := None |}.

(** The [for label, mapped_label in llm_mappings.items()] loop. *)
Fixpoint store_mappings (items : list (string * option string)) (industry : string)
    (doc_id : Z) (ticker stmt_key std_map : string) (st : run_state) : run_state :=
  match items with
  | [] => st
  | (label, mapped_label) :: items' =>
      store_mappings items' industry doc_id ticker stmt_key std_map
        {| db := Database.upsert_label_mapping
                   (discovered_row label industry mapped_label doc_id ticker stmt_key std_map)
                   (db st);
           w := w st;
           processed_in_this_run := processed_in_this_run st ++ [(label, industry)];
           docs_to_update_status := docs_to_update_status st |}
  end.

Definition with_world (w' : world) (st : run_state) : run_state :=
  {| db := db st; w := w';
     processed_in_this_run := processed_in_this_run st;
     docs_to_update_status := docs_to_update_status st |}.

(** The body of the [for sa in stmt_analyses] loop. *)
Definition discover_statement (allow_llm : bool) (sp_loader : gmap string (list string))
    (doc_id : Z) (ticker industry : string) (sa : StatementAnalysis.t)
    (st : run_state) : run_state :=
  let std_map := default "" (StatementAnalysis.standard_mapping sa) in
  let figures := StatementAnalysis.figures sa in
  match figures with
  | [] => st
  | _ :: _ =>
      match statement_key_of std_map figures with
      | None => st
      | Some stmt_key =>
          let standard_names := get_leaves_for sp_loader stmt_key in
          match standard_names with
          | [] => st
          | _ :: _ =>
              let new_labels_to_process := new_labels (raw_labels_of figures) industry st in
              match new_labels_to_process with
              | [] => st
              | _ :: _ =>
                  if allow_llm then
                    let context_payload :=
                      {| LabelPayload.industry := industry;
                         LabelPayload.statement_key := stmt_key;
                         LabelPayload.statement_name := StatementAnalysis.statement_type sa;
                         LabelPayload.statement_currency := StatementAnalysis.statement_currency sa;
                         LabelPayload.standard_names := standard_names;
                         LabelPayload.raw_labels := new_labels_to_process |} in
                    match call_gemini_with_json (LabelContext context_payload) (w st) with
                    | (Py.Returned (LabelMappingsJson llm_mappings), w') =>
                        store_mappings llm_mappings industry doc_id ticker stmt_key std_map
                          (with_world w' st)
                    | (Py.Returned _, w') => with_world w' st
                    | (Py.Raised _, w') => with_world w' st
                    end
                  else st
              end
          end
      end
  end.

Definition discover_statements (allow_llm : bool) (sp_loader : gmap string (list string))
    (doc_id : Z) (ticker industry : string) (stmt_analyses : list StatementAnalysis.t)
    (st : run_state) : run_state :=
  fold_left (λ st sa, discover_statement allow_llm sp_loader doc_id ticker industry sa st)
            stmt_analyses st.

(** [record.normalized_data.get('unit_normalized_data', {})
      .get('llm_unit_analysis', {}).get('statement_analyses', [])]. *)
Definition statement_analyses_of (record : StagedNormalizedData.t) : list StatementAnalysis.t :=
  match NormalizedData.unit_normalized_data (StagedNormalizedData.normalized_data record) with
  | Some u =>
      match UnitNormalizedData.llm_unit_analysis u with
      | Some a => Analysis.statement_analyses a
      | None => []
      end
  | None => []
  end.

Definition has_playbook (industry : string) : bool :=
  let l := Py.lower industry in
  String.eqb l "banking" || String.eqb l "banks".

(** The body of the [for doc_id in doc_ids] loop of discovery; reading the
    industry of a company without classification raises. *)
Definition discover_doc (allow_llm : bool) (sp_loader : gmap string (list string))
    (doc_id : Z) (st : run_state) : Py.result run_state :=
  match Database.staged_by_doc_id doc_id (db st) with
  | None => Py.Returned st
  | Some record =>
      match Database.get_company_context (StagedNormalizedData.ticker record) (db st) with
      | None => Py.Returned st
      | Some company_context =>
          match CompanyMaster.classification company_context with
          | None => Py.Raised "AttributeError: 'NoneType' object has no attribute 'industry_name'"
          | Some classification =>
              match Classification.industry_name classification with
              | None => Py.Returned st
              | Some industry =>
                  if negb (Py.truthy industry) || negb (has_playbook industry)
                  then Py.Returned st
                  else
                    match statement_analyses_of record with
                    | [] => Py.Returned st
                    | stmt_analyses =>
                        let st' :=
                          discover_statements allow_llm sp_loader doc_id
                            (StagedNormalizedData.ticker record) industry stmt_analyses st in
                        Py.Returned
                          {| db := db st'; w := w st';
                             processed_in_this_run := processed_in_this_run st';
                             docs_to_update_status := docs_to_update_status st' ++ [doc_id] |}
                    end
              end
          end
      end
  end.

Fixpoint discover_docs (allow_llm : bool) (sp_loader : gmap string (list string))
    (doc_ids : list Z) (st : run_state) : option string * run_state :=
  match doc_ids with
  | [] => (None, st)
  | doc_id :: rest =>
      match discover_doc allow_llm sp_loader doc_id st with
      | Py.Raised e => (Some e, st)
      | Py.Returned st' => discover_docs allow_llm sp_loader rest st'
      end
  end.

(** [run_label_normalizer_discovery(allow_llm)]: the exception that ended
    the run, if any, and the tables and the world afterwards. When the loop
    raises, the final marking is not reached; the cache rows already written
    stay, each was committed by its own call. *)
Definition run_label_normalizer_discovery (allow_llm : bool) (playbook : list playbook_doc)
    (db0 : Db.t) (w0 : world) : option string * Db.t * world :=
  let sp_loader := StatementPlaybookLoader playbook in
  let doc_ids := Database.get_docs_pending_label_normalization db0 in
  match doc_ids with
  | [] => (None, db0, w0)
  | _ :: _ =>
      let st0 := {| db := db0; w := w0; processed_in_this_run := [];
                    docs_to_update_status := [] |} in
      match discover_docs allow_llm sp_loader doc_ids st0 with
      | (Some e, st) => (Some e, db st, w st)
      | (None, st) =>
          (None,
           Database.mark_docs_label_review_status (docs_to_update_status st) "PENDING_REVIEW" (db st),
           w st)
      end
  end.

(** [{fig['label'] for stmt in statement_analyses for fig in stmt['figures']}],
    as a duplicate-free list. *)
Definition all_raw_labels_of (stmt_analyses : list StatementAnalysis.t) : list string :=
  remove_dups (flat_map (λ stmt, map Figure.label (StatementAnalysis.figures stmt)) stmt_analyses).

(** The [for label in all_raw_labels] loop of the critical check, with its
    [break]: whether all labels seen are approved, and [approved_mappings]. *)
Fixpoint check_labels (labels : list string) (industry : option string) (db : Db.t)
    (approved_mappings : gmap string (option string)) : bool * gmap string (option string) :=
  match labels with
  | [] => (true, approved_mappings)
  | label :: labels' =>
      match Database.get_label_mapping label industry db with
      | Some mapping =>
          if String.eqb (LabelMapping.status mapping) "APPROVED"
          then check_labels labels' industry db
                 (<[label := LabelMapping.normalized_label mapping]> approved_mappings)
          else (false, approved_mappings)
      | None => (false, approved_mappings)
      end
  end.

(** The figures of one scope of [statement_normalized_data], added to the
    lookup [original_figures]. *)
Definition add_original_figures (slots : option (list (string * statement_content)))
    (original_figures : gmap string OriginalFigure.t) : gmap string OriginalFigure.t :=
  fold_left
    (λ acc slot,
       match snd slot with
       | StatementDict figs =>
           fold_left (λ acc' fig, <[OriginalFigure.label fig := fig]> acc')
                     (default [] figs) acc
       | NOT_PROVIDED => acc
       end)
    (default [] slots) original_figures.

Definition original_figures_of (record : StagedNormalizedData.t) : gmap string OriginalFigure.t :=
  match NormalizedData.statement_normalized_data (StagedNormalizedData.normalized_data record) with
  | None => ∅
  | Some stmt_norm_data =>
      add_original_figures (StatementNormalizedData.consolidated stmt_norm_data)
        (add_original_figures (StatementNormalizedData.standalone stmt_norm_data) ∅)
  end.

(** The entry stored under a normalized label. *)
Definition final_entry (fig : Figure.t) (original_fig : option OriginalFigure.t) : LabelEntry.t :=
  {| LabelEntry.value := Figure.value fig;
     LabelEntry.representation := Some (Figure.representation fig);
     LabelEntry.currency_context := Figure.currency_context fig;
     LabelEntry.suspect :=
       match original_fig with
       | Some o => default false (OriginalFigure.suspect o)
       | None => false
       end;
     LabelEntry.suspect_reason :=
       match original_fig with
       | Some o => OriginalFigure.suspect_reason o
       | None => None
       end |}.

(** The [for fig in stmt['figures']] loop: the section of one scope after
    the figures of a statement. Only a non-empty normalized label is stored. *)
Definition add_figures (figs : list Figure.t)
    (approved_mappings : gmap string (option string))
    (original_figures : gmap string OriginalFigure.t)
    (section : gmap string LabelEntry.t) : gmap string LabelEntry.t :=
  fold_left
    (λ acc fig,
       let raw_label := Figure.label fig in
       match approved_mappings !! raw_label with
       | Some (Some normalized_label) =>
           if Py.truthy normalized_label
           then <[normalized_label := final_entry fig (original_figures !! raw_label)]> acc
           else acc
       | _ => acc
       end)
    figs section.

(** The [for stmt in statement_analyses] loop building [final_data];
    [stmt['standard_mapping']] raises when the key is missing. *)
Fixpoint build_final_data (stmt_analyses : list StatementAnalysis.t)
    (approved_mappings : gmap string (option string))
    (original_figures : gmap string OriginalFigure.t)
    (final_data : LabelNormalizedData.t) : Py.result LabelNormalizedData.t :=
  match stmt_analyses with
  | [] => Py.Returned final_data
  | stmt :: rest =>
      match StatementAnalysis.standard_mapping stmt with
      | None => Py.Raised "KeyError: 'standard_mapping'"
      | Some std_map =>
          let figs := StatementAnalysis.figures stmt in
          let final_data' :=
            if Py.contains "standalone" std_map
            then {| LabelNormalizedData.standalone :=
                      add_figures figs approved_mappings original_figures
                        (LabelNormalizedData.standalone final_data);
                    LabelNormalizedData.consolidated := LabelNormalizedData.consolidated final_data |}
            else {| LabelNormalizedData.standalone := LabelNormalizedData.standalone final_data;
                    LabelNormalizedData.consolidated :=
                      add_figures figs approved_mappings original_figures
                        (LabelNormalizedData.consolidated final_data) |} in
          build_final_data rest approved_mappings original_figures final_data'
      end
  end.

(** [record.normalized_data['label_normalized_data'] = final_data]. *)
Definition with_label_normalized_data (final_data : LabelNormalizedData.t)
    (d : NormalizedData.t) : NormalizedData.t :=
  {| NormalizedData.statement_normalized_data := NormalizedData.statement_normalized_data d;
     NormalizedData.unit_normalized_data := NormalizedData.unit_normalized_data d;
     NormalizedData.label_normalized_data := Some final_data |}.

(** The industry the application reads for a record; a missing company or
    classification raises. *)
Definition industry_of (record : StagedNormalizedData.t) (db : Db.t)
  : Py.result (option string) :=
  match Database.get_company_context (StagedNormalizedData.ticker record) db with
  | None => Py.Raised "AttributeError: 'NoneType' object has no attribute 'classification'"
  | Some company_context =>
      match CompanyMaster.classification company_context with
      | None => Py.Raised "AttributeError: 'NoneType' object has no attribute 'industry_name'"
      | Some classification => Py.Returned (Classification.industry_name classification)
      end
  end.

(** The body of the [for doc_id in doc_ids] loop of the application:
    [None] when the document is skipped, its final data when it is applied. *)
Definition apply_doc (doc_id : Z) (db : Db.t) : Py.result (option LabelNormalizedData.t) :=
  match Database.staged_by_doc_id doc_id db with
  | None => Py.Raised "NoResultFound"
  | Some record =>
      match industry_of record db with
      | Py.Raised e => Py.Raised e
      | Py.Returned industry =>
          let stmt_analyses := statement_analyses_of record in
          let all_raw_labels := all_raw_labels_of stmt_analyses in
          let '(all_approved, approved_mappings) :=
            check_labels all_raw_labels industry db ∅ in
          if negb all_approved then Py.Returned None
          else
            match build_final_data stmt_analyses approved_mappings
                    (original_figures_of record)
                    {| LabelNormalizedData.standalone := ∅;
                       LabelNormalizedData.consolidated := ∅ |} with
            | Py.Raised e => Py.Raised e
            | Py.Returned final_data => Py.Returned (Some final_data)
            end
      end
  end.

(** The loop over the pending documents: the documents applied, each with
    its final data, in order. *)
Fixpoint apply_docs (doc_ids : list Z) (db : Db.t)
    (successful : list (Z * LabelNormalizedData.t))
  : Py.result (list (Z * LabelNormalizedData.t)) :=
  match doc_ids with
  | [] => Py.Returned successful
  | doc_id :: rest =>
      match apply_doc doc_id db with
      | Py.Raised e => Py.Raised e
      | Py.Returned None => apply_docs rest db successful
      | Py.Returned (Some final_data) =>
          apply_docs rest db (successful ++ [(doc_id, final_data)])
      end
  end.

(** The write of one applied document: its row gets the final data. *)
Definition store_final_data (p : Z * LabelNormalizedData.t) (db : Db.t) : Db.t :=
  Database.with_staged
    (map (λ r, if Z.eqb (StagedNormalizedData.doc_id r) (fst p)
               then Database.set_normalized_data
                      (with_label_normalized_data (snd p)
                         (StagedNormalizedData.normalized_data r)) r
               else r)
         (Db.staged_normalized_data db))
    db.

(** [session.commit()]: the payloads changed in the session are written. *)
Definition commit_final_data (successful : list (Z * LabelNormalizedData.t)) (db : Db.t) : Db.t :=
  fold_left (λ acc p, store_final_data p acc) successful db.

(** [run_label_normalizer_application()]. An exception leaves the tables as
    they were: nothing has been committed before the loop ends. *)
Definition run_label_normalizer_application (db : Db.t) : Py.result Db.t :=
  let doc_ids := Database.get_docs_pending_label_review db in
  match doc_ids with
  | [] => Py.Returned db
  | _ :: _ =>
      match apply_docs doc_ids db [] with
      | Py.Raised e => Py.Raised e
      | Py.Returned [] => Py.Returned db
      | Py.Returned successful =>
          Py.Returned
            (Database.mark_docs_label_review_status (map fst successful) "APPROVED"
               (commit_final_data successful db))
      end
  end.

(** The label review status of a document, if it has a staged row. *)
Definition label_review_status_of (doc_id : Z) (db : Db.t) : option string :=
  StagedNormalizedData.label_review_status <$> Database.staged_by_doc_id doc_id db.


(** Every distinct raw label of the document has a cache entry under
    [(raw_label, industry)] whose status is exactly APPROVED. *)
Definition all_labels_approved (record : StagedNormalizedData.t) (industry : option string)
    (db : Db.t) : Prop :=
  ∀ label, label ∈ all_raw_labels_of (statement_analyses_of record) →
    ∃ mapping, Database.get_label_mapping label industry db = Some mapping ∧
               LabelMapping.status mapping = "APPROVED".

(** The application can run to its end: every document waiting for label
    review has a company with a classification, and each statement of its
    unit analysis has a [standard_mapping]. *)
Definition application_can_run (db : Db.t) : Prop :=
  ∀ doc_id record,
    doc_id ∈ Database.get_docs_pending_label_review db →
    Database.staged_by_doc_id doc_id db = Some record →
    (∃ industry, industry_of record db = Py.Returned industry) ∧
    ∀ stmt, stmt ∈ statement_analyses_of record →
            is_Some (StatementAnalysis.standard_mapping stmt).



(** The keys of the cache rows. *)
Definition cache_keys (db : Db.t) : list (string * string) :=
  map LabelMapping.key (Db.label_mapping_cache db).

(** A request asks only for labels that have no cache row in [db]. *)
Definition uncached_request (db : Db.t) (c : context) : Prop :=
  match c with
  | LabelContext p =>
      ∀ label, label ∈ LabelPayload.raw_labels p →
               Database.get_label_mapping label (Some (LabelPayload.industry p)) db = None
  | UnitContext _ => False
  end.

(** The cache keys written when the response to a request is stored: one
    for each returned pair, under the industry of the request. A failed
    attempt and a response that is no object of mappings write nothing. *)
Definition stored_keys (c : context) (o : attempt_outcome) : list (string * string) :=
  match c, o with
  | LabelContext p, ResponseText (LabelMappingsJson items) =>
      map (λ item, (item.1, LabelPayload.industry p)) items
  | _, _ => []
  end.

(** The keys written for a list of exchanges, each a request with the
    outcome of the attempt. *)
Definition keys_stored (exchanges : list (context * attempt_outcome))
  : list (string * string) :=
  flat_map (λ e, stored_keys e.1 e.2) exchanges.

(** The outcomes the service gives to the next [n] attempts, from its
    script. *)
Fixpoint outcomes_given (script : list attempt_outcome) (n : nat)
  : list attempt_outcome :=
  match n with
  | 0 => []
  | S n' =>
      match script with
      | [] => ApiError "service unavailable" :: outcomes_given [] n'
      | o :: rest => o :: outcomes_given rest n'
      end
  end.

(** A request of label discovery that asks for no label having one of the
    [keys] under its industry. *)
Definition asks_none_of (keys : list (string * string)) (c : context) : Prop :=
  match c with
  | LabelContext p =>
      ∀ label, label ∈ LabelPayload.raw_labels p →
               (label, LabelPayload.industry p) ∉ keys
  | UnitContext _ => False
  end.

(** From [(db0, w0)] to [(db, w)] the attempts made are the requests of a
    list of exchanges whose outcomes are those of the script; the cache has
    the keys of before and those written for the exchanges; and each request
    asks for no label that was in the cache when it was made, that is, none
    with a key of [db0] or a key written for an earlier exchange. *)
Definition requests_follow_live_cache (db0 : Db.t) (w0 : world) (db : Db.t) (w : world)
  : Prop :=
  ∃ exchanges : list (context * attempt_outcome),
    attempts_made w = attempts_made w0 ++ exchanges.*1 ∧
    exchanges.*2 = outcomes_given (service w0) (length exchanges) ∧
    service w = drop (length exchanges) (service w0) ∧
    (∀ key, key ∈ cache_keys db ↔ key ∈ cache_keys db0 ∨ key ∈ keys_stored exchanges) ∧
    ∀ before c o after,
      exchanges = before ++ (c, o) :: after →
      asks_none_of (cache_keys db0 ++ keys_stored before) c.

(** Between two states of a run: the attempts made in between ask only for
    labels uncached at the start, no cache row disappears, and the cache
    keys stay pairwise distinct. *)
Definition discovery_step_ok (db : Db.t) (w : world) (db' : Db.t) (w' : world) : Prop :=
  (∃ new, attempts_made w' = attempts_made w ++ new ∧ Forall (uncached_request db) new) ∧
  (∀ label industry, Database.get_label_mapping label industry db' = None →
                     Database.get_label_mapping label industry db = None) ∧
  (NoDup (cache_keys db) → NoDup (cache_keys db')).

End LabelNormalizer.

(** ** [quality_engine/playbook_utils.py]: the expected leaves per statement *)

Module PlaybookUtils.

(** The common key a statement name is mapped to. *)
Definition normalized_key_of (statement_key : string) : string :=
  if Py.contains "pnl" statement_key then "pnl"
  else if Py.contains "balance_sheet" statement_key then "balance_sheet"
  else if Py.contains "cash_flow" statement_key then "cash_flow"
  else statement_key.

(** The body of the [for doc in playbook_docs] loop; a document without
    [statement] (or with an empty one) is passed over, a missing [nodes] key
    counts as no nodes. *)
Definition load_doc (doc : LabelNormalizer.playbook_doc)
    (playbook_leaf_nodes : gmap string (list string)) : gmap string (list string) :=
  match LabelNormalizer.statement doc with
  | Some (String c s) =>
      let statement_key := String c s in
      let normalized_key := normalized_key_of statement_key in
      let leaf_nodes :=
        Playbook._get_leaf_ids_recursive (default [] (LabelNormalizer.nodes doc)) in
      if String.eqb normalized_key "cash_flow" then
        let existing_leaves : gset string :=
          list_to_set (default [] (playbook_leaf_nodes !! normalized_key)) in
        <[normalized_key := Py.sorted (elements (existing_leaves ∪ list_to_set leaf_nodes))]>
          playbook_leaf_nodes
      else <[normalized_key := leaf_nodes]> playbook_leaf_nodes
  | _ => playbook_leaf_nodes
  end.

(** [load_playbook_leaf_nodes()], on the YAML documents of the playbook. *)
Definition load_playbook_leaf_nodes (playbook_docs : list LabelNormalizer.playbook_doc)
  : gmap string (list string) :=
  fold_left (λ acc doc, load_doc doc acc) playbook_docs ∅.

(** A document that names a statement mapped to the key [k]. *)
Definition doc_for (k : string) (doc : LabelNormalizer.playbook_doc) : Prop :=
  ∃ c s, LabelNormalizer.statement doc = Some (String c s) ∧
         normalized_key_of (String c s) = k.

(** The leaves of a document. *)
Definition doc_leaves (doc : LabelNormalizer.playbook_doc) : list string :=
  Playbook._get_leaf_ids_recursive (default [] (LabelNormalizer.nodes doc)).

End PlaybookUtils.

(** ** [quality_engine/stage1/stage1.py]: the completeness stage, with the
    quality-run helpers of [storage/database.py] *)

Module Stage1.

Import QualityEngine.

(** The content of a parsed document as stage 1 reads it: the
    [llm_call_2_extraction] block, a dictionary from statement keys to
    statement dictionaries (or null). *)
Record content : Type := {
  llm_call_2_extraction : option (list (string * option Completeness.statement_data))
}.

(** The [updates] dictionary of [update_quality_run], for the columns stage 1
    writes: a column is [None] when the dictionary has no such key. *)
Record updates : Type := {
  upd_stage_1_status : option string;
  upd_failure_reason : option (option string);
  upd_details : option (option run_details)
}.

(** The [values] clause of the update, with the keys of [updates], on a row. *)
Definition apply_updates (u : updates) (r : QualityEngineRun) : QualityEngineRun :=
  {| run_id := run_id r;
     doc_id := doc_id r;
     stage_1_status := default (stage_1_status r) (upd_stage_1_status u);
     stage_2_status := stage_2_status r;
     stage_3_status := stage_3_status r;
     stage_4_status := stage_4_status r;
     stage_5_status := stage_5_status r;
     stage_1_version := stage_1_version r;
     stage_2_version := stage_2_version r;
     stage_3_version := stage_3_version r;
     stage_4_version := stage_4_version r;
     stage_5_version := stage_5_version r;
     failure_reason := default (failure_reason r) (upd_failure_reason u);
     details := default (details r) (upd_details u);
     playbook_config_hash := playbook_config_hash r |}.

(** [update_quality_run(run_id, updates)]:
    [UPDATE ... WHERE run_id = :run_id]. *)
Definition update_quality_run (id : Z) (u : updates) (runs : list QualityEngineRun)
  : list QualityEngineRun :=
  map (λ r, if Z.eqb (run_id r) id then apply_updates u r else r) runs.

(** [get_runs_by_stage_1_status(statuses)]. *)
Definition get_runs_by_stage_1_status (statuses : list string)
    (runs : list QualityEngineRun) : list QualityEngineRun :=
  List.filter (λ r, existsb (String.eqb (stage_1_status r)) statuses) runs.

(** The playbook key of a statement key; [None] when the loop passes over
    the statement. *)
Definition playbook_key_of (statement_key : string) : option string :=
  if Py.contains "pnl" statement_key then Some "pnl"
  else if Py.contains "balance_sheet" statement_key then Some "balance_sheet"
  else if Py.contains "cash_flow" statement_key then Some "cash_flow"
  else None.

(** The check of one statement, [None] when the loop passes over it. *)
Definition check_statement (playbook_leaf_nodes : gmap string (list string))
    (statement_key : string) (statement_data : option Completeness.statement_data)
  : option Completeness.result :=
  match playbook_key_of statement_key with
  | None => None
  | Some playbook_key =>
      let expected_ids := default [] (playbook_leaf_nodes !! playbook_key) in
      Some (Completeness.run_completeness_check statement_data expected_ids)
  end.

(** The [for statement_key, statement_data in ...items()] loop up to its
    [break]: the first statement whose check fails, with the result. *)
Fixpoint first_failure (playbook_leaf_nodes : gmap string (list string))
    (items : list (string * option Completeness.statement_data))
  : option (string * Completeness.result) :=
  match items with
  | [] => None
  | (statement_key, statement_data) :: rest =>
      match check_statement playbook_leaf_nodes statement_key statement_data with
      | Some result =>
          match Completeness.res_status result with
          | Completeness.FAILURE => Some (statement_key, result)
          | Completeness.SUCCESS => first_failure playbook_leaf_nodes rest
          end
      | None => first_failure playbook_leaf_nodes rest
      end
  end.

(** The update the loop body writes for a run with the given content. *)
Definition updates_for (playbook_leaf_nodes : gmap string (list string))
    (parsed_content : option content) : updates :=
  match parsed_content with
  | Some {| llm_call_2_extraction := Some items |} =>
      match first_failure playbook_leaf_nodes items with
      | Some (statement_key, result) =>
          {| upd_stage_1_status := Some "COMPLETENESS_ERROR";
             upd_failure_reason :=
               Some (Some ("Completeness check failed on: " ++ statement_key)%string);
             upd_details :=
               Some (CompletenessDetails <$> Completeness.res_details result) |}
      | None =>
          {| upd_stage_1_status := Some "COMPLETENESS_CHECK_PASSED";
             upd_failure_reason := None;
             upd_details := None |}
      end
  | _ =>
      {| upd_stage_1_status := Some "COMPLETENESS_ERROR";
         upd_failure_reason :=
           Some (Some "Critical: llm_call_2_extraction block is missing.");
         upd_details := Some (Some (ErrorDetails "Missing extraction data")) |}
  end.

(** [run_stage_1a_checks()], as a transformer of the runs table.
    [playbook_docs] are the documents of the playbook file and [content_of]
    gives [run.parsed_document.content] by document id (the foreign key
    guarantees the document; its content may be null). The runs to process
    are fetched once; each is then updated by its [run_id]. *)
Definition run_stage_1a_checks (playbook_docs : list LabelNormalizer.playbook_doc)
    (content_of : Z → option content) (runs : list QualityEngineRun)
  : list QualityEngineRun :=
  let playbook_leaf_nodes := PlaybookUtils.load_playbook_leaf_nodes playbook_docs in
  if decide (playbook_leaf_nodes = ∅) then runs
  else
    let runs_to_process :=
      get_runs_by_stage_1_status ["PENDING"; "COMPLETENESS_ERROR"] runs in
    match runs_to_process with
    | [] => runs
    | _ :: _ =>
        fold_left
          (λ table run,
             update_quality_run (run_id run)
               (updates_for playbook_leaf_nodes (content_of (doc_id run))) table)
          runs_to_process runs
    end.

(** [run_stage_1_orchestrator()]. *)
Definition run_stage_1_orchestrator := run_stage_1a_checks.

(** A run is fetched by stage 1a. *)
Definition picked (r : QualityEngineRun) : bool :=
  existsb (String.eqb (stage_1_status r)) ["PENDING"; "COMPLETENESS_ERROR"].

(** Every statement of the block that the loop looks at passes its check. *)
Definition all_statements_complete (playbook_leaf_nodes : gmap string (list string))
    (items : list (string * option Completeness.statement_data)) : Prop :=
  ∀ statement_key statement_data result,
    (statement_key, statement_data) ∈ items →
    check_statement playbook_leaf_nodes statement_key statement_data = Some result →
    Completeness.res_status result = Completeness.SUCCESS.

(** What stage 1a does to one row of a table whose run ids are unique. *)
Definition checked_row (playbook_leaf_nodes : gmap string (list string))
    (content_of : Z → option content) (r : QualityEngineRun) : QualityEngineRun :=
  if picked r
  then apply_updates (updates_for playbook_leaf_nodes (content_of (doc_id r))) r
  else r.

(** The columns stage 1a has no business with agree on two rows. *)
Definition same_outside_stage_1a (r r' : QualityEngineRun) : Prop :=
  run_id r' = run_id r ∧ doc_id r' = doc_id r ∧
  (∀ k, stage_version k r' = stage_version k r) ∧
  (∀ k, 2 ≤ k → stage_status k r' = stage_status k r) ∧
  playbook_config_hash r' = playbook_config_hash r.

(** [r'] is [r], or [r] after a verdict of stage 1a. *)
Definition stage_1a_touch (r r' : QualityEngineRun) : Prop :=
  r' = r ∨
  (same_outside_stage_1a r r' ∧
   (stage_1_status r' = "COMPLETENESS_ERROR" ∨
    stage_1_status r' = "COMPLETENESS_CHECK_PASSED")).

End Stage1.

(** ** [normalization/statement_normalizer.py]: the statement slots *)

Module StatementNormalizer.

(** [EXPECTED_STATEMENTS]. *)
Definition EXPECTED_STATEMENTS : list string :=
  ["standalone_pnl"; "standalone_balance_sheet"; "standalone_cash_flow";
   "consolidated_pnl"; "consolidated_balance_sheet"; "consolidated_cash_flow"].

(** One entry of [content['llm_call_1']['statements_found']]; the mapping
    may be null. *)
Record statement_found : Type := {
  statement_name : string;
  mapping : option string
}.

(** [create_statement_mapping(statements_found, raw_statements)]: a later
    entry of the same name replaces an earlier one. *)
Definition create_statement_mapping (statements_found : list statement_found)
  : gmap string (option string) :=
  fold_left (λ m stmt, <[statement_name stmt := mapping stmt]> m)
    statements_found ∅.

(** A statement with its [standard_mapping] key added. *)
Definition statement_with_mapping : Type := (ParsedStatement.t * string)%type.

(** The value of a slot of a filing. *)
Inductive slot : Type :=
| NotProvided
| Provided (statement : ParsedStatement.t) (standard_mapping : string).

(** The three accumulators of the first loop. *)
Record loop_state : Type := {
  standalone_statements : list statement_with_mapping;
  consolidated_statements : list statement_with_mapping;
  found : gset string
}.

(** [statement_mapping.get(statement_name)] when it is truthy. *)
Definition lookup_mapping (statement_mapping : gmap string (option string))
    (statement_name : string) : option string :=
  match statement_mapping !! statement_name with
  | Some (Some standard_mapping) =>
      if Py.truthy standard_mapping then Some standard_mapping else None
  | _ => None
  end.

(** The body of the first loop; reading [statement['statement_type']] of a
    statement that has no such key raises. *)
Definition categorize_step (statement_mapping : gmap string (option string))
    (st : loop_state) (statement : ParsedStatement.t) : Py.result loop_state :=
  match ParsedStatement.statement_type statement with
  | None => Py.Raised "KeyError"
  | Some statement_name =>
      match lookup_mapping statement_mapping statement_name with
      | None => Py.Returned st
      | Some standard_mapping =>
          let found' := found st ∪ {[standard_mapping]} in
          if Py.contains "standalone" standard_mapping then
            Py.Returned
              {| standalone_statements :=
                   standalone_statements st ++ [(statement, standard_mapping)];
                 consolidated_statements := consolidated_statements st;
                 found := found' |}
          else if Py.contains "consolidated" standard_mapping then
            Py.Returned
              {| standalone_statements := standalone_statements st;
                 consolidated_statements :=
                   consolidated_statements st ++ [(statement, standard_mapping)];
                 found := found' |}
          else
            Py.Returned
              {| standalone_statements := standalone_statements st;
                 consolidated_statements := consolidated_statements st;
                 found := found' |}
      end
  end.

Fixpoint categorize_loop (statement_mapping : gmap string (option string))
    (raw_statements : list ParsedStatement.t) (st : loop_state)
  : Py.result loop_state :=
  match raw_statements with
  | [] => Py.Returned st
  | statement :: rest =>
      match categorize_step statement_mapping st statement with
      | Py.Raised e => Py.Raised e
      | Py.Returned st' => categorize_loop statement_mapping rest st'
      end
  end.

(** [next((stmt for stmt in statements if stmt['standard_mapping'] ==
    expected), None)], then [found_stmt if found_stmt else "NOT_PROVIDED"]. *)
Definition slot_for (statements : list statement_with_mapping) (expected : string)
  : slot :=
  match find (λ stmt, String.eqb (snd stmt) expected) statements with
  | Some (statement, standard_mapping) => Provided statement standard_mapping
  | None => NotProvided
  end.

(** The dictionary [categorize_statements] returns; the filings are in the
    order their keys are inserted. *)
Record categorized : Type := {
  standalone : list (string * slot);
  consolidated : list (string * slot);
  found_statements : gset string;
  missing_statements : list string
}.

(** [categorize_statements(raw_statements, statement_mapping)]. *)
Definition categorize_statements (raw_statements : list ParsedStatement.t)
    (statement_mapping : gmap string (option string)) : Py.result categorized :=
  match categorize_loop statement_mapping raw_statements
          {| standalone_statements := []; consolidated_statements := [];
             found := ∅ |} with
  | Py.Raised e => Py.Raised e
  | Py.Returned st =>
      Py.Returned
        {| standalone :=
             map (λ expected, (expected, slot_for (standalone_statements st) expected))
               ["standalone_pnl"; "standalone_balance_sheet"; "standalone_cash_flow"];
           consolidated :=
             map (λ expected, (expected, slot_for (consolidated_statements st) expected))
               ["consolidated_pnl"; "consolidated_balance_sheet";
                "consolidated_cash_flow"];
           found_statements := found st;
           missing_statements :=
             List.filter (λ stmt, bool_decide (stmt ∉ found st)) EXPECTED_STATEMENTS |}
  end.

(** The standard mapping of a raw statement, if it has a type that the
    mapping knows. *)
Definition standard_mapping_of (statement_mapping : gmap string (option string))
    (statement : ParsedStatement.t) : option string :=
  statement_name ← ParsedStatement.statement_type statement;
  lookup_mapping statement_mapping statement_name.

(** [statement] is the first of [raw_statements] that maps to [expected]. *)
Definition first_mapped_to (statement_mapping : gmap string (option string))
    (raw_statements : list ParsedStatement.t) (expected : string)
    (statement : ParsedStatement.t) : Prop :=
  ∃ before after,
    raw_statements = before ++ statement :: after ∧
    standard_mapping_of statement_mapping statement = Some expected ∧
    Forall (λ s, standard_mapping_of statement_mapping s ≠ Some expected) before.

(** The raw statements that have a standard mapping, each with it, in
    order. *)
Definition mapped_statements (statement_mapping : gmap string (option string))
    (raw_statements : list ParsedStatement.t) : list statement_with_mapping :=
  omap (λ s, sm ← standard_mapping_of statement_mapping s; Some (s, sm))
    raw_statements.

End StatementNormalizer.

(** ** [llm/normalizer_client.py]: cleaning the text of a response *)

Module ResponseCleaning.

(** [text.startswith(sub)]. *)
Fixpoint startswith (sub text : string) : bool :=
  match sub with
  | EmptyString => true
  | String a sub' =>
      match text with
      | EmptyString => false
      | String b text' => Ascii.eqb a b && startswith sub' text'
      end
  end.

(** Where the scan of [re.sub] stands: looking for the next match, inside
    the literal of a match with [remaining] characters of it to pass, or in
    the white space that follows the literal. *)
Inductive sub_mode : Type :=
| Scanning
| InLiteral (remaining : nat)
| InSpace.

Definition after_literal (remaining : nat) : sub_mode :=
  match remaining with
  | 0 => InSpace
  | S _ => InLiteral remaining
  end.

(** [re.sub(fence + r'\s*', '', text)] for a literal, non-empty [fence]:
    the matches are found from left to right and do not overlap; a match
    starts wherever the text continues with [fence] and extends over all the
    white space after it; what is outside the matches is kept. *)
Fixpoint re_sub_fence (fence : string) (mode : sub_mode) (text : string) : string :=
  match text with
  | EmptyString => EmptyString
  | String c rest =>
      let scan :=
        if startswith fence text
        then re_sub_fence fence (after_literal (String.length fence - 1)) rest
        else String c (re_sub_fence fence Scanning rest) in
      match mode with
      | InLiteral (S k) => re_sub_fence fence (after_literal k) rest
      | InLiteral 0 | InSpace =>
          if Py.is_space c then re_sub_fence fence InSpace rest else scan
      | Scanning => scan
      end
  end.

(** [text.find(sub)], with [None] for [-1]. *)
Fixpoint find (sub text : string) : option nat :=
  if startswith sub text then Some 0
  else match text with
       | EmptyString => None
       | String _ rest => S <$> find sub rest
       end.

(** [text.rfind(sub)], with [None] for [-1]. *)
Fixpoint rfind (sub text : string) : option nat :=
  match text with
  | EmptyString => if startswith sub text then Some 0 else None
  | String _ rest =>
      match rfind sub rest with
      | Some i => Some (S i)
      | None => if startswith sub text then Some 0 else None
      end
  end.

(** The part from the first [opening] to the last [closing], stripped, when
    both occur and the last [closing] is after the first [opening]. *)
Definition json_part (opening closing : string) (response_text : string)
  : option string :=
  match find opening response_text, rfind closing response_text with
  | Some first, Some last =>
      if first <? last
      then Some (Py.strip (String.substring first (last + 1 - first) response_text))
      else None
  | _, _ => None
  end.

(** [clean_json_response(response_text)]. *)
Definition clean_json_response (response_text : string) : string :=
  let response_text := Py.strip response_text in
  let response_text := re_sub_fence "```json" Scanning response_text in
  let response_text := re_sub_fence "```" Scanning response_text in
  match json_part "{" "}" response_text with
  | Some json => json
  | None =>
      match json_part "[" "]" response_text with
      | Some json => json
      | None => response_text
      end
  end.

(** Every character of a text is white space. *)
Fixpoint all_space (text : string) : bool :=
  match text with
  | EmptyString => true
  | String c rest => Py.is_space c && all_space rest
  end.

End ResponseCleaning.

(** ** Sample data *)

Module Examples.

Definition figure (label value confidence : string) : Figure.t :=
  {| Figure.label := label; Figure.value := value;
     Figure.representation := "currency";
     Figure.currency_context := Some "in lacs"; Figure.ratio_context := None;
     Figure.confidence := confidence; Figure.reasoning := None |}.

Definition pnl_statement (figures : list Figure.t) : StatementAnalysis.t :=
  {| StatementAnalysis.statement_type := "Statement of Profit and Loss";
     StatementAnalysis.standard_mapping := Some "standalone_pnl";
     StatementAnalysis.statement_currency := Some "in lacs";
     StatementAnalysis.figures := figures |}.

Definition filing (requires_human_review : bool) : FilingAnalysis.t :=
  {| FilingAnalysis.overall_confidence := Some "high";
     FilingAnalysis.requires_human_review := Some requires_human_review;
     FilingAnalysis.currency_contexts_found := ["in lacs"] |}.

(** An analysis with exactly one figure at low confidence. *)
Definition analysis_one_low : Analysis.t :=
  {| Analysis.filing_analysis := filing false;
     Analysis.statement_analyses :=
       [pnl_statement [figure "Interest Earned" "1200.5" "high";
                       figure "Net NPA %" "0.4" "low"]] |}.

(** An analysis with no low-confidence figure and no filing-level flag. *)
Definition analysis_all_high : Analysis.t :=
  {| Analysis.filing_analysis := filing false;
     Analysis.statement_analyses :=
       [pnl_statement [figure "Interest Earned" "1200.5" "high";
                       figure "Other Income" "310" "high"]] |}.

Definition as_response (a : Analysis.t) : NormalizerClient.attempt_outcome :=
  NormalizerClient.ResponseText
    (NormalizerClient.UnitAnalysisJson
       {| RawAnalysis.filing_analysis := Some (Analysis.filing_analysis a);
          RawAnalysis.statement_analyses := Some (Analysis.statement_analyses a) |}).

Definition empty_payload : NormalizedData.t :=
  {| NormalizedData.statement_normalized_data := None;
     NormalizedData.unit_normalized_data := None;
     NormalizedData.label_normalized_data := None |}.

Definition unit_payload (a : Analysis.t) : NormalizedData.t :=
  {| NormalizedData.statement_normalized_data := None;
     NormalizedData.unit_normalized_data :=
       Some {| UnitNormalizedData.llm_unit_analysis := Some a |};
     NormalizedData.label_normalized_data := None |}.

Definition staged (doc_id : Z) (payload : NormalizedData.t)
    (unit_review_status label_review_status : string) : StagedNormalizedData.t :=
  {| StagedNormalizedData.doc_id := doc_id;
     StagedNormalizedData.ticker := "HDFCBANK";
     StagedNormalizedData.fiscal_date := "2024-03-31";
     StagedNormalizedData.normalized_data := payload;
     StagedNormalizedData.statement_normalized := true;
     StagedNormalizedData.unit_review_status := unit_review_status;
     StagedNormalizedData.label_review_status := label_review_status |}.

Definition parsed (doc_id : Z) : ParsedDocument.t :=
  {| ParsedDocument.doc_id := doc_id;
     ParsedDocument.asset_id := 500;
     ParsedDocument.content :=
       Some {| ParsedContent.llm_call_2 :=
                 Some [ {| ParsedStatement.statement_type := Some "Statement of Profit and Loss";
                           ParsedStatement.currency := Some "in lacs";
                           ParsedStatement.quarter := Some "Q4";
                           ParsedStatement.figures :=
                             Some [ {| RawFigure.label := "Interest Earned";
                                       RawFigure.value := "1200.5" |};
                                    {| RawFigure.label := "Net NPA %";
                                       RawFigure.value := "0.4" |} ] |} ] |} |}.

Definition bank : CompanyMaster.t :=
  {| CompanyMaster.ticker := "HDFCBANK";
     CompanyMaster.classification :=
       Some {| Classification.industry_name := Some "Banking" |} |}.

Definition tables (rows : list StagedNormalizedData.t) (cache : list LabelMapping.t) : Db.t :=
  {| Db.staged_normalized_data := rows;
     Db.parsed_documents := [parsed 1];
     Db.unit_review_queue := [];
     Db.label_mapping_cache := cache;
     Db.company_master := [bank] |}.

(** A statement-normalized document waiting for unit classification. *)
Definition db_unit_pending : Db.t := tables [staged 1 empty_payload "PENDING" "PENDING"] [].

Definition world_with (script : list NormalizerClient.attempt_outcome) : NormalizerClient.world :=
  {| NormalizerClient.service := script;
     NormalizerClient.attempts_made := [];
     NormalizerClient.slept := [] |}.

(** A service that times out on every attempt. *)
Definition timeouts : list NormalizerClient.attempt_outcome :=
  [NormalizerClient.ApiError "DeadlineExceeded";
   NormalizerClient.ApiError "503 Service Unavailable";
   NormalizerClient.ApiError "DeadlineExceeded"].

(** A playbook with the leaves of the profit and loss statement. *)
Definition playbook : list LabelNormalizer.playbook_doc :=
  [ {| LabelNormalizer.statement := Some "pnl";
       LabelNormalizer.nodes :=
         Some [Playbook.Node "income" (Some [Playbook.Node "interest_earned" None None;
                                             Playbook.Node "other_income" None None]) None] |} ].

(** A unit-approved document with three distinct raw labels, waiting for
    label discovery or for label review. *)
Definition analysis_three_labels : Analysis.t :=
  {| Analysis.filing_analysis := filing false;
     Analysis.statement_analyses :=
       [pnl_statement [figure "Interest Earned" "1200.5" "high";
                       figure "Other Income" "310" "high";
                       figure "Net NPA %" "0.4" "high"]] |}.

Definition cached (raw_label : string) (normalized_label : option string) (status : string)
  : LabelMapping.t :=
  {| LabelMapping.raw_label := raw_label;
     LabelMapping.industry := "Banking";
     LabelMapping.normalized_label := normalized_label;
     LabelMapping.status := status;
     LabelMapping.processed := false;
     LabelMapping.source_context := None;
     LabelMapping.last_reviewed_at := None;
     LabelMapping.reviewed_by := None |}.

Definition db_label_pending : Db.t :=
  tables [staged 1 (unit_payload analysis_three_labels) "AUTO_APPROVED" "PENDING"] [].

Definition db_review (cache : list LabelMapping.t) : Db.t :=
  tables [staged 1 (unit_payload analysis_three_labels) "AUTO_APPROVED" "PENDING_REVIEW"] cache.

(** Two labels approved, one still waiting for review. *)
Definition cache_two_of_three : list LabelMapping.t :=
  [cached "Interest Earned" (Some "interest_earned") "APPROVED";
   cached "Other Income" (Some "other_income") "APPROVED";
   cached "Net NPA %" None "PENDING_REVIEW"].

(** All three labels approved, the third with no canonical id. *)
Definition cache_all_approved : list LabelMapping.t :=
  [cached "Interest Earned" (Some "interest_earned") "APPROVED";
   cached "Other Income" (Some "other_income") "APPROVED";
   cached "Net NPA %" None "APPROVED"].


(** An analysis whose second statement has no [standard_mapping]; its only
    figure carries a label of the first statement. *)
Definition analysis_unmapped_statement : Analysis.t :=
  {| Analysis.filing_analysis := filing false;
     Analysis.statement_analyses :=
       [pnl_statement [figure "Interest Earned" "1200.5" "high";
                       figure "Other Income" "310" "high";
                       figure "Net NPA %" "0.4" "high"];
        {| StatementAnalysis.statement_type := "Notes to Accounts";
           StatementAnalysis.standard_mapping := None;
           StatementAnalysis.statement_currency := None;
           StatementAnalysis.figures := [figure "Other Income" "310" "high"] |}] |}.

(** Two documents waiting for label review: a well-formed one, and one with
    the statement without mapping. *)
Definition db_review_unmapped (cache : list LabelMapping.t) : Db.t :=
  tables [staged 2 (unit_payload analysis_three_labels) "AUTO_APPROVED" "PENDING_REVIEW";
          staged 1 (unit_payload analysis_unmapped_statement) "AUTO_APPROVED"
            "PENDING_REVIEW"] cache.

(** A playbook with two cash-flow presentations and two profit-and-loss
    variants. *)
Definition playbook_variants : list LabelNormalizer.playbook_doc :=
  [ {| LabelNormalizer.statement := Some "pnl";
       LabelNormalizer.nodes := Some [Playbook.Node "interest_earned" None None] |};
    {| LabelNormalizer.statement := Some "cash_flow_indirect";
       LabelNormalizer.nodes :=
         Some [Playbook.Node "net_cash_operating" None None;
               Playbook.Node "adjustments" None None] |};
    {| LabelNormalizer.statement := Some "pnl_segment";
       LabelNormalizer.nodes := Some [Playbook.Node "segment_revenue" None None;
                                      Playbook.Node "segment_revenue" None None] |};
    {| LabelNormalizer.statement := Some "cash_flow_direct";
       LabelNormalizer.nodes :=
         Some [Playbook.Node "receipts_from_customers" None None;
               Playbook.Node "net_cash_operating" None None] |} ].

(** A run of the quality engine with the given stage-1 status. *)
Definition quality_run (run_id doc_id : Z) (stage_1_status : string)
  : QualityEngine.QualityEngineRun :=
  {| QualityEngine.run_id := run_id; QualityEngine.doc_id := doc_id;
     QualityEngine.stage_1_status := stage_1_status;
     QualityEngine.stage_1_version := None;
     QualityEngine.stage_2_status := "PENDING"; QualityEngine.stage_2_version := None;
     QualityEngine.stage_3_status := "PENDING"; QualityEngine.stage_3_version := None;
     QualityEngine.stage_4_status := "PENDING"; QualityEngine.stage_4_version := None;
     QualityEngine.stage_5_status := "PENDING"; QualityEngine.stage_5_version := None;
     QualityEngine.failure_reason := None; QualityEngine.details := None;
     QualityEngine.playbook_config_hash := None |}.

Definition normalized (ids : list string) : option Completeness.statement_data :=
  Some {| Completeness.normalized_figures :=
            Some (map (λ i, {| Completeness.playbook_id := Some i;
                               Completeness.value := Some 1%Z |}) ids);
          Completeness.other_keys := [] |}.

(** Document 10 has a complete profit-and-loss statement, document 11 lacks
    a leaf, document 12 has no extraction block. *)
Definition extraction_of (doc_id : Z) : option Stage1.content :=
  if Z.eqb doc_id 10 then
    Some {| Stage1.llm_call_2_extraction :=
              Some [("standalone_pnl", normalized ["interest_earned"; "other_income"]);
                    ("notes", None)] |}
  else if Z.eqb doc_id 11 then
    Some {| Stage1.llm_call_2_extraction :=
              Some [("standalone_pnl", normalized ["interest_earned"])] |}
  else None.

Definition quality_runs : list QualityEngine.QualityEngineRun :=
  [quality_run 1 10 "PENDING"; quality_run 2 11 "PENDING";
   quality_run 3 12 "COMPLETENESS_ERROR"; quality_run 4 13 "COMPLETENESS_CHECK_PASSED"].

(** Two raw statements of the same kind, one that the first call did not
    list, and one that maps outside the six slots. *)
Definition raw_statement (statement_type : string) (label : string)
  : ParsedStatement.t :=
  {| ParsedStatement.statement_type := Some statement_type;
     ParsedStatement.currency := None; ParsedStatement.quarter := None;
     ParsedStatement.figures :=
       Some [{| RawFigure.label := label; RawFigure.value := "1" |}] |}.

Definition raw_statements : list ParsedStatement.t :=
  [raw_statement "Unlisted" "u";
   raw_statement "Standalone Results" "first";
   raw_statement "Segment Results" "s";
   raw_statement "Standalone Results" "second";
   raw_statement "Consolidated Balance Sheet" "c"].

Definition statements_found : list StatementNormalizer.statement_found :=
  [{| StatementNormalizer.statement_name := "Standalone Results";
      StatementNormalizer.mapping := Some "standalone_pnl" |};
   {| StatementNormalizer.statement_name := "Segment Results";
      StatementNormalizer.mapping := Some "segment_results" |};
   {| StatementNormalizer.statement_name := "Consolidated Balance Sheet";
      StatementNormalizer.mapping := Some "consolidated_balance_sheet" |};
   {| StatementNormalizer.statement_name := "Notes";
      StatementNormalizer.mapping := None |}].

End Examples.

(** * Properties *)

(** ** The order on strings and [sorted] *)

Section StringOrder.

Lemma str_le_iff a b : Py.str_le a b ↔ Py.str_lt a b ∨ a = b.
Proof.
  unfold Py.str_le, Py.str_lt, String.leb, String.ltb.
  destruct (String.compare a b) eqn:E.
  - apply String.compare_eq_iff in E. naive_solver.
  - naive_solver.
  - split; [discriminate|]. intros [?| ->]; [discriminate|].
    assert (String_as_OT.cmp b b = Eq) as E' by (by apply String_as_OT.cmp_eq).
    unfold String_as_OT.cmp in E'. congruence.
Qed.

Lemma str_lt_iff a b : Py.str_lt a b ↔ String_as_OT.lt a b.
Proof.
  unfold Py.str_lt, String.ltb. rewrite <- String_as_OT.cmp_lt.
  unfold String_as_OT.cmp. destruct (String.compare a b); naive_solver.
Qed.

Lemma str_lt_irrefl a : ¬ Py.str_lt a a.
Proof.
  rewrite str_lt_iff. intros H. by apply String_as_OT.lt_not_eq in H.
Qed.

Lemma str_lt_trans a b c : Py.str_lt a b → Py.str_lt b c → Py.str_lt a c.
Proof. rewrite !str_lt_iff. apply String_as_OT.lt_trans. Qed.

Lemma str_lt_le_ne a b : Py.str_lt a b ↔ Py.str_le a b ∧ a ≠ b.
Proof.
  rewrite str_le_iff. split.
  - intros H. split; [by left|]. intros ->. by apply str_lt_irrefl in H.
  - intros [[?|?] ?]; done.
Qed.

#[local] Instance str_le_trans : Transitive Py.str_le.
Proof.
  intros a b c. rewrite !str_le_iff.
  intros [H1| ->] [H2| ->]; eauto using str_lt_trans.
Qed.

#[local] Instance str_le_total : Total Py.str_le.
Proof. intros a b. apply String.leb_total. Qed.

#[local] Instance str_le_antisymm : AntiSymm (=) Py.str_le.
Proof. intros a b. apply String.leb_antisym. Qed.

#[local] Instance str_lt_antisymm : AntiSymm (=) Py.str_lt.
Proof.
  intros a b H1 H2. exfalso.
  apply (str_lt_irrefl a). by eapply str_lt_trans.
Qed.

Lemma StronglySorted_le_NoDup_lt (l : list string) :
  StronglySorted Py.str_le l → NoDup l → StronglySorted Py.str_lt l.
Proof.
  induction 1 as [|x l Hs IH Hall]; intros Hnd; [constructor|].
  apply NoDup_cons in Hnd as [Hx Hnd].
  constructor; [by apply IH|].
  rewrite Forall_forall in Hall |- *. intros y Hy.
  apply str_lt_le_ne. split; [by apply Hall|].
  intros ->. by apply Hx, list_elem_of_In.
Qed.

(** [sorted(list(X))] lists the set [X] in strictly increasing order. *)
Lemma sorted_elements_listing (X : gset string) :
  Py.sorted_listing (Py.sorted (elements X)) X.
Proof.
  unfold Py.sorted_listing, Py.sorted. split.
  - apply StronglySorted_le_NoDup_lt.
    + apply StronglySorted_merge_sort; apply _.
    + rewrite merge_sort_Permutation. apply NoDup_elements.
  - intros x. rewrite merge_sort_Permutation. apply elem_of_elements.
Qed.

(** A set has one sorted listing only. *)
Lemma sorted_listing_unique (l1 l2 : list string) (X : gset string) :
  Py.sorted_listing l1 X → Py.sorted_listing l2 X → l1 = l2.
Proof.
  intros [S1 M1] [S2 M2].
  assert (∀ l, StronglySorted Py.str_lt l → NoDup l) as Hnd.
  { induction 1 as [|x l Hs IH Hall]; constructor; [|done].
    intros Hx. rewrite Forall_forall in Hall.
    by apply Hall, str_lt_irrefl in Hx. }
  apply (StronglySorted_unique Py.str_lt); [done..|].
  apply NoDup_Permutation; [by apply Hnd..|].
  intros x. by rewrite M1, M2.
Qed.

End StringOrder.

(** ** Flattening the playbook trees *)

Section Flattening.

Import Playbook.

(** Induction on a tree, with the property available for every child. *)
Lemma node_forall_ind (P : node → Prop) :
  (∀ i e, P (Node i None e)) →
  (∀ i chs e, Forall P chs → P (Node i (Some chs) e)) →
  ∀ n, P n.
Proof.
  intros Hleaf Hnode. fix IH 1. intros [i [chs|] e].
  - apply Hnode. induction chs as [|c chs IHchs]; constructor; [apply IH | exact IHchs].
  - apply Hleaf.
Qed.

Lemma leaf_ids_of_node_children i c cs e :
  leaf_ids_of_node (Node i (Some (c :: cs)) e) = _get_leaf_ids_recursive (c :: cs).
Proof.
  reflexivity.
Qed.

Lemma rec_children i c cs e :
  rec (Node i (Some (c :: cs)) e) = _flatten_leaves (c :: cs).
Proof.
  reflexivity.
Qed.

Lemma preorder_children i chs e :
  preorder (Node i (Some chs) e) = Node i (Some chs) e :: preorder_forest chs.
Proof.
  reflexivity.
Qed.

Lemma spec_flatten_filter nodes :
  spec_flatten nodes = map node_id (List.filter kept (preorder_forest nodes)).
Proof.
  reflexivity.
Qed.

Lemma spec_flatten_app l1 l2 :
  spec_flatten (l1 ++ l2) = spec_flatten l1 ++ spec_flatten l2.
Proof.
  rewrite !spec_flatten_filter. unfold preorder_forest.
  by rewrite flat_map_app, List.filter_app, map_app.
Qed.

Lemma spec_flatten_cons n ns :
  spec_flatten (n :: ns) = spec_flatten [n] ++ spec_flatten ns.
Proof. apply (spec_flatten_app [n] ns). Qed.

Lemma spec_flatten_parent i c cs e :
  spec_flatten [Node i (Some (c :: cs)) e] = spec_flatten (c :: cs).
Proof.
  unfold spec_flatten.
  change (preorder_forest [Node i (Some (c :: cs)) e])
    with (Node i (Some (c :: cs)) e :: (preorder_forest (c :: cs) ++ [])).
  by rewrite app_nil_r.
Qed.

Lemma spec_flatten_childless n :
  childless n = true →
  spec_flatten [n] = if default true (node_extractable n) then [node_id n] else [].
Proof.
  destruct n as [i [[|c cs]|] [[]|]]; intros Hc; try discriminate Hc; reflexivity.
Qed.

Lemma leaf_ids_of_node_spec n : leaf_ids_of_node n = spec_flatten [n].
Proof.
  induction n as [i e|i chs e IH] using node_forall_ind.
  - by rewrite spec_flatten_childless.
  - destruct chs as [|c cs]; [by rewrite spec_flatten_childless|].
    rewrite leaf_ids_of_node_children, spec_flatten_parent.
    unfold _get_leaf_ids_recursive.
    induction IH as [|d ds Hd _ IHds]; [done|].
    rewrite spec_flatten_cons. simpl. by rewrite Hd, IHds.
Qed.

(** The quality engine's leaf collector is the flattening of the design
    document: the pre-order sequence of the childless nodes that are not
    marked non-extractable. *)
Lemma get_leaf_ids_recursive_spec nodes :
  _get_leaf_ids_recursive nodes = spec_flatten nodes.
Proof.
  unfold _get_leaf_ids_recursive.
  induction nodes as [|n ns IH]; [done|].
  rewrite spec_flatten_cons. simpl. by rewrite IH, leaf_ids_of_node_spec.
Qed.

(** What the label mapper's loader computes: the pre-order sequence of all
    childless nodes, whatever their [extractable] flag. *)
Lemma flatten_leaves_childless nodes :
  _flatten_leaves nodes = map node_id (List.filter childless (preorder_forest nodes)).
Proof.
  assert (∀ n, rec n = map node_id (List.filter childless (preorder n))) as Hrec.
  { induction n as [i e|i chs e IH] using node_forall_ind; [done|].
    destruct chs as [|c cs]; [done|].
    rewrite rec_children, preorder_children.
    change (List.filter childless (Node i (Some (c :: cs)) e :: preorder_forest (c :: cs)))
      with (List.filter childless (preorder_forest (c :: cs))).
    unfold _flatten_leaves, preorder_forest.
    induction IH as [|d ds Hd _ IHds]; [done|].
    simpl. by rewrite List.filter_app, map_app, Hd, IHds. }
  unfold _flatten_leaves, preorder_forest.
  induction nodes as [|n ns IH]; [done|].
  simpl. by rewrite List.filter_app, map_app, Hrec, IH.
Qed.

End Flattening.

(** C9. Both flattening implementations are meant to collect, in pre-order,
    exactly the childless nodes not marked non-extractable. The quality
    engine's collector does ([get_leaf_ids_recursive_spec]); the label
    mapper's loader does not look at the flag: on a tree with a childless
    node marked [extractable: false] it collects that node, while the
    quality engine's collector and the described flattening leave it out. *)
Theorem C9_flatten_leaves_ignores_extractable :
  let tree :=
    [Playbook.Node "total_income"
       (Some [Playbook.Node "interest_earned" None None;
              Playbook.Node "memo_item" None (Some false)]) None] in
  Playbook._get_leaf_ids_recursive tree = ["interest_earned"] ∧
  Playbook.spec_flatten tree = ["interest_earned"] ∧
  Playbook._flatten_leaves tree = ["interest_earned"; "memo_item"].
Proof. repeat split; reflexivity. Qed.

(** Neither implementation collects a node that has children. *)
Lemma flatten_never_collects_parent nodes i :
  (i ∈ Playbook._get_leaf_ids_recursive nodes ∨ i ∈ Playbook._flatten_leaves nodes) →
  ∃ n, n ∈ Playbook.preorder_forest nodes ∧ Playbook.node_id n = i ∧
       Playbook.childless n = true.
Proof.
  rewrite get_leaf_ids_recursive_spec, flatten_leaves_childless.
  unfold Playbook.spec_flatten, Playbook.kept.
  intros [H|H]; apply list_elem_of_fmap in H as (n & -> & Hn);
    apply list_elem_of_In, filter_In in Hn as [Hn Hk];
    apply list_elem_of_In in Hn;
    [apply andb_prop in Hk as [Hk _]|]; eauto.
Qed.

(** ** The completeness check *)

Section CompletenessCheck.

Import Completeness.

Lemma present_ids_spec figs x :
  x ∈ present_ids figs ↔
  ∃ item, item ∈ figs ∧ playbook_id item = Some x ∧ Py.truthy x = true.
Proof.
  unfold present_ids. rewrite elem_of_list_to_set, list_elem_of_omap.
  split; intros (item & Hin & H); exists item; split; try done.
  - destruct (playbook_id item) as [s|] eqn:E; simpl in H; [|done].
    destruct (Py.truthy s) eqn:T; naive_solver.
  - destruct H as [-> T]. simpl. by rewrite T.
Qed.

Lemma missing_empty_iff (E : list string) (P : gset string) :
  list_to_set E ∖ P = (∅ : gset string) ↔ ∀ x, x ∈ E → x ∈ P.
Proof.
  split.
  - intros H x Hx. destruct (decide (x ∈ P)) as [|Hn]; [done|].
    assert (x ∈ (list_to_set E ∖ P : gset string)) as Hm
      by (apply elem_of_difference; split; [by apply elem_of_list_to_set|done]).
    rewrite H in Hm. by apply not_elem_of_empty in Hm.
  - intros H. apply set_eq. intros x.
    rewrite elem_of_difference, elem_of_list_to_set. split; [|by intros ?%not_elem_of_empty].
    intros [Hx Hn]. by apply H in Hx.
Qed.

Lemma sorted_nil_iff (X : gset string) : Py.sorted (elements X) = [] ↔ X = ∅.
Proof.
  split.
  - intros H. apply set_eq. intros x.
    pose proof (sorted_elements_listing X) as [_ Hm]. rewrite <- Hm, H.
    split; [by intros ?%elem_of_nil | by intros ?%not_elem_of_empty].
  - intros ->. by rewrite elements_empty.
Qed.

(** The check in terms of the set it computes from the list. *)
Lemma run_completeness_check_present_ids (figs : list figure) (others : list string)
    (E : list string) :
  let P := present_ids figs in
  let r := run_completeness_check
             (Some {| normalized_figures := Some figs; other_keys := others |}) E in
  (res_status r = SUCCESS ↔ ∀ x, x ∈ E → x ∈ P) ∧
  ((∃ x, x ∈ E ∧ x ∉ P) →
     res_status r = FAILURE ∧
     ∃ d l, res_details r = Some d ∧ missing_ids d = Some l ∧
            l = Py.sorted (elements (list_to_set E ∖ P)) ∧
            Py.sorted_listing l (list_to_set E ∖ P)) ∧
  ((∃ x, x ∈ P ∧ x ∉ E) →
     ∃ d l, res_details r = Some d ∧ unexpected_ids d = Some l ∧
            l = Py.sorted (elements (P ∖ list_to_set E)) ∧
            Py.sorted_listing l (P ∖ list_to_set E)) ∧
  ((∀ x, x ∈ E → x ∈ P) → ∀ extra, extra ∈ P → res_status r = SUCCESS).
Proof.
  intros P r. subst r. unfold run_completeness_check. simpl. fold P.
  pose proof (missing_empty_iff E P) as Hmiss.
  pose proof (sorted_nil_iff (P ∖ list_to_set E)) as Hnil.
  pose proof (sorted_elements_listing (P ∖ list_to_set E)) as Hun.
  pose proof (sorted_elements_listing (list_to_set E ∖ P)) as Hmi.
  assert ((∃ x, x ∈ P ∧ x ∉ E) → Py.sorted (elements (P ∖ list_to_set E)) ≠ []) as Hne.
  { intros (x & Hx & Hn) Heq. apply Hnil in Heq.
    assert (x ∈ P ∖ list_to_set E) as Hm
      by (apply elem_of_difference; split; [done|by rewrite elem_of_list_to_set]).
    rewrite Heq in Hm. by apply not_elem_of_empty in Hm. }
  destruct (decide (list_to_set E ∖ P = ∅)) as [Hempty|Hnonempty]; simpl.
  - pose proof (proj1 Hmiss Hempty) as Hsub.
    split; [done|]. split; [|split; [|done]].
    + intros (x & Hx & Hn). by apply Hsub in Hx.
    + intros Hex. specialize (Hne Hex).
      destruct (Py.sorted (elements (P ∖ list_to_set E))) as [|u us] eqn:Eu; [done|].
      by eexists _, _.
  - assert (¬ ∀ x, x ∈ E → x ∈ P) as Hnsub by (by rewrite <- Hmiss).
    split; [done|]. split; [|split; [|done]].
    + intros _. split; [done|]. by eexists _, _.
    + intros Hex. specialize (Hne Hex).
      destruct (Py.sorted (elements (P ∖ list_to_set E))) as [|u us] eqn:Eu; [done|].
      by eexists _, _.
Qed.

(** C1. When the payload has a [normalized_figures] list, let [E] be the
    expected leaf ids and [P] the set of the non-empty [playbook_id] values
    of the items of the list, whether or not an item has a value. The
    status is SUCCESS iff every expected id is in [P]; when some expected id
    is not, the status is FAILURE and [missing_ids] is the sorted listing of
    [E - P]; whenever [P - E] is not empty, [unexpected_ids] is the sorted
    listing of [P - E]; and when every expected id is in [P] the status is
    SUCCESS whatever extra ids are present. *)
Theorem C1_completeness_check_correct (figs : list figure) (others : list string)
    (E : list string) (P : gset string) :
  (∀ x, x ∈ P ↔ ∃ item, item ∈ figs ∧ playbook_id item = Some x ∧ x ≠ "") →
  let r := run_completeness_check
             (Some {| normalized_figures := Some figs; other_keys := others |}) E in
  (res_status r = SUCCESS ↔ ∀ x, x ∈ E → x ∈ P) ∧
  ((∃ x, x ∈ E ∧ x ∉ P) →
     res_status r = FAILURE ∧
     ∃ d l, res_details r = Some d ∧ missing_ids d = Some l ∧
            l = Py.sorted (elements (list_to_set E ∖ P)) ∧
            Py.sorted_listing l (list_to_set E ∖ P)) ∧
  ((∃ x, x ∈ P ∧ x ∉ E) →
     ∃ d l, res_details r = Some d ∧ unexpected_ids d = Some l ∧
            l = Py.sorted (elements (P ∖ list_to_set E)) ∧
            Py.sorted_listing l (P ∖ list_to_set E)) ∧
  ((∀ x, x ∈ E → x ∈ P) → ∀ extra, extra ∈ P → res_status r = SUCCESS).
Proof.
  intros HP.
  assert (P = present_ids figs) as ->.
  { apply set_eq. intros x. rewrite HP, present_ids_spec.
    split; intros (item & Hin & Hid & Hx); exists item; (split; [exact Hin|]);
      (split; [exact Hid|]); destruct x; try done. }
  apply run_completeness_check_present_ids.
Qed.

(** Two items, one of them without a value: both ids are present. *)
Lemma C1_completeness_check_correct_witness :
  let figs := [ {| playbook_id := Some "revenue"; value := Some 10%Z |};
                {| playbook_id := Some "staff_cost"; value := None |};
                {| playbook_id := Some ""; value := Some 1%Z |};
                {| playbook_id := None; value := Some 2%Z |} ] in
  let r := run_completeness_check
             (Some {| normalized_figures := Some figs; other_keys := [] |})
             ["other_exp"; "revenue"; "staff_cost"] in
  res_status r = FAILURE ∧
  ∃ d l, res_details r = Some d ∧ missing_ids d = Some l ∧
         l = Py.sorted (elements (list_to_set ["other_exp"; "revenue"; "staff_cost"]
                                    ∖ ({["revenue"]} ∪ {["staff_cost"]} : gset string))) ∧
         Py.sorted_listing l
           (list_to_set ["other_exp"; "revenue"; "staff_cost"]
              ∖ ({["revenue"]} ∪ {["staff_cost"]} : gset string)).
Proof.
  intros figs r.
  refine (proj1 (proj2 (C1_completeness_check_correct figs []
                   ["other_exp"; "revenue"; "staff_cost"]
                   ({["revenue"]} ∪ {["staff_cost"]}) _)) _).
  - intros x. rewrite elem_of_union, !elem_of_singleton. split.
    + intros [-> | ->].
      * eexists. split; [apply elem_of_cons; left; reflexivity|]. split; [reflexivity|].
        discriminate.
      * eexists. split; [apply elem_of_cons; right; apply elem_of_cons; left; reflexivity|].
        split; [reflexivity | discriminate].
    + intros (item & Hin & Hid & Hx).
      repeat (apply elem_of_cons in Hin as [-> | Hin];
              [cbn in Hid; try discriminate; injection Hid as <-;
               first [left; reflexivity | right; reflexivity | contradiction]|]).
      inversion Hin.
  - exists "other_exp". split; [apply elem_of_cons; left; reflexivity|].
    rewrite elem_of_union, !elem_of_singleton. intros [H|H]; discriminate.
Defined.

(** An item whose value is null counts as present: the only expected id has
    no value in the list, and the check succeeds. *)
Lemma C1_counterexample_id_without_value :
  let figs := [ {| playbook_id := Some "revenue"; value := None |} ] in
  let r := run_completeness_check
             (Some {| normalized_figures := Some figs; other_keys := [] |}) ["revenue"] in
  (¬ ∃ item, item ∈ figs ∧ playbook_id item = Some "revenue" ∧ is_Some (value item)) ∧
  r = {| res_status := SUCCESS; res_details := None |}.
Proof.
  split.
  - intros (item & Hin & _ & [v Hv]).
    apply elem_of_cons in Hin as [-> | Hin]; [discriminate | inversion Hin].
  - vm_compute. reflexivity.
Qed.

(** C8. When the payload is [None], an empty dictionary, or a dictionary
    without the [normalized_figures] key, the result is FAILURE and
    [missing_ids] is the whole list of expected leaf ids, as given. *)
Theorem C8_no_figures_list_is_failure (others : list string) (E : list string) :
  let failure :=
    {| res_status := FAILURE;
       res_details := Some {| missing_ids := Some E; unexpected_ids := None;
                              reason := Some "Normalized figures array not found." |} |} in
  run_completeness_check None E = failure ∧
  run_completeness_check (Some {| normalized_figures := None; other_keys := [] |}) E = failure ∧
  run_completeness_check (Some {| normalized_figures := None; other_keys := others |}) E = failure.
Proof.
  repeat split; try reflexivity.
  unfold run_completeness_check, is_empty_dict. simpl. by destruct others.
Qed.

(** The example of the design document: the tree, its expected leaves, and
    the check with ["other_exp"] absent. *)
Example completeness_example :
  let tree := [Playbook.Node "revenue" None None;
               Playbook.Node "opex" (Some [Playbook.Node "staff_cost" None None;
                                           Playbook.Node "other_exp" None None]) None] in
  let expected := Py.sorted (Playbook._get_leaf_ids_recursive tree) in
  let figs := [ {| playbook_id := Some "revenue"; value := Some 10%Z |};
                {| playbook_id := Some "staff_cost"; value := Some 4%Z |} ] in
  expected = ["other_exp"; "revenue"; "staff_cost"] ∧
  run_completeness_check (Some {| normalized_figures := Some figs; other_keys := [] |}) expected
  = {| res_status := FAILURE;
       res_details := Some {| missing_ids := Some ["other_exp"]; unexpected_ids := None;
                              reason := None |} |}.
Proof. split; vm_compute; reflexivity. Qed.

End CompletenessCheck.

(** ** The waterfall reset *)

Section WaterfallReset.

Import QualityEngine.

Lemma reset_values_not_selected r : stmt_reset_s1_where (stmt_reset_s1_values r) = false.
Proof. reflexivity. Qed.

Lemma reset_row_idempotent r : reset_row (reset_row r) = reset_row r.
Proof.
  unfold reset_row. destruct (stmt_reset_s1_where r) eqn:E.
  - by rewrite reset_values_not_selected.
  - by rewrite E.
Qed.

(** A second sweep changes nothing. *)
Lemma trigger_waterfall_resets_idempotent runs :
  trigger_waterfall_resets (trigger_waterfall_resets runs) = trigger_waterfall_resets runs.
Proof.
  unfold trigger_waterfall_resets. rewrite map_map.
  apply map_ext. intros r. apply reset_row_idempotent.
Qed.

Lemma stmt_reset_s1_where_true r :
  stmt_reset_s1_where r = true ↔
  stage_1_status r = "PASSED" ∧
  ∃ v, stage_1_version r = Some v ∧ v ≠ CURRENT_STAGE_1_VERSION.
Proof.
  unfold stmt_reset_s1_where. rewrite andb_true_iff, String.eqb_eq.
  destruct (stage_1_version r) as [v|].
  - rewrite negb_true_iff, String.eqb_neq.
    split; intros [H1 H2]; (split; [done|]).
    + by exists v.
    + by destruct H2 as (v0 & [= ->] & H2).
  - split; intros [_ H]; [discriminate|].
    by destruct H as (v0 & H & _).
Qed.

(** The sweep looks at stage 1 only: a run whose stage 2 passed at a
    version that is no longer the deployed one is left as it is, so the
    property does not hold at stage 2. *)
Lemma C3_counterexample_stage_2 :
  ¬ (∀ (current : nat → string) (k : nat) (r : QualityEngineRun),
       current 1 = CURRENT_STAGE_1_VERSION → 1 ≤ k ≤ 5 →
       drifted current k r → waterfall_reset_at current k r).
Proof.
  intros H.
  specialize (H (λ _, "1.0") 2 stage_2_drift_run eq_refl ltac:(lia)).
  destruct H as [H _].
  - split; [reflexivity|]. exists "0.9". split; [reflexivity|discriminate].
  - destruct (H 2 ltac:(lia)) as [Hs _]. discriminate Hs.
Qed.

(** C3, as the code has it. For every run in the table whose stage 1 is
    PASSED with a stamped version different from [CURRENT_STAGE_1_VERSION],
    one sweep sets all five stages to PENDING with the versions cleared,
    records the reason and clears the details, keeping the identity of the
    row; every row the condition does not select is left as it is; and a
    second sweep changes nothing. *)
Theorem C3_waterfall_reset_stage_1 (runs : list QualityEngineRun) (i : nat)
    (r : QualityEngineRun) (v : string) :
  runs !! i = Some r →
  stage_1_status r = "PASSED" →
  stage_1_version r = Some v →
  v ≠ CURRENT_STAGE_1_VERSION →
  (∃ r', trigger_waterfall_resets runs !! i = Some r' ∧
         (∀ j, 1 ≤ j ≤ 5 → stage_status j r' = "PENDING" ∧ stage_version j r' = None) ∧
         failure_reason r' = Some "Resetting due to new Stage 1 version" ∧
         details r' = None ∧
         run_id r' = run_id r ∧ doc_id r' = doc_id r) ∧
  (∀ j r0, runs !! j = Some r0 → stmt_reset_s1_where r0 = false →
           trigger_waterfall_resets runs !! j = Some r0) ∧
  length (trigger_waterfall_resets runs) = length runs ∧
  trigger_waterfall_resets (trigger_waterfall_resets runs) = trigger_waterfall_resets runs.
Proof.
  intros Hi Hs Hv Hne.
  assert (stmt_reset_s1_where r = true) as Hw
    by (apply stmt_reset_s1_where_true; eauto).
  split; [|split; [|split]].
  - exists (stmt_reset_s1_values r). split.
    + unfold trigger_waterfall_resets. rewrite list_lookup_fmap, Hi. simpl.
      unfold reset_row. by rewrite Hw.
    + split; [|done]. intros j Hj.
      destruct j as [|[|[|[|[|[|j]]]]]]; try lia; done.
  - intros j r0 Hj Hw0. unfold trigger_waterfall_resets.
    rewrite list_lookup_fmap, Hj. simpl. unfold reset_row. by rewrite Hw0.
  - unfold trigger_waterfall_resets. apply length_map.
  - apply trigger_waterfall_resets_idempotent.
Qed.

Lemma C3_waterfall_reset_stage_1_witness :
  [stage_2_drift_run; stage_1_drift_run] !! 1 = Some stage_1_drift_run ∧
  trigger_waterfall_resets [stage_2_drift_run; stage_1_drift_run]
  = [stage_2_drift_run; stmt_reset_s1_values stage_1_drift_run] ∧
  trigger_waterfall_resets
    (trigger_waterfall_resets [stage_2_drift_run; stage_1_drift_run])
  = trigger_waterfall_resets [stage_2_drift_run; stage_1_drift_run].
Proof.
  split; [reflexivity|]. split; [reflexivity|].
  apply (C3_waterfall_reset_stage_1 [stage_2_drift_run; stage_1_drift_run] 1
           stage_1_drift_run "0.9"); [reflexivity..|discriminate].
Defined.

End WaterfallReset.

(** ** The oracle client: bounded retries with exponential backoff *)

Section OracleClient.

Import NormalizerClient.

(** Three failed attempts in a row: the call makes exactly three attempts,
    sleeps 5 and then 10 seconds between them, and raises the last
    exception. *)
Lemma call_gemini_with_retry_exhausted c w o1 o2 o3 rest e1 e2 e3 :
  service w = o1 :: o2 :: o3 :: rest →
  exception_of o1 = Some e1 → exception_of o2 = Some e2 → exception_of o3 = Some e3 →
  call_gemini_with_retry c w =
    (Py.Raised e3,
     {| service := rest;
        attempts_made := attempts_made w ++ [c; c; c];
        slept := slept w ++ [5; 10] |}).
Proof.
  intros Hs H1 H2 H3. destruct w as [s a sl]. simpl in Hs. subst s.
  unfold call_gemini_with_retry, retry_loop, generate_content, sleep. simpl.
  destruct o1, o2, o3; simpl in *; try discriminate;
    simplify_eq; by rewrite <- !app_assoc.
Qed.

(** Whatever the service does, a call makes between one and three attempts,
    and the waits between them are 5 and 10 seconds: each wait is twice the
    one before. *)
Lemma call_gemini_with_retry_bounded c w :
  ∃ n, 1 ≤ n ≤ LLM_MAX_RETRIES ∧
       attempts_made (call_gemini_with_retry c w).2 = attempts_made w ++ replicate n c ∧
       slept (call_gemini_with_retry c w).2 = slept w ++ take (n - 1) [5; 10].
Proof.
  destruct w as [s a sl].
  unfold call_gemini_with_retry, retry_loop, generate_content, sleep, LLM_MAX_RETRIES.
  destruct s as [|[e1| |b1] [|[e2| |b2] [|[e3| |b3] s]]]; simpl;
    first [ exists 1; split; [lia|]; simpl; by rewrite ?app_nil_r, <- ?app_assoc
          | exists 2; split; [lia|]; simpl; by rewrite ?app_nil_r, <- ?app_assoc
          | exists 3; split; [lia|]; simpl; by rewrite ?app_nil_r, <- ?app_assoc ].
Qed.

(** A call that returns gives the text of its last attempt. *)
Lemma call_gemini_with_retry_first_text c w b rest :
  service w = ResponseText b :: rest →
  call_gemini_with_retry c w =
    (Py.Returned b,
     {| service := rest; attempts_made := attempts_made w ++ [c]; slept := slept w |}).
Proof.
  intros Hs. destruct w as [s a sl]. simpl in Hs. subst s. reflexivity.
Qed.

End OracleClient.

(** ** Unit normalization: discovery *)

Section UnitDiscovery.

Import NormalizerClient UnitNormalizer.

Lemma find_map_same {A} (p : A → bool) (f : A → A) (l : list A) :
  (∀ x, p (f x) = p x) → List.find p (map f l) = f <$> List.find p l.
Proof.
  intros Hp. induction l as [|x l IH]; [done|].
  simpl. rewrite Hp. by destruct (p x).
Qed.

Lemma staged_by_doc_id_eq doc_id db r :
  Database.staged_by_doc_id doc_id db = Some r → StagedNormalizedData.doc_id r = doc_id.
Proof.
  unfold Database.staged_by_doc_id. intros H.
  apply find_some in H as [_ H]. by apply Z.eqb_eq in H.
Qed.

Lemma mem_Z_spec x l : Database.mem_Z x l = true ↔ x ∈ l.
Proof.
  unfold Database.mem_Z. rewrite existsb_exists. split.
  - intros (y & Hy & ->%Z.eqb_eq). by apply list_elem_of_In.
  - intros H. exists x. split; [by apply list_elem_of_In | apply Z.eqb_refl].
Qed.

(** Marking sets the unit status of the marked documents and of no other. *)
Lemma staged_after_unit_mark doc_ids status db d :
  Database.staged_by_doc_id d (Database.mark_docs_unit_review_status doc_ids status db)
  = (λ r, if Database.mem_Z d doc_ids then Database.set_unit_review_status status r else r)
      <$> Database.staged_by_doc_id d db.
Proof.
  unfold Database.mark_docs_unit_review_status.
  destruct doc_ids as [|x xs] eqn:Eids; [by destruct (Database.staged_by_doc_id d db)|].
  rewrite <- Eids. clear Eids.
  unfold Database.staged_by_doc_id at 1. simpl Db.staged_normalized_data.
  rewrite find_map_same.
  - destruct (Database.staged_by_doc_id d db) as [r|] eqn:E.
    + unfold Database.staged_by_doc_id in E. rewrite E. simpl.
      apply staged_by_doc_id_eq in E. by rewrite E.
    + unfold Database.staged_by_doc_id in E. by rewrite E.
  - intros r. by destruct (Database.mem_Z _ _).
Qed.

Lemma staged_after_store doc_id payload db d :
  Database.staged_by_doc_id d (store_normalized_data doc_id payload db)
  = (λ r, if Z.eqb d doc_id then Database.set_normalized_data payload r else r)
      <$> Database.staged_by_doc_id d db.
Proof.
  unfold store_normalized_data.
  unfold Database.staged_by_doc_id at 1. simpl Db.staged_normalized_data.
  rewrite find_map_same.
  - destruct (Database.staged_by_doc_id d db) as [r|] eqn:E.
    + unfold Database.staged_by_doc_id in E. rewrite E. simpl.
      apply staged_by_doc_id_eq in E. by rewrite E.
    + unfold Database.staged_by_doc_id in E. by rewrite E.
  - intros r. by destruct (Z.eqb (StagedNormalizedData.doc_id r) doc_id).
Qed.

(** After an upsert the queue holds exactly one row for the document, with
    the new analysis and filing data; the rows of other documents stay. *)
Lemma upsert_unit_review_rows new rows :
  NoDup (map UnitReviewQueue.doc_id rows) →
  (∃ row,
     List.filter (λ q, Z.eqb (UnitReviewQueue.doc_id q) (UnitReviewQueue.doc_id new))
                 (Database.upsert_unit_review new rows) = [row] ∧
     UnitReviewQueue.llm_analysis row = UnitReviewQueue.llm_analysis new ∧
     UnitReviewQueue.filing_data row = UnitReviewQueue.filing_data new) ∧
  (∀ d, d ≠ UnitReviewQueue.doc_id new →
     List.filter (λ q, Z.eqb (UnitReviewQueue.doc_id q) d) (Database.upsert_unit_review new rows)
     = List.filter (λ q, Z.eqb (UnitReviewQueue.doc_id q) d) rows).
Proof.
  induction rows as [|old rows IH]; intros Hnd.
  - split.
    + exists new. simpl. by rewrite Z.eqb_refl.
    + intros d Hd. simpl.
      by assert (Z.eqb (UnitReviewQueue.doc_id new) d = false) as ->
        by (apply Z.eqb_neq; congruence).
  - simpl in Hnd. apply NoDup_cons in Hnd as [Hold Hnd]. simpl.
    destruct (Z.eqb (UnitReviewQueue.doc_id old) (UnitReviewQueue.doc_id new)) eqn:E.
    + apply Z.eqb_eq in E. split.
      * exists (Database.unit_review_on_conflict new old). simpl.
        rewrite E, Z.eqb_refl. split; [|done]. f_equal.
        rewrite <- E. clear IH Hnd.
        induction rows as [|q rows IHq]; [done|]. simpl.
        destruct (Z.eqb (UnitReviewQueue.doc_id q) (UnitReviewQueue.doc_id old)) eqn:Eq.
        -- apply Z.eqb_eq in Eq. exfalso. apply Hold. simpl. rewrite Eq. left.
        -- apply IHq. intros H. apply Hold. simpl. by right.
      * intros d Hd. simpl.
        by assert (Z.eqb (UnitReviewQueue.doc_id old) d = false) as ->
          by (apply Z.eqb_neq; congruence).
    + destruct (IH Hnd) as [(row & Hrow & Ha & Hf) Hother]. split.
      * exists row. simpl. by rewrite E.
      * intros d Hd. simpl. by rewrite (Hother d Hd).
Qed.

Lemma suspicious_figures_spec analysis :
  (determine_review_requirement analysis).2
  = map (λ p, suspicious_entry p.1 p.2) (low_confidence_figures analysis).
Proof.
  unfold determine_review_requirement, low_confidence_figures. simpl.
  induction (Analysis.statement_analyses analysis) as [|sa sas IH]; [done|].
  simpl. by rewrite map_app, map_map, IH.
Qed.

(** A review is required iff some figure has low confidence or the filing
    flag is set. *)
Lemma determine_review_requirement_iff analysis :
  (determine_review_requirement analysis).1 = true ↔
  low_confidence_figures analysis ≠ [] ∨ filing_flag analysis = true.
Proof.
  pose proof (suspicious_figures_spec analysis) as Hs.
  unfold determine_review_requirement, filing_flag in *. simpl in *.
  rewrite orb_true_iff, Nat.ltb_lt, Hs, length_map.
  destruct (low_confidence_figures analysis); simpl; split; intros [?|?];
    try lia; try done; eauto; left; lia.
Qed.

(** A figure is among the low-confidence figures iff it is a figure of a
    statement of the analysis and its confidence is ['low']. *)
Lemma low_confidence_figures_spec analysis sa fig :
  (sa, fig) ∈ low_confidence_figures analysis ↔
  sa ∈ Analysis.statement_analyses analysis ∧
  fig ∈ StatementAnalysis.figures sa ∧ Figure.confidence fig = "low".
Proof.
  unfold low_confidence_figures.
  rewrite list_elem_of_In, in_flat_map. split.
  - intros (sa' & Hsa & Hin). apply in_map_iff in Hin as (f & [= <- <-] & Hf).
    apply filter_In in Hf as [Hf Hlow]. unfold is_low in Hlow.
    apply String.eqb_eq in Hlow. by rewrite !list_elem_of_In.
  - intros (Hsa & Hf & Hlow). exists sa. rewrite <- list_elem_of_In. split; [done|].
    apply in_map, filter_In. rewrite <- list_elem_of_In. split; [done|].
    unfold is_low. by apply String.eqb_eq.
Qed.

(** The entries of [suspicious_figures], field by field: one entry for each
    low-confidence figure, in order, with the type and mapping of its
    statement (['unknown'] without mapping) and the label, value,
    representation and reasoning of the figure (a fixed text without
    reasoning). *)
Lemma suspicious_figures_fields analysis :
  Forall2
    (λ entry p,
       SuspiciousFigure.statement_type entry = StatementAnalysis.statement_type p.1 ∧
       SuspiciousFigure.standard_mapping entry
       = default "unknown" (StatementAnalysis.standard_mapping p.1) ∧
       SuspiciousFigure.label entry = Figure.label p.2 ∧
       SuspiciousFigure.value entry = Figure.value p.2 ∧
       SuspiciousFigure.representation entry = Figure.representation p.2 ∧
       SuspiciousFigure.reasoning entry
       = default "Low confidence from LLM" (Figure.reasoning p.2))
    (determine_review_requirement analysis).2 (low_confidence_figures analysis).
Proof.
  rewrite suspicious_figures_spec.
  change (map ?f ?l) with (f <$> l). apply Forall2_fmap_l.
  apply Forall2_same_length_lookup_2; [reflexivity|].
  intros i x y Hx Hy. assert (x = y) as -> by congruence.
  repeat split; reflexivity.
Qed.

(** The insert of a review row always violates the status constraint: no
    [status] is given, and the declared default is not one of the three
    values of the constraint. *)
Lemma create_unit_review_record_raises doc_id asset_id ticker fiscal_date analysis
    filing_data db :
  Database.create_unit_review_record
    (Database.new_unit_review_row doc_id asset_id ticker fiscal_date analysis filing_data)
    db
  = Py.Raised "IntegrityError: ck_unit_review_queue_status".
Proof. reflexivity. Qed.

Lemma process_with_analysis doc_id db w w' staged_data parsed_doc decoded analysis :
  Database.staged_by_doc_id doc_id db = Some staged_data →
  Database.parsed_by_doc_id doc_id db = Some parsed_doc →
  analyze_units_with_llm doc_id db w = (Py.Returned decoded, w') →
  as_analysis decoded = Some analysis →
  process_unit_normalization_discovery doc_id db w =
    if (determine_review_requirement analysis).1
    then ("PENDING", db, w')
    else ("AUTO_APPROVED",
          store_normalized_data doc_id
            (with_unit_normalized_data
               (apply_unit_normalization_to_data staged_data analysis)
               (StagedNormalizedData.normalized_data staged_data)) db,
          w').
Proof.
  intros Hs Hp Ha Hd. unfold process_unit_normalization_discovery.
  rewrite Hs, Hp, Ha, Hd.
  destruct (determine_review_requirement analysis) as [[] sus]; [|reflexivity].
  rewrite create_unit_review_record_raises. reflexivity.
Qed.

(** The sweep over one document gives it the status its processing returns. *)
Lemma discovery_sweep_single doc_id db w :
  (discovery_sweep [doc_id] db w).1 =
    Database.mark_docs_unit_review_status [doc_id]
      (process_unit_normalization_discovery doc_id db w).1.1
      (process_unit_normalization_discovery doc_id db w).1.2.
Proof.
  unfold discovery_sweep. simpl.
  by destruct (process_unit_normalization_discovery doc_id db w) as [[status db'] w'].
Qed.

(** For a document whose analysis arrived: a review is required iff some
    figure has confidence ['low'] or the filing-level flag is set. When it
    is, the insert into the queue raises, the status returned is PENDING,
    no table has changed and the sweep writes PENDING. Otherwise the status
    is AUTO_APPROVED, the sweep gives the document that status, the queue is
    as before, and the payload has the analysis as its unit section and its
    other two sections as before. *)
Lemma unit_review_gating doc_id db w w' staged_data parsed_doc decoded analysis :
  Database.staged_by_doc_id doc_id db = Some staged_data →
  Database.parsed_by_doc_id doc_id db = Some parsed_doc →
  analyze_units_with_llm doc_id db w = (Py.Returned decoded, w') →
  as_analysis decoded = Some analysis →
  let review_required :=
    low_confidence_figures analysis ≠ [] ∨ filing_flag analysis = true in
  let outcome := process_unit_normalization_discovery doc_id db w in
  let swept := (discovery_sweep [doc_id] db w).1 in
  ((determine_review_requirement analysis).1 = true ↔ review_required) ∧
  (review_required →
     outcome = ("PENDING", db, w') ∧
     unit_review_status_of doc_id swept = Some "PENDING" ∧
     Db.unit_review_queue swept = Db.unit_review_queue db ∧
     normalized_data_of doc_id swept = normalized_data_of doc_id db) ∧
  (¬ review_required →
     outcome.1.1 = "AUTO_APPROVED" ∧
     unit_review_status_of doc_id swept = Some "AUTO_APPROVED" ∧
     Db.unit_review_queue swept = Db.unit_review_queue db ∧
     ∃ d, normalized_data_of doc_id swept = Some d ∧
          NormalizedData.unit_normalized_data d
          = Some {| UnitNormalizedData.llm_unit_analysis := Some analysis |} ∧
          NormalizedData.statement_normalized_data d
          = NormalizedData.statement_normalized_data
              (StagedNormalizedData.normalized_data staged_data) ∧
          NormalizedData.label_normalized_data d
          = NormalizedData.label_normalized_data
              (StagedNormalizedData.normalized_data staged_data)).
Proof.
  intros Hs Hp Ha Hd review_required outcome swept.
  pose proof (determine_review_requirement_iff analysis) as Hiff.
  pose proof (process_with_analysis _ _ _ _ _ _ _ _ Hs Hp Ha Hd) as Hproc.
  pose proof (discovery_sweep_single doc_id db w) as Hsweep.
  fold swept outcome in Hsweep. fold outcome in Hproc.
  split; [exact Hiff|]. split.
  - intros Hreq. apply Hiff in Hreq. rewrite Hreq in Hproc.
    split; [exact Hproc|]. rewrite Hsweep, Hproc. cbn [fst snd].
    split; [|split].
    + unfold unit_review_status_of. rewrite staged_after_unit_mark, Hs. simpl.
      by rewrite Z.eqb_refl.
    + reflexivity.
    + unfold normalized_data_of. rewrite staged_after_unit_mark, Hs. simpl.
      by rewrite Z.eqb_refl.
  - intros Hnot. destruct ((determine_review_requirement analysis).1) eqn:E.
    { exfalso. by apply Hnot, Hiff. }
    rewrite Hsweep, Hproc. cbn [fst snd]. split; [done|]. split; [|split; [done|]].
    + unfold unit_review_status_of. rewrite staged_after_unit_mark, staged_after_store.
      rewrite Hs. simpl. by rewrite Z.eqb_refl.
    + eexists. split.
      * unfold normalized_data_of. rewrite staged_after_unit_mark, staged_after_store.
        rewrite Hs. simpl. rewrite !Z.eqb_refl. reflexivity.
      * repeat split; reflexivity.
Qed.


(** The filing without low-confidence figure and without flag: AUTO_APPROVED
    and no queue row. *)
Example unit_auto_approved_example :
  let outcome :=
    process_unit_normalization_discovery 1 Examples.db_unit_pending
      (Examples.world_with [Examples.as_response Examples.analysis_all_high]) in
  outcome.1.1 = "AUTO_APPROVED" ∧ Db.unit_review_queue outcome.1.2 = [] ∧
  normalized_data_of 1 outcome.1.2 = Some (Examples.unit_payload Examples.analysis_all_high).
Proof. repeat split; reflexivity. Qed.

End UnitDiscovery.

(** ** Unit normalization: the sweep *)

Section UnitSweep.

Import NormalizerClient UnitNormalizer.

(** The request built for a document carries every statement of the parsed
    content, each with its currency and all of its figures. *)
Lemma create_llm_analysis_payload_covers statement_data content stmts ticker fiscal_date :
  ParsedContent.llm_call_2 content = Some stmts →
  ∃ p, create_llm_analysis_payload statement_data (Some content) ticker fiscal_date
       = Py.Returned p ∧
       map UnitPayload.figures (UnitPayload.statements_with_currency_context p)
       = map (λ s, default [] (ParsedStatement.figures s)) stmts ∧
       map UnitPayload.currency (UnitPayload.statements_with_currency_context p)
       = map (λ s, default "" (ParsedStatement.currency s)) stmts.
Proof.
  intros H. unfold create_llm_analysis_payload. rewrite H.
  eexists. split; [reflexivity|]. simpl. by rewrite !map_map.
Qed.

(** A JSON object is accepted iff it has both top-level sections, and what
    is returned is the object itself. *)
Lemma parse_llm_unit_analysis_accepts (a : RawAnalysis.t) :
  (∃ decoded, parse_llm_unit_analysis (UnitAnalysisJson a) = Py.Returned decoded) ↔
  is_Some (RawAnalysis.filing_analysis a) ∧
  is_Some (RawAnalysis.statement_analyses a).
Proof.
  unfold parse_llm_unit_analysis, all_required_keys, key_in. cbn [String.eqb].
  change (String.eqb "filing_analysis" "filing_analysis") with true.
  change (String.eqb "statement_analyses" "filing_analysis") with false.
  change (String.eqb "statement_analyses" "statement_analyses") with true.
  cbv iota.
  destruct (RawAnalysis.filing_analysis a) as [fa|],
           (RawAnalysis.statement_analyses a) as [sas|];
    cbn; split.
  all: try (intros [decoded H]; discriminate).
  all: try (intros [[x Hx] [y Hy]]; discriminate).
  - intros _. split; eexists; reflexivity.
  - intros _. eexists. reflexivity.
Qed.

(** As written, the run processes the empty slice: it changes nothing and
    calls nobody. *)
Lemma run_unit_normalizer_discovery_no_effect allow_llm db w :
  run_unit_normalizer_discovery allow_llm db w = (db, w).
Proof.
  unfold run_unit_normalizer_discovery.
  destruct allow_llm; simpl; [|done].
  by destruct (Database.get_docs_pending_unit_normalization db).
Qed.

(** C5. A run with LLM calls enabled should process every document that is
    statement-normalized with unit status PENDING. On a table with one such
    document and a service ready to answer, the run makes no request and
    leaves the document PENDING, because the list to process is cut to
    [doc_ids[:0]]; the sweep over the uncut list makes one request and
    classifies the document. *)
Theorem C5_unit_discovery_processes_no_document :
  let w := Examples.world_with [Examples.as_response Examples.analysis_all_high] in
  let ran := run_unit_normalizer_discovery true Examples.db_unit_pending w in
  let swept :=
    discovery_sweep (Database.get_docs_pending_unit_normalization Examples.db_unit_pending)
      Examples.db_unit_pending w in
  Database.get_docs_pending_unit_normalization Examples.db_unit_pending = [1%Z] ∧
  ran = (Examples.db_unit_pending, w) ∧
  attempts_made ran.2 = [] ∧
  unit_review_status_of 1 ran.1 = Some "PENDING" ∧
  length (attempts_made swept.2) = 1 ∧
  unit_review_status_of 1 swept.1 = Some "AUTO_APPROVED".
Proof. repeat split; reflexivity. Qed.

(** When the oracle fails three times in a row for a document, processing
    it returns ['PENDING'] and leaves the tables as they were; the sweep
    then writes PENDING, the status the document was fetched with. *)
Lemma unit_discovery_oracle_failure doc_id db w staged_data parsed_doc content
    o1 o2 o3 rest e1 e2 e3 :
  Database.staged_by_doc_id doc_id db = Some staged_data →
  Database.parsed_by_doc_id doc_id db = Some parsed_doc →
  ParsedDocument.content parsed_doc = Some content →
  service w = o1 :: o2 :: o3 :: rest →
  exception_of o1 = Some e1 → exception_of o2 = Some e2 → exception_of o3 = Some e3 →
  ∃ w', process_unit_normalization_discovery doc_id db w = ("PENDING", db, w') ∧
        length (attempts_made w') = length (attempts_made w) + 3 ∧
        slept w' = slept w ++ [5; 10] ∧
        unit_review_status_of doc_id (discovery_sweep [doc_id] db w).1 = Some "PENDING".
Proof.
  intros Hs Hp Hc Hw H1 H2 H3.
  assert (∃ c, analyze_units_with_llm doc_id db w
               = (Py.Raised e3, (call_gemini_with_retry c w).2)) as (c & Han).
  { unfold analyze_units_with_llm, get_filing_context_for_analysis.
    rewrite Hs, Hp, Hc. simpl. unfold call_gemini_with_json.
    match goal with
    | |- context [call_gemini_with_retry ?c0 w] => exists c0
    end.
    by rewrite (call_gemini_with_retry_exhausted _ w o1 o2 o3 rest e1 e2 e3). }
  assert (process_unit_normalization_discovery doc_id db w
          = ("PENDING", db, (call_gemini_with_retry c w).2)) as Hproc.
  { unfold process_unit_normalization_discovery. by rewrite Hs, Hp, Han. }
  eexists. split; [exact Hproc|].
  rewrite (call_gemini_with_retry_exhausted c w o1 o2 o3 rest e1 e2 e3) by done. simpl.
  split; [rewrite length_app; simpl; lia|]. split; [done|].
  rewrite discovery_sweep_single, Hproc. cbn [fst snd].
  unfold unit_review_status_of. rewrite staged_after_unit_mark, Hs. simpl.
  by rewrite Z.eqb_refl.
Qed.

End UnitSweep.

(** ** Label normalization: application *)

Section LabelApplication.

Import LabelNormalizer.

Lemma check_labels_true labels industry db acc :
  (check_labels labels industry db acc).1 = true ↔
  ∀ label, label ∈ labels →
    ∃ mapping, Database.get_label_mapping label industry db = Some mapping ∧
               LabelMapping.status mapping = "APPROVED".
Proof.
  revert acc. induction labels as [|l ls IH]; intros acc; simpl.
  - split; [|done]. intros _ label H. by apply elem_of_nil in H.
  - destruct (Database.get_label_mapping l industry db) as [m|] eqn:Em.
    + destruct (String.eqb (LabelMapping.status m) "APPROVED") eqn:Es.
      * rewrite IH. apply String.eqb_eq in Es. split.
        -- intros H label [->|Hin]%elem_of_cons; eauto.
        -- intros H label Hin. apply H. by right.
      * apply String.eqb_neq in Es. simpl. split; [done|].
        intros H. destruct (H l) as (m' & Hm' & Hs); [left|]. congruence.
    + simpl. split; [done|].
      intros H. destruct (H l) as (m' & Hm' & Hs); [left|]. congruence.
Qed.

Lemma all_labels_approved_by_check record industry db :
  (check_labels (all_raw_labels_of (statement_analyses_of record)) industry db ∅).1 = true →
  all_labels_approved record industry db.
Proof. intros H. unfold all_labels_approved. by apply (check_labels_true _ _ _ ∅). Qed.




Lemma build_final_data_returns stmts approved original final_data :
  (∀ stmt, stmt ∈ stmts → is_Some (StatementAnalysis.standard_mapping stmt)) →
  ∃ final, build_final_data stmts approved original final_data = Py.Returned final.
Proof.
  revert final_data. induction stmts as [|stmt stmts IH]; intros final_data Hall; simpl.
  - eauto.
  - destruct (Hall stmt) as [std_map Hstd]; [left|]. rewrite Hstd.
    apply IH. intros s Hs. apply Hall. by right.
Qed.


(** A document is applied exactly when all its labels are approved. *)
Lemma apply_doc_spec doc_id db record industry :
  Database.staged_by_doc_id doc_id db = Some record →
  industry_of record db = Py.Returned industry →
  (∀ stmt, stmt ∈ statement_analyses_of record →
           is_Some (StatementAnalysis.standard_mapping stmt)) →
  ∃ o, apply_doc doc_id db = Py.Returned o ∧
       (is_Some o ↔ all_labels_approved record industry db).
Proof.
  intros Hs Hi Hstd. unfold apply_doc. rewrite Hs, Hi.
  pose proof (check_labels_true (all_raw_labels_of (statement_analyses_of record))
                industry db ∅) as Hcheck.
  destruct (check_labels _ industry db ∅) as [all_approved approved] eqn:E.
  simpl in Hcheck. destruct all_approved; simpl.
  - destruct (build_final_data_returns (statement_analyses_of record) approved
                (original_figures_of record)
                {| LabelNormalizedData.standalone := ∅;
                   LabelNormalizedData.consolidated := ∅ |} Hstd) as [final Hfinal].
    rewrite Hfinal. eexists. split; [done|].
    split; [intros _; unfold all_labels_approved; by apply Hcheck | by eauto].
  - eexists. split; [done|]. split.
    + by intros [? ?].
    + intros H. unfold all_labels_approved in H. apply Hcheck in H. discriminate.
Qed.


Lemma pending_label_review_elem db d :
  d ∈ Database.get_docs_pending_label_review db ↔
  ∃ r, r ∈ Db.staged_normalized_data db ∧ StagedNormalizedData.doc_id r = d ∧
       StagedNormalizedData.label_review_status r = "PENDING_REVIEW".
Proof.
  unfold Database.get_docs_pending_label_review.
  rewrite list_elem_of_fmap. split.
  - intros (r & -> & Hr). apply list_elem_of_In, filter_In in Hr as [Hr Hst].
    apply String.eqb_eq in Hst. exists r. by rewrite list_elem_of_In.
  - intros (r & Hr & <- & Hst). exists r. split; [done|].
    apply list_elem_of_In, filter_In. rewrite <- list_elem_of_In.
    split; [done|]. by apply String.eqb_eq.
Qed.

Lemma staged_by_doc_id_elem doc_id db r :
  Database.staged_by_doc_id doc_id db = Some r → r ∈ Db.staged_normalized_data db.
Proof.
  unfold Database.staged_by_doc_id. intros H.
  apply find_some in H as [H _]. by apply list_elem_of_In.
Qed.

Lemma staged_by_doc_id_exists db r :
  r ∈ Db.staged_normalized_data db →
  is_Some (Database.staged_by_doc_id (StagedNormalizedData.doc_id r) db).
Proof.
  unfold Database.staged_by_doc_id. intros H.
  destruct (List.find _ _) eqn:E; [eauto|].
  apply list_elem_of_In in H. eapply find_none in E; [|exact H].
  by rewrite Z.eqb_refl in E.
Qed.

(** The loop collects exactly the documents whose body returned final data. *)
Lemma apply_docs_returns doc_ids db successful :
  (∀ d, d ∈ doc_ids → ∃ o, apply_doc d db = Py.Returned o) →
  ∃ new, apply_docs doc_ids db successful = Py.Returned (successful ++ new) ∧
         ∀ d f, (d, f) ∈ new ↔ d ∈ doc_ids ∧ apply_doc d db = Py.Returned (Some f).
Proof.
  revert successful. induction doc_ids as [|d ds IH]; intros successful Hret; simpl.
  - exists []. rewrite app_nil_r. split; [done|]. intros d f.
    split; [by intros ?%elem_of_nil | by intros [?%elem_of_nil _]].
  - destruct (Hret d) as [o Ho]; [left|]. rewrite Ho.
    assert (∀ d', d' ∈ ds → ∃ o', apply_doc d' db = Py.Returned o') as Hret'
      by (intros d' Hd'; apply Hret; by right).
    destruct o as [final|].
    + destruct (IH (successful ++ [(d, final)]) Hret') as (new & Hnew & Hspec).
      exists ((d, final) :: new). rewrite Hnew, <- app_assoc. split; [done|].
      intros d' f. rewrite elem_of_cons, Hspec, elem_of_cons. split.
      * intros [[= -> ->]|[? ?]]; eauto.
      * intros [[->|?] Hf]; [left; congruence | by right].
    + destruct (IH successful Hret') as (new & Hnew & Hspec).
      exists new. split; [done|].
      intros d' f. rewrite Hspec, elem_of_cons. split.
      * intros [? ?]; eauto.
      * intros [[->|?] Hf]; [congruence | done].
Qed.

Lemma staged_after_store_final p db d :
  Database.staged_by_doc_id d (store_final_data p db)
  = (λ r, if Z.eqb d p.1
          then Database.set_normalized_data
                 (with_label_normalized_data p.2 (StagedNormalizedData.normalized_data r)) r
          else r)
      <$> Database.staged_by_doc_id d db.
Proof.
  unfold store_final_data.
  unfold Database.staged_by_doc_id at 1. simpl Db.staged_normalized_data.
  rewrite find_map_same.
  - destruct (Database.staged_by_doc_id d db) as [r|] eqn:E.
    + unfold Database.staged_by_doc_id in E. rewrite E. simpl.
      apply staged_by_doc_id_eq in E. by rewrite E.
    + unfold Database.staged_by_doc_id in E. by rewrite E.
  - intros r. by destruct (Z.eqb (StagedNormalizedData.doc_id r) p.1).
Qed.

(** The commit keeps the row of a document and its status; it gives the
    document the final data it was applied with, and leaves the payload of
    a document that was not applied. *)
Lemma staged_after_commit successful d f : ∀ db r,
  Database.staged_by_doc_id d db = Some r →
  (∀ p, p ∈ successful → p.1 = d → p.2 = f) →
  ∃ r', Database.staged_by_doc_id d (commit_final_data successful db) = Some r' ∧
        StagedNormalizedData.label_review_status r'
        = StagedNormalizedData.label_review_status r ∧
        (d ∈ map fst successful →
           NormalizedData.label_normalized_data (StagedNormalizedData.normalized_data r')
           = Some f) ∧
        (d ∉ map fst successful →
           StagedNormalizedData.normalized_data r' = StagedNormalizedData.normalized_data r).
Proof.
  induction successful as [|p ps IH]; intros db r Hr Hf.
  - exists r. simpl. split; [done|]. split; [done|]. split; [|done].
    by intros ?%elem_of_nil.
  - simpl.
    pose proof (staged_after_store_final p db d) as Hstore. rewrite Hr in Hstore.
    simpl in Hstore.
    destruct (IH _ _ Hstore) as (r' & Hr' & Hst & Hin & Hout).
    { intros q Hq. apply Hf. by right. }
    exists r'. split; [exact Hr'|].
    destruct (Z.eqb d p.1) eqn:E.
    + apply Z.eqb_eq in E. split; [by rewrite Hst|]. split.
      * intros _. destruct (decide (d ∈ map fst ps)) as [Hd|Hd]; [by apply Hin|].
        rewrite (Hout Hd). simpl. f_equal. apply Hf; [left|done].
      * intros Hn. exfalso. apply Hn. rewrite E. left.
    + apply Z.eqb_neq in E. split; [done|]. split.
      * intros [?|?]%elem_of_cons; [congruence|by apply Hin].
      * intros Hn. apply Hout. intros Hd. apply Hn. by right.
Qed.

Lemma staged_after_label_mark doc_ids status db d :
  Database.staged_by_doc_id d (Database.mark_docs_label_review_status doc_ids status db)
  = (λ r, if Database.mem_Z d doc_ids then Database.set_label_review_status status r else r)
      <$> Database.staged_by_doc_id d db.
Proof.
  unfold Database.mark_docs_label_review_status.
  destruct doc_ids as [|x xs] eqn:Eids; [by destruct (Database.staged_by_doc_id d db)|].
  rewrite <- Eids. clear Eids.
  unfold Database.staged_by_doc_id at 1. simpl Db.staged_normalized_data.
  rewrite find_map_same.
  - destruct (Database.staged_by_doc_id d db) as [r|] eqn:E.
    + unfold Database.staged_by_doc_id in E. rewrite E. simpl.
      apply staged_by_doc_id_eq in E. by rewrite E.
    + unfold Database.staged_by_doc_id in E. by rewrite E.
  - intros r. by destruct (Database.mem_Z _ _).
Qed.

(** What a run of the application does to the table, when it can run to its
    end: it returns, and every staged document keeps its row; the documents
    applied are the pending ones whose body returned final data; they become
    APPROVED and carry that final data; every other document keeps status
    and payload. *)
Lemma run_label_normalizer_application_spec db :
  application_can_run db →
  ∃ db' successful,
    run_label_normalizer_application db = Py.Returned db' ∧
    (∀ d f, (d, f) ∈ successful ↔
            d ∈ Database.get_docs_pending_label_review db ∧
            apply_doc d db = Py.Returned (Some f)) ∧
    ∀ d r, Database.staged_by_doc_id d db = Some r →
      ∃ r', Database.staged_by_doc_id d db' = Some r' ∧
            StagedNormalizedData.label_review_status r'
            = (if Database.mem_Z d (map fst successful) then "APPROVED"
               else StagedNormalizedData.label_review_status r) ∧
            (∀ f, (d, f) ∈ successful →
               NormalizedData.label_normalized_data (StagedNormalizedData.normalized_data r')
               = Some f) ∧
            (d ∉ map fst successful →
               StagedNormalizedData.normalized_data r' = StagedNormalizedData.normalized_data r).
Proof.
  intros Hcan.
  assert (∀ d, d ∈ Database.get_docs_pending_label_review db →
               ∃ o, apply_doc d db = Py.Returned o) as Hret.
  { intros d Hd. pose proof Hd as Hd'.
    apply pending_label_review_elem in Hd' as (r0 & Hr0 & <- & _).
    destruct (staged_by_doc_id_exists db r0 Hr0) as [record Hrec].
    destruct (Hcan _ _ Hd Hrec) as [[industry Hind] Hstd].
    destruct (apply_doc_spec _ _ _ _ Hrec Hind Hstd) as (o & Ho & _). eauto. }
  destruct (apply_docs_returns _ db [] Hret) as (new & Hnew & Hspec).
  simpl in Hnew. unfold run_label_normalizer_application.
  destruct (Database.get_docs_pending_label_review db) as [|d0 ds] eqn:Eids.
  { exists db, []. split; [done|]. split.
    - intros d f. split; [by intros ?%elem_of_nil | by intros [?%elem_of_nil _]].
    - intros d r Hr. exists r. split; [done|]. split; [done|].
      split; [by intros f ?%elem_of_nil | done]. }
  rewrite Hnew. destruct new as [|p ps] eqn:Enew.
  { exists db, []. split; [done|]. split; [exact Hspec|].
    intros d r Hr. exists r. split; [done|]. split; [done|].
    split; [by intros f ?%elem_of_nil | done]. }
  rewrite <- Enew in *. clear Enew.
  eexists _, new. split; [done|]. split; [exact Hspec|].
  intros d r Hr.
  assert (∃ f, ∀ q, q ∈ new → q.1 = d → q.2 = f) as [f Hf].
  { destruct (decide (d ∈ map fst new)) as [Hd|Hd].
    - apply list_elem_of_fmap in Hd as ([d' f] & -> & Hq). exists f.
      intros [d'' f'] Hq' Heq. simpl in *. subst d''.
      apply Hspec in Hq as [_ Hq]. apply Hspec in Hq' as [_ Hq']. congruence.
    - exists {| LabelNormalizedData.standalone := ∅; LabelNormalizedData.consolidated := ∅ |}.
      intros q Hq Heq. exfalso. apply Hd. rewrite <- Heq. by apply list_elem_of_fmap_2. }
  destruct (staged_after_commit new d f db r Hr Hf) as (r1 & Hr1 & Hst & Hin & Hout).
  rewrite staged_after_label_mark, Hr1. simpl. eexists. split; [done|].
  destruct (Database.mem_Z d (map fst new)) eqn:Emem; simpl.
  - split; [done|]. split; [|intros Hn; exfalso; by apply Hn, mem_Z_spec].
    intros f' Hf'. rewrite Hin by (by apply mem_Z_spec).
    f_equal. symmetry. by apply (Hf (d, f')).
  - assert (d ∉ map fst new) as Hn.
    { intros Hd. apply mem_Z_spec in Hd. congruence. }
    split; [done|]. split; [|by intros _; apply Hout].
    intros f' Hf'. exfalso. apply Hn. by apply (list_elem_of_fmap_2 fst _ (d, f')).
Qed.

(** For a document waiting for label review, when the application can
    run to its end: the run returns, and the document's status is APPROVED
    afterwards iff every distinct raw label of its unit analysis has a cache
    entry under (raw label, industry) whose status is exactly APPROVED.
    Otherwise (some entry missing, REJECTED or PENDING_REVIEW) the document
    stays PENDING_REVIEW and its payload is untouched: nothing is applied in
    part. *)
Theorem label_application_gate (db : Db.t) (doc_id : Z)
    (record : StagedNormalizedData.t) :
  application_can_run db →
  Database.staged_by_doc_id doc_id db = Some record →
  StagedNormalizedData.label_review_status record = "PENDING_REVIEW" →
  ∃ db' industry,
    run_label_normalizer_application db = Py.Returned db' ∧
    industry_of record db = Py.Returned industry ∧
    (label_review_status_of doc_id db' = Some "APPROVED" ↔
     all_labels_approved record industry db) ∧
    (¬ all_labels_approved record industry db →
       label_review_status_of doc_id db' = Some "PENDING_REVIEW" ∧
       UnitNormalizer.normalized_data_of doc_id db'
       = Some (StagedNormalizedData.normalized_data record)).
Proof.
  intros Hcan Hrec Hst.
  assert (doc_id ∈ Database.get_docs_pending_label_review db) as Hpending.
  { apply pending_label_review_elem. exists record.
    split; [by eapply staged_by_doc_id_elem|]. split; [by eapply staged_by_doc_id_eq|done]. }
  destruct (Hcan _ _ Hpending Hrec) as [[industry Hind] Hstd].
  destruct (apply_doc_spec _ _ _ _ Hrec Hind Hstd) as (o & Ho & Hiff).
  destruct (run_label_normalizer_application_spec db Hcan) as (db' & successful & Hrun & Hspec & Hrows).
  destruct (Hrows _ _ Hrec) as (r' & Hr' & Hstatus & _ & Hkeep).
  exists db', industry. split; [done|]. split; [done|].
  unfold label_review_status_of, UnitNormalizer.normalized_data_of. rewrite Hr'. simpl.
  rewrite Hstatus, Hst.
  destruct (Database.mem_Z doc_id (map fst successful)) eqn:Emem.
  - apply mem_Z_spec, list_elem_of_fmap in Emem as ([d f] & Hd & Hin). simpl in Hd. subst d.
    apply Hspec in Hin as [_ Happ]. rewrite Ho in Happ. injection Happ as ->.
    assert (all_labels_approved record industry db) as Hall by (apply Hiff; eauto).
    split; [done|]. by intros Hn.
  - assert (doc_id ∉ map fst successful) as Hn.
    { intros Hd. apply mem_Z_spec in Hd. congruence. }
    assert (¬ all_labels_approved record industry db) as Hnall.
    { intros Hall. apply Hiff in Hall as [f ->]. apply Hn.
      apply (list_elem_of_fmap_2 fst _ (doc_id, f)). by apply Hspec. }
    split; [split; [discriminate | done]|].
    intros _. split; [done|]. by rewrite (Hkeep Hn).
Qed.

(** The sample tables can be applied. *)
Lemma examples_can_run cache : application_can_run (Examples.db_review cache).
Proof.
  intros d record Hd Hrec.
  assert (d = 1%Z) as -> by (by apply list_elem_of_singleton in Hd).
  injection Hrec as <-. split; [by eexists|].
  intros stmt Hstmt. apply list_elem_of_singleton in Hstmt as ->. by eexists.
Qed.

(** Three distinct labels: with two approved and one waiting for review the
    document is not applied; with all three approved one pass makes it
    APPROVED. *)
Lemma label_application_gate_example :
  (∃ db', run_label_normalizer_application (Examples.db_review Examples.cache_two_of_three)
          = Py.Returned db' ∧
          label_review_status_of 1 db' = Some "PENDING_REVIEW") ∧
  (∃ db', run_label_normalizer_application (Examples.db_review Examples.cache_all_approved)
          = Py.Returned db' ∧
          label_review_status_of 1 db' = Some "APPROVED").
Proof.
  split.
  - destruct (label_application_gate (Examples.db_review Examples.cache_two_of_three) 1
                (Examples.staged 1 (Examples.unit_payload Examples.analysis_three_labels)
                   "AUTO_APPROVED" "PENDING_REVIEW")
                (examples_can_run _) eq_refl eq_refl)
      as (db' & industry & Hrun & Hind & _ & Hblocked).
    exists db'. split; [exact Hrun|]. apply Hblocked.
    injection Hind as <-. intros Hall.
    destruct (Hall "Net NPA %") as (m & Hm & Hs).
    + apply (list_elem_of_lookup_2 _ 2). reflexivity.
    + vm_compute in Hm. injection Hm as <-. discriminate Hs.
  - destruct (label_application_gate (Examples.db_review Examples.cache_all_approved) 1
                (Examples.staged 1 (Examples.unit_payload Examples.analysis_three_labels)
                   "AUTO_APPROVED" "PENDING_REVIEW")
                (examples_can_run _) eq_refl eq_refl)
      as (db' & industry & Hrun & Hind & Hiff & _).
    exists db'. split; [exact Hrun|]. apply Hiff.
    injection Hind as <-. intros label Hl.
    assert (label ∈ ["Interest Earned"; "Other Income"; "Net NPA %"]) as Hl' by exact Hl.
    repeat (apply elem_of_cons in Hl' as [->|Hl']; [by eexists|]).
    by apply elem_of_nil in Hl'.
Defined.

(** C2. Once every distinct raw label of a document has an APPROVED cache
    entry, one pass should make the document APPROVED. With two documents
    waiting, all labels of both approved, and one statement of document 1
    without [standard_mapping] (which unit and label discovery accept), the
    run raises [KeyError] while building the final data of document 1; the
    commit is not reached, so neither document is marked: both stay
    PENDING_REVIEW, in this run and in every later one. Without document 1
    the same cache makes the other document APPROVED in one pass. *)
Theorem C2_missing_standard_mapping_blocks_approved_documents :
  let db := Examples.db_review_unmapped Examples.cache_all_approved in
  let record_1 :=
    Examples.staged 1 (Examples.unit_payload Examples.analysis_unmapped_statement)
      "AUTO_APPROVED" "PENDING_REVIEW" in
  let record_2 :=
    Examples.staged 2 (Examples.unit_payload Examples.analysis_three_labels)
      "AUTO_APPROVED" "PENDING_REVIEW" in
  Database.get_docs_pending_label_review db = [2%Z; 1%Z] ∧
  Database.staged_by_doc_id 1 db = Some record_1 ∧
  Database.staged_by_doc_id 2 db = Some record_2 ∧
  all_labels_approved record_1 (Some "Banking") db ∧
  all_labels_approved record_2 (Some "Banking") db ∧
  run_label_normalizer_application db = Py.Raised "KeyError: 'standard_mapping'" ∧
  label_review_status_of 1 db = Some "PENDING_REVIEW" ∧
  label_review_status_of 2 db = Some "PENDING_REVIEW" ∧
  (∃ db', run_label_normalizer_application
            (Examples.db_review Examples.cache_all_approved) = Py.Returned db' ∧
          label_review_status_of 1 db' = Some "APPROVED").
Proof.
  intros db record_1 record_2.
  split; [reflexivity|]. split; [reflexivity|]. split; [reflexivity|].
  split; [apply all_labels_approved_by_check; vm_compute; reflexivity|].
  split; [apply all_labels_approved_by_check; vm_compute; reflexivity|].
  split; [vm_compute; reflexivity|].
  split; [reflexivity|]. split; [reflexivity|].
  eexists. split; [vm_compute; reflexivity | reflexivity].
Qed.

(** A figure whose approved mapping is null is left out of the section. *)
Lemma add_figures_skips_null fig figs approved original section :
  approved !! Figure.label fig = Some None →
  add_figures (fig :: figs) approved original section
  = add_figures figs approved original section.
Proof. intros H. unfold add_figures. simpl. by rewrite H. Qed.









End LabelApplication.

(** ** Label normalization: discovery *)

Section LabelDiscovery.

Import NormalizerClient LabelNormalizer.

Lemma upsert_row_keeps new rows (p : LabelMapping.t → bool) :
  (∀ a b, LabelMapping.key a = LabelMapping.key b → p a = p b) →
  List.find p (Database.upsert_row new rows) = None → List.find p rows = None.
Proof.
  intros Hp. induction rows as [|old rows IH]; [done|]. simpl.
  destruct (String.eqb (LabelMapping.raw_label old) (LabelMapping.raw_label new) &&
            String.eqb (LabelMapping.industry old) (LabelMapping.industry new)) eqn:E.
  - simpl. rewrite (Hp (Database.label_mapping_on_conflict new old) old) by done.
    by destruct (p old).
  - simpl. destruct (p old); [done|]. exact IH.
Qed.

Lemma upsert_row_keys new rows :
  map LabelMapping.key (Database.upsert_row new rows) = map LabelMapping.key rows ∨
  ((LabelMapping.key new ∉ map LabelMapping.key rows) ∧
   map LabelMapping.key (Database.upsert_row new rows)
   = map LabelMapping.key rows ++ [LabelMapping.key new]).
Proof.
  induction rows as [|old rows IH]; simpl.
  - right. split; [apply not_elem_of_nil | done].
  - destruct (String.eqb (LabelMapping.raw_label old) (LabelMapping.raw_label new) &&
              String.eqb (LabelMapping.industry old) (LabelMapping.industry new)) eqn:E.
    + by left.
    + destruct IH as [IH|[Hn IH]]; simpl; [left; by rewrite IH|].
      right. split; [|by rewrite IH].
      apply not_elem_of_cons. split; [|done].
      intros Heq. unfold LabelMapping.key in Heq. injection Heq as H1 H2.
      rewrite H1, H2, !String.eqb_refl in E. discriminate.
Qed.

Lemma upsert_label_mapping_ok new db w :
  discovery_step_ok db w (Database.upsert_label_mapping new db) w.
Proof.
  split; [|split].
  - exists []. by rewrite app_nil_r.
  - intros label [industry|]; [|done]. unfold Database.get_label_mapping. simpl.
    apply upsert_row_keeps. unfold LabelMapping.key. by intros a b [= -> ->].
  - unfold cache_keys. simpl. intros Hnd.
    destruct (upsert_row_keys new (Db.label_mapping_cache db)) as [->|[Hn ->]]; [done|].
    apply NoDup_app. split; [done|]. split; [|apply NoDup_singleton].
    by intros k Hk ->%list_elem_of_singleton.
Qed.

Lemma discovery_step_ok_refl db w : discovery_step_ok db w db w.
Proof.
  split; [|done]. exists []. by rewrite app_nil_r.
Qed.

Lemma uncached_request_mono db db' c :
  (∀ label industry, Database.get_label_mapping label industry db' = None →
                     Database.get_label_mapping label industry db = None) →
  uncached_request db' c → uncached_request db c.
Proof.
  intros Hgrow. destruct c as [p|p]; [done|].
  unfold uncached_request. intros H label Hl. by apply Hgrow, H.
Qed.

Lemma discovery_step_ok_trans db w db1 w1 db2 w2 :
  discovery_step_ok db w db1 w1 → discovery_step_ok db1 w1 db2 w2 →
  discovery_step_ok db w db2 w2.
Proof.
  intros [(new1 & Ha1 & Hu1) [Hg1 Hn1]] [(new2 & Ha2 & Hu2) [Hg2 Hn2]].
  split; [|split].
  - exists (new1 ++ new2). rewrite Ha2, Ha1, <- app_assoc. split; [done|].
    apply Forall_app. split; [done|].
    eapply Forall_impl; [exact Hu2|]. intros c. by apply uncached_request_mono.
  - intros label industry H. by apply Hg1, Hg2.
  - intros H. by apply Hn2, Hn1.
Qed.

Lemma store_mappings_ok items industry doc_id ticker stmt_key std_map : ∀ st,
  let st' := store_mappings items industry doc_id ticker stmt_key std_map st in
  discovery_step_ok (db st) (w st) (db st') (w st').
Proof.
  induction items as [|[label mapped] items IH]; intros st; simpl.
  - apply discovery_step_ok_refl.
  - eapply discovery_step_ok_trans; [|apply IH]. simpl.
    apply upsert_label_mapping_ok.
Qed.

Lemma new_labels_uncached raw_labels industry st label :
  label ∈ new_labels raw_labels industry st →
  Database.get_label_mapping label (Some industry) (db st) = None.
Proof.
  unfold new_labels. intros H. apply list_elem_of_In, filter_In in H as [_ H].
  apply andb_prop in H as [_ H]. apply negb_true_iff, bool_decide_eq_false in H.
  destruct (Database.get_label_mapping label (Some industry) (db st)); [|done].
  exfalso. apply H. eauto.
Qed.

(** One statement of one document keeps the invariant. *)
Lemma discover_statement_ok allow_llm sp_loader doc_id ticker industry sa st :
  let st' := discover_statement allow_llm sp_loader doc_id ticker industry sa st in
  discovery_step_ok (db st) (w st) (db st') (w st').
Proof.
  unfold discover_statement.
  destruct (StatementAnalysis.figures sa) as [|f fs] eqn:Ef;
    [apply discovery_step_ok_refl|]. rewrite <- Ef.
  destruct (statement_key_of _ _) as [stmt_key|]; [|apply discovery_step_ok_refl].
  destruct (get_leaves_for sp_loader stmt_key) as [|n ns] eqn:En;
    [apply discovery_step_ok_refl|]. rewrite <- En.
  destruct (new_labels _ industry st) as [|l ls] eqn:El;
    [apply discovery_step_ok_refl|]. rewrite <- El.
  destruct allow_llm; [|apply discovery_step_ok_refl].
  set (c := LabelContext _).
  assert (uncached_request (db st) c) as Hc.
  { simpl. intros label Hl. by eapply new_labels_uncached. }
  destruct (call_gemini_with_retry_bounded c (w st)) as (k & _ & Hatt & _).
  unfold call_gemini_with_json.
  destruct (call_gemini_with_retry c (w st)) as [r w'] eqn:Ecall. simpl in Hatt.
  assert (discovery_step_ok (db st) (w st) (db (with_world w' st)) (w (with_world w' st)))
    as Hcall.
  { split; [|done]. exists (replicate k c). split; [done|].
    by apply Forall_replicate. }
  destruct r as [[t|a|items|els|js|t]|e]; try exact Hcall.
  eapply discovery_step_ok_trans; [exact Hcall|]. apply store_mappings_ok.
Qed.

Lemma discover_statements_ok allow_llm sp_loader doc_id ticker industry stmts : ∀ st,
  let st' := discover_statements allow_llm sp_loader doc_id ticker industry stmts st in
  discovery_step_ok (db st) (w st) (db st') (w st').
Proof.
  unfold discover_statements.
  induction stmts as [|sa stmts IH]; intros st; simpl.
  - apply discovery_step_ok_refl.
  - eapply discovery_step_ok_trans; [apply discover_statement_ok | apply IH].
Qed.

Lemma discover_doc_ok allow_llm sp_loader doc_id st st' :
  discover_doc allow_llm sp_loader doc_id st = Py.Returned st' →
  discovery_step_ok (db st) (w st) (db st') (w st').
Proof.
  unfold discover_doc. intros H.
  repeat match type of H with
  | match ?x with _ => _ end = _ => destruct x eqn:?
  | (if ?x then _ else _) = _ => destruct x eqn:?
  end; simplify_eq; try apply discovery_step_ok_refl.
  cbn [db w]. exact (discover_statements_ok _ _ _ _ _ (_ :: _) st).
Qed.

Lemma discover_docs_ok allow_llm sp_loader doc_ids : ∀ st,
  let r := discover_docs allow_llm sp_loader doc_ids st in
  discovery_step_ok (db st) (w st) (db r.2) (w r.2).
Proof.
  induction doc_ids as [|d ds IH]; intros st; simpl.
  - apply discovery_step_ok_refl.
  - destruct (discover_doc allow_llm sp_loader d st) as [st'|e] eqn:E; simpl.
    + eapply discovery_step_ok_trans; [by eapply discover_doc_ok | apply IH].
    + apply discovery_step_ok_refl.
Qed.

(** A whole run keeps the invariant, whether it ends or raises. *)
Lemma run_label_normalizer_discovery_ok allow_llm playbook db0 w0 :
  let r := run_label_normalizer_discovery allow_llm playbook db0 w0 in
  discovery_step_ok db0 w0 r.1.2 r.2.
Proof.
  unfold run_label_normalizer_discovery.
  destruct (Database.get_docs_pending_label_normalization db0) as [|d ds] eqn:E;
    [apply discovery_step_ok_refl|]. rewrite <- E.
  set (st0 := {| db := db0; w := w0; processed_in_this_run := [];
                 docs_to_update_status := [] |}).
  pose proof (discover_docs_ok allow_llm (StatementPlaybookLoader playbook)
                (Database.get_docs_pending_label_normalization db0) st0) as H.
  destruct (discover_docs _ _ _ st0) as [[e|] st]; simpl in *; [exact H|].
  destruct H as [Ha [Hg Hn]].
  assert (Db.label_mapping_cache
            (Database.mark_docs_label_review_status (docs_to_update_status st)
               "PENDING_REVIEW" (db st)) = Db.label_mapping_cache (db st)) as Hcache.
  { unfold Database.mark_docs_label_review_status.
    by destruct (docs_to_update_status st). }
  split; [|split].
  - destruct Ha as (new & Hnew & Hu). by exists new.
  - intros label industry. unfold Database.get_label_mapping. rewrite Hcache. apply Hg.
  - unfold cache_keys. rewrite Hcache. apply Hn.
Qed.

(** A statement whose distinct raw labels all have a cache row leaves
    everything as it is: no request, no write. *)
Lemma discover_statement_all_cached allow_llm sp_loader doc_id ticker industry sa st :
  (∀ label, label ∈ raw_labels_of (StatementAnalysis.figures sa) →
            is_Some (Database.get_label_mapping label (Some industry) (db st))) →
  discover_statement allow_llm sp_loader doc_id ticker industry sa st = st.
Proof.
  intros Hcached. unfold discover_statement.
  destruct (StatementAnalysis.figures sa) as [|f fs] eqn:Ef; [done|]. rewrite <- Ef.
  destruct (statement_key_of _ _) as [stmt_key|]; [|done].
  destruct (get_leaves_for sp_loader stmt_key) as [|n ns]; [done|].
  destruct (new_labels _ industry st) as [|l ls] eqn:El; [done|].
  exfalso.
  assert (l ∈ new_labels (raw_labels_of (StatementAnalysis.figures sa)) industry st) as Hl
    by (rewrite El; left).
  pose proof (new_labels_uncached _ _ _ _ Hl) as Hnone.
  apply list_elem_of_In, filter_In in Hl as [Hl _]. apply list_elem_of_In in Hl.
  rewrite Ef in Hl. destruct (Hcached l Hl) as [m Hm]. congruence.
Qed.

(** *** Requests against the live cache *)

Lemma upsert_row_key_set new rows k :
  k ∈ map LabelMapping.key (Database.upsert_row new rows) ↔
  k ∈ map LabelMapping.key rows ∨ k = LabelMapping.key new.
Proof.
  induction rows as [|old rows IH]; cbn [Database.upsert_row map].
  - rewrite list_elem_of_singleton. split; [by right|].
    intros [H|H]; [inversion H | exact H].
  - destruct (String.eqb (LabelMapping.raw_label old) (LabelMapping.raw_label new) &&
              String.eqb (LabelMapping.industry old) (LabelMapping.industry new)) eqn:E.
    + apply andb_true_iff in E as [E1 E2].
      apply String.eqb_eq in E1, E2.
      assert (LabelMapping.key old = LabelMapping.key new) as Hk
        by (unfold LabelMapping.key; congruence).
      cbn [map]. change (LabelMapping.key (Database.label_mapping_on_conflict new old))
        with (LabelMapping.key old).
      split; [by left|]. intros [H | ->]; [exact H|]. rewrite <- Hk. apply elem_of_cons. by left.
    + cbn [map]. rewrite !elem_of_cons, IH. tauto.
Qed.

Lemma store_mappings_key_set items industry doc_id ticker stmt_key std_map : ∀ st key,
  key ∈ cache_keys (db (store_mappings items industry doc_id ticker stmt_key std_map st)) ↔
  key ∈ cache_keys (db st) ∨ key ∈ map (λ item, (item.1, industry)) items.
Proof.
  induction items as [|[label mapped] items IH]; intros st key; cbn [store_mappings map].
  - split; [by left|]. intros [H|H]; [exact H | inversion H].
  - rewrite IH. cbn [db]. unfold cache_keys at 1, Database.upsert_label_mapping.
    cbn [Db.label_mapping_cache Database.with_label_mapping_cache].
    rewrite upsert_row_key_set. cbn [fst]. rewrite elem_of_cons.
    unfold cache_keys, LabelMapping.key. cbn. tauto.
Qed.

Lemma store_mappings_world items industry doc_id ticker stmt_key std_map : ∀ st,
  w (store_mappings items industry doc_id ticker stmt_key std_map st) = w st.
Proof.
  induction items as [|[label mapped] items IH]; intros st; [reflexivity|].
  cbn [store_mappings]. by rewrite IH.
Qed.

Lemma get_label_mapping_None_iff label industry db :
  Database.get_label_mapping label (Some industry) db = None ↔
  (label, industry) ∉ cache_keys db.
Proof.
  unfold Database.get_label_mapping, cache_keys.
  induction (Db.label_mapping_cache db) as [|m rows IH]; cbn [List.find map].
  - split; [intros _ H; inversion H | reflexivity].
  - destruct (String.eqb (LabelMapping.raw_label m) label &&
              String.eqb (LabelMapping.industry m) industry) eqn:E.
    + apply andb_true_iff in E as [E1 E2]. apply String.eqb_eq in E1, E2.
      split; [discriminate|]. intros H. exfalso. apply H. apply elem_of_cons. left.
      unfold LabelMapping.key. congruence.
    + rewrite IH, not_elem_of_cons. split; [|tauto]. intros H. split; [|exact H].
      unfold LabelMapping.key. intros [= -> ->].
      rewrite !String.eqb_refl in E. discriminate.
Qed.

Lemma outcomes_given_length script n : length (outcomes_given script n) = n.
Proof.
  revert script. induction n as [|n IH]; intros script; [reflexivity|].
  destruct script; cbn; by rewrite IH.
Qed.

Lemma outcomes_given_add script n k :
  outcomes_given script (n + k)
  = outcomes_given script n ++ outcomes_given (drop n script) k.
Proof.
  revert script. induction n as [|n IH]; intros script; [reflexivity|].
  destruct script as [|o rest]; cbn [Nat.add outcomes_given drop app].
  - rewrite IH. by rewrite drop_nil.
  - by rewrite IH.
Qed.

(** One call: its attempts consume the script in order; all but the last
    fail, and the last gives the text returned, or fails too. *)
Lemma call_gemini_with_retry_exchanges c w0 :
  ∃ k failed last,
    attempts_made (call_gemini_with_retry c w0).2 = attempts_made w0 ++ replicate k c ∧
    service (call_gemini_with_retry c w0).2 = drop k (service w0) ∧
    outcomes_given (service w0) k = failed ++ [last] ∧
    Forall (λ o, ∀ b, o ≠ ResponseText b) failed ∧
    match (call_gemini_with_retry c w0).1 with
    | Py.Returned b => last = ResponseText b
    | Py.Raised _ => ∀ b, last ≠ ResponseText b
    end.
Proof.
  destruct w0 as [s a sl].
  unfold call_gemini_with_retry, retry_loop, generate_content, sleep, LLM_MAX_RETRIES.
  destruct s as [|[e1| |b1] [|[e2| |b2] [|[e3| |b3] s]]]; cbn.
  all: first
    [ exists 1; eexists [], _; cbn; split; [reflexivity|]; split; [reflexivity|];
      split; [reflexivity|]; split; [constructor|];
      first [reflexivity | intros; discriminate]
    | exists 2; eexists [_], _; cbn; split; [by rewrite <- ?app_assoc|];
      split; [reflexivity|]; split; [reflexivity|];
      split; [repeat constructor; intros; discriminate|];
      first [reflexivity | intros; discriminate]
    | exists 3; eexists [_; _], _; cbn; split; [by rewrite <- ?app_assoc|];
      split; [reflexivity|]; split; [reflexivity|];
      split; [repeat constructor; intros; discriminate|];
      first [reflexivity | intros; discriminate] ].
Qed.

Lemma prefix_of_snoc_split {A} (X B A' : list A) (y z : A) :
  X ++ [y] = B ++ z :: A' → ∃ R, X = B ++ R.
Proof.
  revert X. induction B as [|b B IH]; intros X H; [by exists X|].
  destruct X as [|x X].
  - cbn in H. injection H as H0 H. destruct B; discriminate.
  - cbn in H. injection H as H0 H. subst b. destruct (IH _ H) as [R ->]. by exists R.
Qed.

Lemma keys_stored_app l k : keys_stored (l ++ k) = keys_stored l ++ keys_stored k.
Proof. unfold keys_stored. apply flat_map_app. Qed.

Lemma keys_stored_failed c (failed : list attempt_outcome) :
  Forall (λ o, ∀ b, o ≠ ResponseText b) failed →
  keys_stored (map (pair c) failed) = [].
Proof.
  induction 1 as [|o failed Ho _ IH]; [reflexivity|].
  cbn. unfold keys_stored in IH. rewrite IH, app_nil_r.
  destruct c as [p|p]; [reflexivity|]. destruct o as [e| |b]; try reflexivity.
  by destruct (Ho b).
Qed.

Lemma requests_follow_live_cache_refl db0 w0 : requests_follow_live_cache db0 w0 db0 w0.
Proof.
  exists []. cbn. rewrite app_nil_r, drop_0. repeat split; try done.
  - by left.
  - intros [H|H]; [exact H | inversion H].
  - intros before c o after H. by destruct before.
Qed.

(** A state of the run that differs from another in what the trace does not
    see. *)
Lemma requests_follow_live_cache_same db0 w0 db1 w1 db2 w2 :
  Db.label_mapping_cache db2 = Db.label_mapping_cache db1 → w2 = w1 →
  requests_follow_live_cache db0 w0 db1 w1 → requests_follow_live_cache db0 w0 db2 w2.
Proof.
  intros Hc -> (ex & H1 & H2 & H3 & H4 & H5). exists ex.
  repeat split; try done; unfold cache_keys in *; rewrite Hc; apply H4.
Qed.

(** One statement: the requests it makes ask only for labels without a
    cache row at that moment. *)
Lemma discover_statement_live allow_llm sp_loader doc_id ticker industry sa st db0 w0 :
  requests_follow_live_cache db0 w0 (db st) (w st) →
  let st' := discover_statement allow_llm sp_loader doc_id ticker industry sa st in
  requests_follow_live_cache db0 w0 (db st') (w st').
Proof.
  intros Hinv. unfold discover_statement.
  destruct (StatementAnalysis.figures sa) as [|f fs] eqn:Ef; [exact Hinv|]. rewrite <- Ef.
  destruct (statement_key_of _ _) as [stmt_key|]; [|exact Hinv].
  destruct (get_leaves_for sp_loader stmt_key) as [|n ns] eqn:En; [exact Hinv|].
  rewrite <- En.
  destruct (new_labels _ industry st) as [|l ls] eqn:El; [exact Hinv|]. rewrite <- El.
  destruct allow_llm; [|exact Hinv].
  set (c := LabelContext _).
  assert (Hc : asks_none_of (cache_keys (db st)) c).
  { cbn. intros label Hl. apply get_label_mapping_None_iff.
    by eapply new_labels_uncached. }
  destruct Hinv as (ex & Hatt & Hout & Hserv & Hkeys & Hasks).
  destruct (call_gemini_with_retry_exchanges c (w st))
    as (k & failed & last & Katt & Kserv & Kout & Kfail & Klast).
  unfold call_gemini_with_json.
  destruct (call_gemini_with_retry c (w st)) as [r w'] eqn:Ecall.
  cbn [fst snd] in Katt, Kserv, Klast.
  assert (Hk : k = length failed + 1).
  { rewrite <- (outcomes_given_length (service (w st)) k), Kout, length_app. cbn. lia. }
  set (new := map (pair c) (failed ++ [last])).
  assert (Hnew1 : new.*1 = replicate k c).
  { subst new. rewrite Hk. clear.
    induction failed as [|o failed IH]; [reflexivity|]. cbn. by rewrite IH. }
  assert (Hnew2 : new.*2 = failed ++ [last]).
  { subst new. clear. induction (failed ++ [last]) as [|o l IH]; [reflexivity|].
    cbn. by rewrite IH. }
  assert (Hlen : length new = k).
  { subst new. rewrite length_map, length_app. cbn. lia. }
  assert (Hstored : keys_stored new = stored_keys c last).
  { subst new. rewrite map_app, keys_stored_app, keys_stored_failed by done.
    cbn. by rewrite app_nil_r. }
  (* the trace after the call, for any cache that has the keys of before and
     those of the stored response *)
  assert (Hafter : ∀ db',
            (∀ key, key ∈ cache_keys db' ↔
                    key ∈ cache_keys (db st) ∨ key ∈ stored_keys c last) →
            requests_follow_live_cache db0 w0 db' w').
  { intros db' Hdb'. exists (ex ++ new).
    split; [|split; [|split; [|split]]].
    - rewrite fmap_app, Hnew1, Katt, Hatt. by rewrite <- app_assoc.
    - rewrite fmap_app, Hout, Hnew2, length_app, Hlen, outcomes_given_add.
      by rewrite <- Hserv, Kout.
    - rewrite Kserv, Hserv, drop_drop, length_app, Hlen. reflexivity.
    - intros key. rewrite Hdb', Hkeys, keys_stored_app, elem_of_app, Hstored. tauto.
    - intros before c' o' after Hsplit.
      apply app_eq_app in Hsplit as [mid [[Hex Hmid] | [Hbefore Hmid]]].
      + destruct mid as [|e mid].
        * cbn in Hmid. rewrite app_nil_r in Hex. subst before.
          assert (c' = c) as ->.
          { subst new. destruct failed; cbn in Hmid; by injection Hmid as ->. }
          cbn. intros label Hl Hin. apply (Hc label Hl). apply Hkeys.
          by apply elem_of_app in Hin.
        * cbn in Hmid. injection Hmid as <- _. by eapply Hasks.
      + subst before.
        assert (Hpre : ∃ R, map (pair c) failed = mid ++ R).
        { subst new. rewrite map_app in Hmid. cbn in Hmid.
          by eapply prefix_of_snoc_split. }
        destruct Hpre as [R HR].
        assert (Hmid0 : keys_stored mid = []).
        { pose proof (keys_stored_failed c failed Kfail) as H0.
          rewrite HR, keys_stored_app in H0. by apply app_eq_nil in H0 as [H0 _]. }
        assert (c' = c) as ->.
        { assert ((c', o') ∈ new) as Hin
            by (rewrite Hmid; apply elem_of_app; right; apply elem_of_cons; by left).
          subst new. apply list_elem_of_fmap in Hin as (o & [= -> _] & _). reflexivity. }
        rewrite keys_stored_app, Hmid0, app_nil_r.
        cbn. intros label Hl Hin. apply (Hc label Hl). apply Hkeys.
        by apply elem_of_app in Hin. }
  clear Hnew1 Hnew2 Hlen Hstored new.
  destruct r as [[t|a|items|els|js|t]|e]; cbn [db w with_world].
  all: try (apply Hafter; intros key; subst last c;
            cbn; split; [by left | intros [H|H]; [exact H | inversion H]]).
  - (* mappings stored *)
    rewrite store_mappings_world. cbn [w with_world].
    apply Hafter. intros key. rewrite store_mappings_key_set. cbn [db with_world].
    subst last c. reflexivity.
  - (* the call raised *)
    apply Hafter. intros key. split; [by left|]. intros [H|H]; [exact H|].
    exfalso. destruct last as [e'| |b]; cbn in H; try by inversion H.
    by destruct (Klast b).
Qed.

Lemma discover_statements_live allow_llm sp_loader doc_id ticker industry stmts db0 w0 :
  ∀ st,
    requests_follow_live_cache db0 w0 (db st) (w st) →
    let st' := discover_statements allow_llm sp_loader doc_id ticker industry stmts st in
    requests_follow_live_cache db0 w0 (db st') (w st').
Proof.
  unfold discover_statements.
  induction stmts as [|sa stmts IH]; intros st H; [exact H|].
  cbn [fold_left]. apply IH. by apply discover_statement_live.
Qed.

Lemma discover_doc_live allow_llm sp_loader doc_id st st' db0 w0 :
  requests_follow_live_cache db0 w0 (db st) (w st) →
  discover_doc allow_llm sp_loader doc_id st = Py.Returned st' →
  requests_follow_live_cache db0 w0 (db st') (w st').
Proof.
  unfold discover_doc. intros Hinv H.
  repeat match type of H with
  | match ?x with _ => _ end = _ => destruct x eqn:?
  | (if ?x then _ else _) = _ => destruct x eqn:?
  end; simplify_eq; try exact Hinv.
  cbn [db w]. exact (discover_statements_live _ _ _ _ _ (_ :: _) _ _ st Hinv).
Qed.

Lemma discover_docs_live allow_llm sp_loader doc_ids db0 w0 : ∀ st,
  requests_follow_live_cache db0 w0 (db st) (w st) →
  let r := discover_docs allow_llm sp_loader doc_ids st in
  requests_follow_live_cache db0 w0 (db r.2) (w r.2).
Proof.
  induction doc_ids as [|d ds IH]; intros st H; [exact H|].
  cbn [discover_docs].
  destruct (discover_doc allow_llm sp_loader d st) as [st'|e] eqn:E; [|exact H].
  apply IH. by eapply discover_doc_live.
Qed.

(** A whole run, whether it ends or raises. *)
Lemma run_label_normalizer_discovery_live allow_llm playbook db0 w0 :
  let r := run_label_normalizer_discovery allow_llm playbook db0 w0 in
  requests_follow_live_cache db0 w0 r.1.2 r.2.
Proof.
  unfold run_label_normalizer_discovery.
  destruct (Database.get_docs_pending_label_normalization db0) as [|d ds] eqn:E;
    [apply requests_follow_live_cache_refl|]. rewrite <- E.
  set (st0 := {| db := db0; w := w0; processed_in_this_run := [];
                 docs_to_update_status := [] |}).
  pose proof (discover_docs_live allow_llm (StatementPlaybookLoader playbook)
                (Database.get_docs_pending_label_normalization db0) db0 w0 st0
                (requests_follow_live_cache_refl db0 w0)) as H.
  destruct (discover_docs _ _ _ st0) as [[e|] st]; cbn [fst snd] in *; [exact H|].
  eapply requests_follow_live_cache_same; [|reflexivity|exact H].
  unfold Database.mark_docs_label_review_status.
  by destruct (docs_to_update_status st).
Qed.

(** C6. Two runs of label discovery in a row, whatever the oracle does. If
    the cache keys (raw label, industry) are pairwise distinct before, they
    are after each run. In each run every request asks only for labels that
    have no cache row when the request is made: none with a row at the start
    of the run and none for which an earlier response of the run was stored;
    and the cache after the run has the keys of before and those of the
    stored responses. In particular the second run asks for no label the
    first run found or stored. One statement, from any state: its requests
    ask only for labels without a row in the cache of that state, and if all
    its distinct raw labels have a row it makes no request and no write. *)
Theorem C6_label_discovery_idempotent (allow_llm : bool)
    (playbook : list playbook_doc) (db0 : Db.t) (w0 : world) :
  let first := run_label_normalizer_discovery allow_llm playbook db0 w0 in
  let db1 := first.1.2 in
  let w1 := first.2 in
  let second := run_label_normalizer_discovery allow_llm playbook db1 w1 in
  let db2 := second.1.2 in
  let w2 := second.2 in
  (NoDup (cache_keys db0) → NoDup (cache_keys db1) ∧ NoDup (cache_keys db2)) ∧
  requests_follow_live_cache db0 w0 db1 w1 ∧
  requests_follow_live_cache db1 w1 db2 w2 ∧
  (∃ calls1, attempts_made w1 = attempts_made w0 ++ calls1 ∧
             Forall (uncached_request db0) calls1) ∧
  (∃ calls2, attempts_made w2 = attempts_made w1 ++ calls2 ∧
             Forall (uncached_request db1) calls2) ∧
  (∀ sp_loader doc_id ticker industry sa st,
     let st' := discover_statement allow_llm sp_loader doc_id ticker industry sa st in
     (∃ calls, attempts_made (w st') = attempts_made (w st) ++ calls ∧
               Forall (uncached_request (db st)) calls) ∧
     ((∀ label, label ∈ raw_labels_of (StatementAnalysis.figures sa) →
                is_Some (Database.get_label_mapping label (Some industry) (db st))) →
      st' = st ∧ w st' = w st)).
Proof.
  intros first db1 w1 second db2 w2.
  pose proof (run_label_normalizer_discovery_ok allow_llm playbook db0 w0) as [H1a [_ H1n]].
  pose proof (run_label_normalizer_discovery_ok allow_llm playbook db1 w1) as [H2a [_ H2n]].
  split; [|split; [|split; [|split; [|split]]]].
  - intros Hnd. split; [by apply H1n | by apply H2n, H1n].
  - apply run_label_normalizer_discovery_live.
  - apply run_label_normalizer_discovery_live.
  - exact H1a.
  - exact H2a.
  - intros sp_loader doc_id ticker industry sa st st'. split.
    + exact (proj1 (discover_statement_ok allow_llm sp_loader doc_id ticker industry sa st)).
    + intros Hcached. subst st'. by rewrite discover_statement_all_cached.
Qed.

(** Two documents with the same three labels in one run, the oracle
    answering for all three: one request, three cache rows; a second run
    finds no document to process and makes no request. *)
Example label_discovery_twice_example :
  let two_docs :=
    Examples.tables
      [Examples.staged 1 (Examples.unit_payload Examples.analysis_three_labels)
         "AUTO_APPROVED" "PENDING";
       Examples.staged 2 (Examples.unit_payload Examples.analysis_three_labels)
         "APPROVED" "PENDING"] [] in
  let answer :=
    ResponseText (LabelMappingsJson [("Interest Earned", Some "interest_earned");
                                     ("Other Income", Some "other_income");
                                     ("Net NPA %", None)]) in
  let first :=
    run_label_normalizer_discovery true Examples.playbook two_docs
      (Examples.world_with [answer; answer]) in
  let second := run_label_normalizer_discovery true Examples.playbook first.1.2 first.2 in
  length (attempts_made first.2) = 1 ∧
  cache_keys first.1.2
  = [("Interest Earned", "Banking"); ("Other Income", "Banking"); ("Net NPA %", "Banking")] ∧
  Database.get_docs_pending_label_normalization first.1.2 = [] ∧
  second = (None, first.1.2, first.2).
Proof. vm_compute. repeat split. Qed.

(** C7. After the retries are used up the document's phase status should be
    as before, so that the next sweep takes the document again. In label
    discovery it is not: with one document waiting (status PENDING) and a
    service that fails on all three attempts, the run makes the three
    attempts, waits 5 and 10 seconds, writes no cache row, and still marks
    the document PENDING_REVIEW, so that no later discovery run fetches it. *)
Theorem C7_label_discovery_marks_document_after_failure :
  let r :=
    run_label_normalizer_discovery true Examples.playbook Examples.db_label_pending
      (Examples.world_with Examples.timeouts) in
  Database.get_docs_pending_label_normalization Examples.db_label_pending = [1%Z] ∧
  label_review_status_of 1 Examples.db_label_pending = Some "PENDING" ∧
  r.1.1 = None ∧
  length (attempts_made r.2) = 3 ∧
  slept r.2 = [5; 10] ∧
  Db.label_mapping_cache r.1.2 = [] ∧
  label_review_status_of 1 r.1.2 = Some "PENDING_REVIEW" ∧
  Database.get_docs_pending_label_normalization r.1.2 = [].
Proof. vm_compute. repeat split. Qed.

End LabelDiscovery.

(** * Further properties of the code *)

(** ** The two leaf collectors *)

Section LeafCollectors.

Import Playbook.

(** X1. [_get_leaf_ids_recursive] returns, in pre-order, the ids of exactly
    the nodes without children that are not marked [extractable: false]. *)
Theorem X1_leaf_ids_are_kept_nodes_in_preorder (nodes : list node) :
  _get_leaf_ids_recursive nodes
  = map node_id
      (List.filter (λ n, childless n && negb (marked_non_extractable n))
                   (preorder_forest nodes)).
Proof. apply get_leaf_ids_recursive_spec. Qed.

(** X2. [StatementPlaybookLoader._flatten_leaves] returns, in pre-order, the
    ids of all nodes without children, whatever their [extractable] flag. *)
Theorem X2_flatten_leaves_are_childless_nodes_in_preorder (nodes : list node) :
  _flatten_leaves nodes = map node_id (List.filter childless (preorder_forest nodes)).
Proof. apply flatten_leaves_childless. Qed.

Lemma filter_kept_sublist (l : list node) :
  List.filter kept l `sublist_of` List.filter childless l.
Proof.
  induction l as [|n l IH]; [done|]. simpl. unfold kept at 1.
  destruct (childless n); simpl; [|done].
  destruct (marked_non_extractable n); simpl.
  - by apply sublist_cons.
  - by apply sublist_skip.
Qed.

Lemma filter_kept_all (l : list node) :
  (∀ n, n ∈ l → childless n = true → marked_non_extractable n = false) →
  List.filter kept l = List.filter childless l.
Proof.
  induction l as [|n l IH]; intros H; [done|]. simpl. unfold kept at 1.
  rewrite IH by (intros m Hm; apply H; by right).
  destruct (childless n) eqn:E; simpl; [|done].
  by rewrite (H n) by (done || left).
Qed.

(** X3. The expected leaves of the quality engine are a subsequence of the
    vocabulary the label mapper offers to the oracle, and the two lists are
    equal when no childless node of the trees is marked [extractable: false]. *)
Theorem X3_expected_leaves_within_label_vocabulary (nodes : list node) :
  _get_leaf_ids_recursive nodes `sublist_of` _flatten_leaves nodes ∧
  ((∀ n, n ∈ preorder_forest nodes → childless n = true →
         marked_non_extractable n = false) →
   _get_leaf_ids_recursive nodes = _flatten_leaves nodes).
Proof.
  rewrite get_leaf_ids_recursive_spec, flatten_leaves_childless. unfold spec_flatten.
  split.
  - apply (fmap_sublist node_id), filter_kept_sublist.
  - intros H. by rewrite filter_kept_all.
Qed.

End LeafCollectors.

(** ** The oracle client *)

Section OracleClientMore.

Import NormalizerClient.

(** X4. Whatever the service does, one call makes at least one and at most
    [LLM_MAX_RETRIES] = 3 attempts, all with the same context, and sleeps
    between attempts only: the waits are a prefix of 5, 10 seconds. *)
Theorem X4_retry_attempts_and_waits_are_bounded (c : context) (w : world) :
  ∃ n, 1 ≤ n ≤ LLM_MAX_RETRIES ∧
       attempts_made (call_gemini_with_retry c w).2 = attempts_made w ++ replicate n c ∧
       slept (call_gemini_with_retry c w).2 = slept w ++ take (n - 1) [5; 10].
Proof. apply call_gemini_with_retry_bounded. Qed.

(** X5. When fewer than three failed attempts are followed by an attempt
    that gives a text, the call returns that text; it has made one attempt
    more than there were failures, has waited once per failure, and leaves
    the rest of the service untouched. *)
Theorem X5_retry_returns_first_text (c : context) (w : world)
    (failures : list attempt_outcome) (b : body) (rest : list attempt_outcome) :
  service w = failures ++ ResponseText b :: rest →
  Forall (λ o, is_Some (exception_of o)) failures →
  length failures < LLM_MAX_RETRIES →
  call_gemini_with_retry c w =
    (Py.Returned b,
     {| service := rest;
        attempts_made := attempts_made w ++ replicate (S (length failures)) c;
        slept := slept w ++ take (length failures) [5; 10] |}).
Proof.
  intros Hs Hf Hlen. destruct w as [s a sl]. simpl in Hs. subst s.
  unfold LLM_MAX_RETRIES in Hlen.
  destruct failures as [|o1 [|o2 [|o3 fs]]]; simpl in Hlen; try lia.
  - simpl. by rewrite app_nil_r.
  - apply Forall_cons in Hf as [[e1 H1] _].
    destruct o1; try discriminate; simpl;
      unfold call_gemini_with_retry; simpl; by rewrite <- !app_assoc.
  - apply Forall_cons in Hf as [[e1 H1] Hf]. apply Forall_cons in Hf as [[e2 H2] _].
    destruct o1, o2; try discriminate; simpl;
      unfold call_gemini_with_retry; simpl; by rewrite <- !app_assoc.
Qed.

Lemma X5_retry_returns_first_text_witness :
  call_gemini_with_retry (LabelContext
      {| LabelPayload.industry := "Banking"; LabelPayload.statement_key := "pnl";
         LabelPayload.statement_name := "P&L"; LabelPayload.statement_currency := None;
         LabelPayload.standard_names := ["interest_earned"];
         LabelPayload.raw_labels := ["Interest Earned"] |})
    (Examples.world_with [ApiError "DeadlineExceeded"; EmptyText;
                          ResponseText (LabelMappingsJson [("Interest Earned", None)]);
                          EmptyText])
  = (Py.Returned (LabelMappingsJson [("Interest Earned", None)]),
     {| service := [EmptyText];
        attempts_made := replicate 3 (LabelContext
          {| LabelPayload.industry := "Banking"; LabelPayload.statement_key := "pnl";
             LabelPayload.statement_name := "P&L"; LabelPayload.statement_currency := None;
             LabelPayload.standard_names := ["interest_earned"];
             LabelPayload.raw_labels := ["Interest Earned"] |});
        slept := [5; 10] |}).
Proof.
  apply (X5_retry_returns_first_text _
           (Examples.world_with [ApiError "DeadlineExceeded"; EmptyText;
                                 ResponseText (LabelMappingsJson [("Interest Earned", None)]);
                                 EmptyText])
           [ApiError "DeadlineExceeded"; EmptyText]).
  - reflexivity.
  - repeat constructor; by eexists.
  - unfold LLM_MAX_RETRIES. simpl. lia.
Defined.

(** X6. When the first three attempts all fail (an API error or an empty
    text), the call makes exactly these three attempts, waits 5 and then 10
    seconds, and raises the exception of the third; a text the service would
    have given on a fourth attempt is never asked for. *)
Theorem X6_retry_raises_after_three_failures (c : context) (w : world)
    (o1 o2 o3 : attempt_outcome) (rest : list attempt_outcome) (e1 e2 e3 : string) :
  service w = o1 :: o2 :: o3 :: rest →
  exception_of o1 = Some e1 → exception_of o2 = Some e2 → exception_of o3 = Some e3 →
  call_gemini_with_retry c w =
    (Py.Raised e3,
     {| service := rest;
        attempts_made := attempts_made w ++ [c; c; c];
        slept := slept w ++ [5; 10] |}).
Proof. apply call_gemini_with_retry_exhausted. Qed.

Lemma X6_retry_raises_after_three_failures_witness :
  (call_gemini_with_retry
     (UnitContext {| UnitPayload.company := "HDFCBANK"; UnitPayload.fiscal_date := "2024-03-31";
                     UnitPayload.statements_with_currency_context := [];
                     UnitPayload.note := "" |})
     (Examples.world_with
        (Examples.timeouts ++ [Examples.as_response Examples.analysis_all_high]))).1
  = Py.Raised "DeadlineExceeded".
Proof.
  by rewrite (X6_retry_raises_after_three_failures _
                (Examples.world_with
                   (Examples.timeouts ++ [Examples.as_response Examples.analysis_all_high]))
                (ApiError "DeadlineExceeded") (ApiError "503 Service Unavailable")
                (ApiError "DeadlineExceeded")
                [Examples.as_response Examples.analysis_all_high]
                "DeadlineExceeded" "503 Service Unavailable" "DeadlineExceeded"
                eq_refl eq_refl eq_refl eq_refl).
Defined.

End OracleClientMore.

(** ** Unit discovery: what happens without a usable analysis *)

Section UnitDiscoveryMore.

Import NormalizerClient UnitNormalizer.



(** What [parse_llm_unit_analysis] returns is the decoded value itself. *)
Lemma parse_llm_unit_analysis_returns (b decoded : body) :
  parse_llm_unit_analysis b = Py.Returned decoded → decoded = b.
Proof.
  unfold parse_llm_unit_analysis.
  destruct b; try discriminate;
    destruct (all_required_keys _) as [[]|]; intros H; congruence.
Qed.



(** X8. When the oracle fails on three attempts in a row for a staged and
    parsed document, processing the document returns ['PENDING'] after three
    attempts and waits of 5 and 10 seconds, leaves all tables as they were,
    and the sweep over the document leaves its unit status PENDING. *)
Theorem X8_unit_discovery_survives_oracle_failure (doc_id : Z) (db : Db.t) (w : world)
    (staged_data : StagedNormalizedData.t) (parsed_doc : ParsedDocument.t)
    (content : ParsedContent.t)
    (o1 o2 o3 : attempt_outcome) (rest : list attempt_outcome) (e1 e2 e3 : string) :
  Database.staged_by_doc_id doc_id db = Some staged_data →
  Database.parsed_by_doc_id doc_id db = Some parsed_doc →
  ParsedDocument.content parsed_doc = Some content →
  service w = o1 :: o2 :: o3 :: rest →
  exception_of o1 = Some e1 → exception_of o2 = Some e2 → exception_of o3 = Some e3 →
  ∃ w', process_unit_normalization_discovery doc_id db w = ("PENDING", db, w') ∧
        length (attempts_made w') = length (attempts_made w) + 3 ∧
        slept w' = slept w ++ [5; 10] ∧
        unit_review_status_of doc_id (discovery_sweep [doc_id] db w).1 = Some "PENDING".
Proof. apply unit_discovery_oracle_failure. Qed.

Lemma X8_unit_discovery_survives_oracle_failure_witness :
  ∃ w', process_unit_normalization_discovery 1 Examples.db_unit_pending
          (Examples.world_with Examples.timeouts)
        = ("PENDING", Examples.db_unit_pending, w') ∧
        length (attempts_made w') = 3.
Proof.
  destruct (X8_unit_discovery_survives_oracle_failure 1 Examples.db_unit_pending
              (Examples.world_with Examples.timeouts)
              (Examples.staged 1 Examples.empty_payload "PENDING" "PENDING")
              (Examples.parsed 1) _ _ _ _ [] _ _ _
              eq_refl eq_refl eq_refl eq_refl eq_refl eq_refl eq_refl)
    as (w' & Hp & Hlen & _).
  exists w'. by split.
Defined.

(** X9. As written, [run_unit_normalizer_discovery] never changes a table
    and never calls the oracle, whatever its flag and whatever is pending:
    the list it loops over is the slice [doc_ids[:0]]. *)
Theorem X9_unit_discovery_run_changes_nothing (allow_llm : bool) (db : Db.t) (w : world) :
  run_unit_normalizer_discovery allow_llm db w = (db, w).
Proof. apply run_unit_normalizer_discovery_no_effect. Qed.

(** X10. A document without staged row or without parsed document is
    answered ['PENDING'] at once: no request is built, no attempt is made,
    no table is changed. *)
Theorem X10_unit_discovery_skips_unknown_document (doc_id : Z) (db : Db.t) (w : world) :
  Database.staged_by_doc_id doc_id db = None ∨ Database.parsed_by_doc_id doc_id db = None →
  process_unit_normalization_discovery doc_id db w = ("PENDING", db, w).
Proof.
  unfold process_unit_normalization_discovery. intros [H|H].
  - by rewrite H.
  - rewrite H. by destruct (Database.staged_by_doc_id doc_id db).
Qed.

Lemma X10_unit_discovery_skips_unknown_document_witness :
  process_unit_normalization_discovery 99 Examples.db_unit_pending
    (Examples.world_with [Examples.as_response Examples.analysis_one_low])
  = ("PENDING", Examples.db_unit_pending,
     Examples.world_with [Examples.as_response Examples.analysis_one_low]).
Proof.
  apply X10_unit_discovery_skips_unknown_document. left. reflexivity.
Defined.

(** X11. A response that arrives but is no unit analysis (whether
    [parse_llm_unit_analysis] refuses it or the later code fails on it) is
    not retried and leaves no trace in the tables: one attempt, no wait,
    status ['PENDING'], no queue row, payload untouched. *)
Theorem X11_invalid_response_is_not_retried_nor_recorded (doc_id : Z) (db : Db.t)
    (w : world) (staged_data : StagedNormalizedData.t) (parsed_doc : ParsedDocument.t)
    (content : ParsedContent.t) (b : body) (rest : list attempt_outcome) :
  Database.staged_by_doc_id doc_id db = Some staged_data →
  Database.parsed_by_doc_id doc_id db = Some parsed_doc →
  ParsedDocument.content parsed_doc = Some content →
  service w = ResponseText b :: rest →
  as_analysis b = None →
  ∃ w', process_unit_normalization_discovery doc_id db w = ("PENDING", db, w') ∧
        service w' = rest ∧
        length (attempts_made w') = length (attempts_made w) + 1 ∧
        slept w' = slept w.
Proof.
  intros Hs Hp Hc Hw Hbad.
  unfold process_unit_normalization_discovery, analyze_units_with_llm,
    get_filing_context_for_analysis.
  rewrite Hs, Hp, Hc. simpl. unfold call_gemini_with_json.
  match goal with
  | |- context [call_gemini_with_retry ?c0 w] =>
      rewrite (call_gemini_with_retry_first_text c0 w b rest Hw)
  end.
  destruct (parse_llm_unit_analysis b) as [decoded|e] eqn:Hparse.
  - apply parse_llm_unit_analysis_returns in Hparse as ->. rewrite Hbad.
    eexists. split; [done|]. simpl.
    split; [done|]. split; [|done]. rewrite length_app. simpl. lia.
  - eexists. split; [done|]. simpl.
    split; [done|]. split; [|done]. rewrite length_app. simpl. lia.
Qed.

Lemma X11_invalid_response_is_not_retried_nor_recorded_witness :
  ∃ w', process_unit_normalization_discovery 1 Examples.db_unit_pending
          (Examples.world_with
             [ResponseText (UnitAnalysisJson
                {| RawAnalysis.filing_analysis := Some (Examples.filing false);
                   RawAnalysis.statement_analyses := None |});
              Examples.as_response Examples.analysis_all_high])
        = ("PENDING", Examples.db_unit_pending, w') ∧
        service w' = [Examples.as_response Examples.analysis_all_high].
Proof.
  destruct (X11_invalid_response_is_not_retried_nor_recorded 1 Examples.db_unit_pending
              (Examples.world_with
                 [ResponseText (UnitAnalysisJson
                    {| RawAnalysis.filing_analysis := Some (Examples.filing false);
                       RawAnalysis.statement_analyses := None |});
                  Examples.as_response Examples.analysis_all_high])
              (Examples.staged 1 Examples.empty_payload "PENDING" "PENDING")
              (Examples.parsed 1) _ _ _ eq_refl eq_refl eq_refl eq_refl eq_refl)
    as (w' & Hp & Hrest & _).
  exists w'. by split.
Defined.

End UnitDiscoveryMore.

(** ** Label discovery: what a run can and cannot change *)

Section LabelDiscoveryMore.

Import NormalizerClient LabelNormalizer.

(** A relation between tables that holds across every cache write of
    discovery and across the final marking holds across a whole run. *)
Section Preserved.

Variable R : Db.t → Db.t → Prop.
Hypothesis R_refl : ∀ d, R d d.
Hypothesis R_trans : ∀ d1 d2 d3, R d1 d2 → R d2 d3 → R d1 d3.
Hypothesis R_upsert : ∀ label industry mapped doc_id ticker stmt_key std_map d,
  R d (Database.upsert_label_mapping
         (discovered_row label industry mapped doc_id ticker stmt_key std_map) d).
Hypothesis R_mark : ∀ doc_ids d,
  R d (Database.mark_docs_label_review_status doc_ids "PENDING_REVIEW" d).

Lemma store_mappings_preserves items industry doc_id ticker stmt_key std_map : ∀ st,
  R (db st) (db (store_mappings items industry doc_id ticker stmt_key std_map st)).
Proof using R_refl R_trans R_upsert.
  induction items as [|[label mapped] items IH]; intros st; simpl; [done|].
  eapply R_trans; [|apply IH]. apply R_upsert.
Qed.

Lemma discover_statement_preserves allow_llm sp_loader doc_id ticker industry sa st :
  R (db st) (db (discover_statement allow_llm sp_loader doc_id ticker industry sa st)).
Proof using R_refl R_trans R_upsert.
  unfold discover_statement.
  destruct (StatementAnalysis.figures sa) as [|f fs] eqn:Ef; [done|]. rewrite <- Ef.
  destruct (statement_key_of _ _) as [stmt_key|]; [|done].
  destruct (get_leaves_for sp_loader stmt_key) as [|n ns] eqn:En; [done|]. rewrite <- En.
  destruct (new_labels _ industry st) as [|l ls] eqn:El; [done|]. rewrite <- El.
  destruct allow_llm; [|done].
  destruct (call_gemini_with_json _ (w st)) as [[[t|a|items|els|js|t]|e] w']; try done.
  apply (store_mappings_preserves items industry doc_id ticker stmt_key _ (with_world w' st)).
Qed.

Lemma discover_statements_preserves allow_llm sp_loader doc_id ticker industry stmts : ∀ st,
  R (db st) (db (discover_statements allow_llm sp_loader doc_id ticker industry stmts st)).
Proof using R_refl R_trans R_upsert.
  unfold discover_statements.
  induction stmts as [|sa stmts IH]; intros st; simpl; [done|].
  eapply R_trans; [apply discover_statement_preserves | apply IH].
Qed.

Lemma discover_doc_preserves allow_llm sp_loader doc_id st st' :
  discover_doc allow_llm sp_loader doc_id st = Py.Returned st' → R (db st) (db st').
Proof using R_refl R_trans R_upsert.
  unfold discover_doc. intros H.
  repeat match type of H with
  | match ?x with _ => _ end = _ => destruct x eqn:?
  | (if ?x then _ else _) = _ => destruct x eqn:?
  end; simplify_eq; try done.
  cbn [db]. exact (discover_statements_preserves _ _ _ _ _ (_ :: _) st).
Qed.

Lemma discover_docs_preserves allow_llm sp_loader doc_ids : ∀ st,
  R (db st) (db (discover_docs allow_llm sp_loader doc_ids st).2).
Proof using R_refl R_trans R_upsert.
  induction doc_ids as [|d ds IH]; intros st; simpl; [done|].
  destruct (discover_doc allow_llm sp_loader d st) as [st'|e] eqn:E; simpl; [|done].
  eapply R_trans; [by eapply discover_doc_preserves | apply IH].
Qed.

Lemma run_label_normalizer_discovery_preserves allow_llm playbook db0 w0 :
  R db0 (run_label_normalizer_discovery allow_llm playbook db0 w0).1.2.
Proof using R_refl R_trans R_upsert R_mark.
  unfold run_label_normalizer_discovery.
  destruct (Database.get_docs_pending_label_normalization db0) as [|d ds] eqn:E; [done|].
  rewrite <- E.
  set (st0 := {| db := db0; w := w0; processed_in_this_run := [];
                 docs_to_update_status := [] |}).
  pose proof (discover_docs_preserves allow_llm (StatementPlaybookLoader playbook)
                (Database.get_docs_pending_label_normalization db0) st0) as H.
  destruct (discover_docs _ _ _ st0) as [[e|] st]; simpl in *; [done|].
  eapply R_trans; [exact H | apply R_mark].
Qed.

End Preserved.

Lemma upsert_row_rows new rows m :
  m ∈ Database.upsert_row new rows →
  m ∈ rows ∨ m = new ∨ ∃ old, old ∈ rows ∧ m = Database.label_mapping_on_conflict new old.
Proof.
  induction rows as [|old rows IH]; simpl.
  - intros ->%list_elem_of_singleton. by right; left.
  - destruct (String.eqb (LabelMapping.raw_label old) (LabelMapping.raw_label new) &&
              String.eqb (LabelMapping.industry old) (LabelMapping.industry new)).
    + intros [->|H]%elem_of_cons.
      * right; right. exists old. split; [left|done].
      * left. by right.
    + intros [->|H]%elem_of_cons; [left; left|].
      destruct (IH H) as [?|[?|(o & ? & ?)]]; [left; by right | by right; left |].
      right; right. exists o. split; [by right|done].
Qed.

(** X12. Every cache row after a discovery run is either a row that was in
    the cache before, or a row in status PENDING_REVIEW without reviewer
    stamp: whatever the oracle answers, discovery never produces an APPROVED
    or REJECTED row. *)
Theorem X12_discovery_writes_only_pending_review_rows (allow_llm : bool)
    (playbook : list playbook_doc) (db0 : Db.t) (w0 : world) (m : LabelMapping.t) :
  m ∈ Db.label_mapping_cache (run_label_normalizer_discovery allow_llm playbook db0 w0).1.2 →
  m ∈ Db.label_mapping_cache db0 ∨
  (LabelMapping.status m = "PENDING_REVIEW" ∧
   LabelMapping.reviewed_by m = None ∧ LabelMapping.last_reviewed_at m = None).
Proof.
  revert m.
  apply (run_label_normalizer_discovery_preserves
           (λ d d', ∀ m, m ∈ Db.label_mapping_cache d' →
                         m ∈ Db.label_mapping_cache d ∨
                         (LabelMapping.status m = "PENDING_REVIEW" ∧
                          LabelMapping.reviewed_by m = None ∧
                          LabelMapping.last_reviewed_at m = None))).
  - intros d m Hm. by left.
  - intros d1 d2 d3 H12 H23 m Hm. destruct (H23 m Hm) as [H|H]; [by apply H12 | by right].
  - intros label industry mapped doc_id ticker stmt_key std_map d m Hm. simpl in Hm.
    apply upsert_row_rows in Hm as [?|[->|(old & _ & ->)]]; [by left | by right..].
  - intros doc_ids d m Hm. left.
    unfold Database.mark_docs_label_review_status in Hm. by destruct doc_ids.
Qed.

Lemma X12_discovery_writes_only_pending_review_rows_witness :
  let m := discovered_row "Net NPA %" "Banking" None 1 "HDFCBANK" "pnl" "standalone_pnl" in
  LabelMapping.status m = "PENDING_REVIEW".
Proof.
  intros m.
  destruct (X12_discovery_writes_only_pending_review_rows true Examples.playbook
              Examples.db_label_pending
              (Examples.world_with
                 [ResponseText (LabelMappingsJson [("Net NPA %", None)])]) m)
    as [H|[H _]].
  - vm_compute. left.
  - vm_compute in H. by apply elem_of_nil in H.
  - exact H.
Defined.

(** X13. A discovery run changes the label cache and the label review
    status, nothing else: parsed documents, unit review queue and companies
    are as before, and each staged row is as before except that its
    [label_review_status] may have become PENDING_REVIEW. *)
Theorem X13_discovery_touches_cache_and_label_status_only (allow_llm : bool)
    (playbook : list playbook_doc) (db0 : Db.t) (w0 : world) :
  let db1 := (run_label_normalizer_discovery allow_llm playbook db0 w0).1.2 in
  Db.parsed_documents db1 = Db.parsed_documents db0 ∧
  Db.unit_review_queue db1 = Db.unit_review_queue db0 ∧
  Db.company_master db1 = Db.company_master db0 ∧
  Forall2 (λ r r', r' = r ∨ r' = Database.set_label_review_status "PENDING_REVIEW" r)
          (Db.staged_normalized_data db0) (Db.staged_normalized_data db1).
Proof.
  apply (run_label_normalizer_discovery_preserves
           (λ d d', Db.parsed_documents d' = Db.parsed_documents d ∧
                    Db.unit_review_queue d' = Db.unit_review_queue d ∧
                    Db.company_master d' = Db.company_master d ∧
                    Forall2 (λ r r', r' = r ∨
                                     r' = Database.set_label_review_status "PENDING_REVIEW" r)
                            (Db.staged_normalized_data d) (Db.staged_normalized_data d'))).
  - intros d. repeat split. apply Forall2_same_length_lookup. split; [done|].
    intros i r r' H1 H2. left. congruence.
  - intros d1 d2 d3 (P12 & Q12 & C12 & S12) (P23 & Q23 & C23 & S23).
    split; [congruence|]. split; [congruence|]. split; [congruence|].
    clear -S12 S23. revert S23. generalize (Db.staged_normalized_data d3).
    induction S12 as [|r r' l l' H _ IH]; intros l3 S23.
    + apply Forall2_nil_inv_l in S23 as ->. constructor.
    + apply Forall2_cons_inv_l in S23 as (r3 & l3' & H3 & S & ->).
      constructor; [|by apply IH].
      destruct H as [->| ->], H3 as [->| ->]; auto.
  - intros label industry mapped doc_id ticker stmt_key std_map d. repeat split.
    simpl. apply Forall2_same_length_lookup. split; [done|].
    intros i r r' H1 H2. left. congruence.
  - intros doc_ids d. unfold Database.mark_docs_label_review_status.
    destruct doc_ids as [|x xs] eqn:E.
    + repeat split. apply Forall2_same_length_lookup. split; [done|].
      intros i r r' H1 H2. left. congruence.
    + rewrite <- E. repeat split. simpl.
      induction (Db.staged_normalized_data d) as [|r l IH]; constructor; [|done].
      destruct (Database.mem_Z _ _); auto.
Qed.

End LabelDiscoveryMore.

(** ** Label discovery with the oracle switched off *)

Section LabelDiscoveryNoLlm.

Import NormalizerClient LabelNormalizer.

Lemma discover_statement_no_llm sp_loader doc_id ticker industry sa st :
  discover_statement false sp_loader doc_id ticker industry sa st = st.
Proof.
  unfold discover_statement.
  destruct (StatementAnalysis.figures sa) as [|f fs] eqn:Ef; [done|]. rewrite <- Ef.
  destruct (statement_key_of _ _) as [stmt_key|]; [|done].
  destruct (get_leaves_for sp_loader stmt_key) as [|n ns]; [done|].
  by destruct (new_labels _ industry st).
Qed.

Lemma discover_statements_no_llm sp_loader doc_id ticker industry stmts st :
  discover_statements false sp_loader doc_id ticker industry stmts st = st.
Proof.
  unfold discover_statements.
  induction stmts as [|sa stmts IH]; simpl; [done|].
  by rewrite discover_statement_no_llm.
Qed.

Lemma discover_doc_no_llm sp_loader doc_id st st' :
  discover_doc false sp_loader doc_id st = Py.Returned st' →
  db st' = db st ∧ w st' = w st.
Proof.
  unfold discover_doc. intros H.
  repeat match type of H with
  | match ?x with _ => _ end = _ => destruct x eqn:?
  | (if ?x then _ else _) = _ => destruct x eqn:?
  end; simplify_eq; try done.
  cbn [db w].
  by rewrite discover_statements_no_llm, discover_statement_no_llm.
Qed.

Lemma discover_docs_no_llm sp_loader doc_ids : ∀ st,
  db (discover_docs false sp_loader doc_ids st).2 = db st ∧
  w (discover_docs false sp_loader doc_ids st).2 = w st.
Proof.
  induction doc_ids as [|d ds IH]; intros st; simpl; [done|].
  destruct (discover_doc false sp_loader d st) as [st'|e] eqn:E; simpl; [|done].
  apply discover_doc_no_llm in E as [Hd Hw].
  destruct (IH st') as [Hd' Hw']. split; congruence.
Qed.

(** X14. With [allow_llm=False], a discovery run makes no attempt on the
    oracle and writes no cache row; all it does to the tables is the final
    marking of documents as PENDING_REVIEW. *)
Theorem X14_discovery_without_llm_only_marks (playbook : list playbook_doc)
    (db0 : Db.t) (w0 : world) :
  let r := run_label_normalizer_discovery false playbook db0 w0 in
  r.2 = w0 ∧
  Db.label_mapping_cache r.1.2 = Db.label_mapping_cache db0 ∧
  ∃ doc_ids, r.1.2 = Database.mark_docs_label_review_status doc_ids "PENDING_REVIEW" db0.
Proof.
  unfold run_label_normalizer_discovery.
  destruct (Database.get_docs_pending_label_normalization db0) as [|d ds] eqn:E.
  { simpl. split; [done|]. split; [done|]. by exists []. }
  rewrite <- E.
  set (st0 := {| db := db0; w := w0; processed_in_this_run := [];
                 docs_to_update_status := [] |}).
  destruct (discover_docs_no_llm (StatementPlaybookLoader playbook)
              (Database.get_docs_pending_label_normalization db0) st0) as [Hd Hw].
  destruct (discover_docs _ _ _ st0) as [[e|] st]; simpl in *.
  - split; [done|]. split; [by rewrite Hd|]. exists []. by rewrite Hd.
  - split; [done|]. rewrite Hd. split; [|by eexists].
    unfold Database.mark_docs_label_review_status. by destruct (docs_to_update_status st).
Qed.

(** With the oracle off, the sample document is still marked, with none of
    its labels in the cache. *)
Example discovery_without_llm_example :
  let r := run_label_normalizer_discovery false Examples.playbook Examples.db_label_pending
             (Examples.world_with []) in
  label_review_status_of 1 r.1.2 = Some "PENDING_REVIEW" ∧
  Db.label_mapping_cache r.1.2 = [].
Proof. vm_compute. by split. Qed.

End LabelDiscoveryNoLlm.

(** ** The label cache: write, then read *)

Section LabelCache.

Lemma find_upsert_row_same new rows :
  ∃ row,
    List.find (λ m, String.eqb (LabelMapping.raw_label m) (LabelMapping.raw_label new) &&
                    String.eqb (LabelMapping.industry m) (LabelMapping.industry new))
              (Database.upsert_row new rows) = Some row ∧
    LabelMapping.key row = LabelMapping.key new ∧
    LabelMapping.normalized_label row = LabelMapping.normalized_label new ∧
    LabelMapping.status row = LabelMapping.status new ∧
    LabelMapping.reviewed_by row = LabelMapping.reviewed_by new ∧
    ∀ old,
      List.find (λ m, String.eqb (LabelMapping.raw_label m) (LabelMapping.raw_label new) &&
                      String.eqb (LabelMapping.industry m) (LabelMapping.industry new))
                rows = Some old →
      LabelMapping.source_context row = LabelMapping.source_context old ∧
      LabelMapping.processed row = LabelMapping.processed old.
Proof.
  induction rows as [|o rows IH]; simpl.
  - exists new. rewrite !String.eqb_refl. simpl. by repeat split.
  - destruct (String.eqb (LabelMapping.raw_label o) (LabelMapping.raw_label new) &&
              String.eqb (LabelMapping.industry o) (LabelMapping.industry new)) eqn:E.
    + exists (Database.label_mapping_on_conflict new o). simpl. rewrite E.
      apply andb_prop in E as [E1%String.eqb_eq E2%String.eqb_eq].
      unfold LabelMapping.key. simpl. rewrite E1, E2.
      do 5 (split; [done|]). by intros ? [= <-].
    + simpl. rewrite E. exact IH.
Qed.

Lemma find_upsert_row_other new rows l i :
  (l, i) ≠ LabelMapping.key new →
  List.find (λ m, String.eqb (LabelMapping.raw_label m) l &&
                  String.eqb (LabelMapping.industry m) i)
            (Database.upsert_row new rows)
  = List.find (λ m, String.eqb (LabelMapping.raw_label m) l &&
                    String.eqb (LabelMapping.industry m) i) rows.
Proof.
  intros Hne. induction rows as [|o rows IH]; simpl.
  - destruct (String.eqb (LabelMapping.raw_label new) l &&
              String.eqb (LabelMapping.industry new) i) eqn:E; [|done].
    apply andb_prop in E as [E1%String.eqb_eq E2%String.eqb_eq].
    exfalso. apply Hne. unfold LabelMapping.key. by rewrite E1, E2.
  - destruct (String.eqb (LabelMapping.raw_label o) (LabelMapping.raw_label new) &&
              String.eqb (LabelMapping.industry o) (LabelMapping.industry new)) eqn:E.
    + simpl. apply andb_prop in E as [E1%String.eqb_eq E2%String.eqb_eq].
      destruct (String.eqb (LabelMapping.raw_label o) l &&
                String.eqb (LabelMapping.industry o) i) eqn:E'; [|done].
      apply andb_prop in E' as [E1'%String.eqb_eq E2'%String.eqb_eq].
      exfalso. apply Hne. unfold LabelMapping.key. congruence.
    + simpl. by rewrite IH.
Qed.

(** X15. After [upsert_label_mapping], [get_label_mapping] on the written
    key returns a row with the written normalized label, status and reviewer;
    when the key existed, the row keeps its first [source_context] and its
    [processed] flag; and the lookup of every other key is as before. *)
Theorem X15_upsert_then_get_label_mapping (new : LabelMapping.t) (db : Db.t) :
  (∃ row,
     Database.get_label_mapping (LabelMapping.raw_label new)
       (Some (LabelMapping.industry new)) (Database.upsert_label_mapping new db) = Some row ∧
     LabelMapping.key row = LabelMapping.key new ∧
     LabelMapping.normalized_label row = LabelMapping.normalized_label new ∧
     LabelMapping.status row = LabelMapping.status new ∧
     LabelMapping.reviewed_by row = LabelMapping.reviewed_by new ∧
     ∀ old,
       Database.get_label_mapping (LabelMapping.raw_label new)
         (Some (LabelMapping.industry new)) db = Some old →
       LabelMapping.source_context row = LabelMapping.source_context old ∧
       LabelMapping.processed row = LabelMapping.processed old) ∧
  (∀ l i, (l, i) ≠ LabelMapping.key new →
     Database.get_label_mapping l (Some i) (Database.upsert_label_mapping new db)
     = Database.get_label_mapping l (Some i) db).
Proof.
  split.
  - apply find_upsert_row_same.
  - intros l i Hne. by apply find_upsert_row_other.
Qed.

End LabelCache.

(** ** Label application: the rows after a run *)

Section LabelApplicationMore.

Import LabelNormalizer.













End LabelApplicationMore.

(** ** The expected leaves per statement *)

Section PlaybookLeaves.

Import PlaybookUtils.

Lemma load_doc_other_key doc acc k :
  ¬ doc_for k doc → load_doc doc acc !! k = acc !! k.
Proof.
  intros Hk. unfold load_doc.
  destruct (LabelNormalizer.statement doc) as [[|c s]|] eqn:E; try done.
  assert (normalized_key_of (String c s) ≠ k) as Hne.
  { intros Heq. apply Hk. by exists c, s. }
  destruct (String.eqb _ "cash_flow"); by rewrite lookup_insert_ne.
Qed.

Lemma load_doc_same_key doc acc k :
  doc_for k doc →
  load_doc doc acc !! k
  = Some (if String.eqb k "cash_flow"
          then Py.sorted (elements ((list_to_set (default [] (acc !! k)) : gset string)
                                    ∪ list_to_set (doc_leaves doc)))
          else doc_leaves doc).
Proof.
  intros (c & s & Hst & Hk). unfold load_doc. rewrite Hst, Hk.
  destruct (String.eqb k "cash_flow"); by rewrite lookup_insert_eq.
Qed.

Lemma fold_load_doc_other docs k : ∀ acc,
  Forall (λ doc, ¬ doc_for k doc) docs →
  fold_left (λ acc doc, load_doc doc acc) docs acc !! k = acc !! k.
Proof.
  induction docs as [|doc docs IH]; intros acc H; simpl; [done|].
  apply Forall_cons in H as [Hd H]. rewrite IH by done. by apply load_doc_other_key.
Qed.

Lemma doc_for_dec k doc : doc_for k doc ∨ ¬ doc_for k doc.
Proof.
  unfold doc_for. destruct (LabelNormalizer.statement doc) as [[|c s]|].
  - right. by intros (c & s & ? & _).
  - destruct (decide (normalized_key_of (String c s) = k)) as [H|H].
    + left. by exists c, s.
    + right. intros (c' & s' & [= <- <-] & ?). done.
  - right. by intros (c & s & ? & _).
Qed.

(** X18. For every key other than ["cash_flow"], the expected leaves are
    those of the last playbook document mapped to that key, in document
    order and as they are (no merge with earlier documents of the same key,
    no sorting, no de-duplication). *)
Theorem X18_last_document_of_a_key_wins (before after : list LabelNormalizer.playbook_doc)
    (doc : LabelNormalizer.playbook_doc) (k : string) :
  k ≠ "cash_flow" →
  doc_for k doc →
  Forall (λ d, ¬ doc_for k d) after →
  load_playbook_leaf_nodes (before ++ doc :: after) !! k = Some (doc_leaves doc).
Proof.
  intros Hk Hdoc Hafter. unfold load_playbook_leaf_nodes.
  rewrite fold_left_app. simpl. rewrite fold_load_doc_other by done.
  rewrite load_doc_same_key by done.
  by apply String.eqb_neq in Hk as ->.
Qed.

Lemma X18_last_document_of_a_key_wins_witness :
  load_playbook_leaf_nodes Examples.playbook_variants !! "pnl"
  = Some ["segment_revenue"; "segment_revenue"].
Proof.
  apply (X18_last_document_of_a_key_wins
           (take 2 Examples.playbook_variants) (drop 3 Examples.playbook_variants)).
  - discriminate.
  - eexists _, _. split; reflexivity.
  - repeat constructor. intros (c & s & [= <- <-] & Hk). discriminate Hk.
Defined.

Lemma list_to_set_sorted_elements (X : gset string) :
  (list_to_set (Py.sorted (elements X)) : gset string) = X.
Proof.
  apply set_eq. intros x. rewrite elem_of_list_to_set.
  apply (sorted_elements_listing X).
Qed.

Lemma doc_for_cash_flow_bool doc :
  String.eqb (normalized_key_of (default "" (LabelNormalizer.statement doc))) "cash_flow" = true
  ↔ doc_for "cash_flow" doc.
Proof.
  rewrite String.eqb_eq. unfold doc_for.
  destruct (LabelNormalizer.statement doc) as [[|c s]|]; simpl.
  - split; [discriminate | by intros (c & s & ? & _)].
  - split; [by exists c, s | by intros (c' & s' & [= <- <-] & ?)].
  - split; [discriminate | by intros (c & s & ? & _)].
Qed.

(** The cash-flow entry while loading: the set of what was there joined with
    the leaves of the cash-flow documents loaded so far, listed in order. *)
Lemma fold_load_doc_cash_flow acc docs :
  let loaded := fold_left (λ acc doc, load_doc doc acc) docs acc in
  let leaves : gset string :=
    list_to_set (default [] (acc !! "cash_flow")) ∪
    list_to_set
      (flat_map doc_leaves
         (List.filter (λ d, String.eqb (normalized_key_of
                              (default "" (LabelNormalizer.statement d))) "cash_flow")
                      docs)) in
  (list_to_set (default [] (loaded !! "cash_flow")) : gset string) = leaves ∧
  (Exists (doc_for "cash_flow") docs →
   loaded !! "cash_flow" = Some (Py.sorted (elements leaves))).
Proof.
  induction docs as [|doc docs IH] using rev_ind; simpl.
  - split; [by rewrite (right_id_L ∅ (∪))|]. by intros ?%Exists_nil.
  - destruct IH as [IHset IHsome].
    rewrite fold_left_app, List.filter_app, flat_map_app, list_to_set_app_L. simpl.
    destruct (String.eqb (normalized_key_of (default "" (LabelNormalizer.statement doc)))
                         "cash_flow") eqn:E.
    + apply doc_for_cash_flow_bool in E.
      rewrite (load_doc_same_key _ _ _ E). simpl. rewrite IHset.
      simpl. rewrite app_nil_r, !(assoc_L (∪)).
      split; [by rewrite list_to_set_sorted_elements | done].
    + assert (¬ doc_for "cash_flow" doc) as Hn.
      { intros H. apply doc_for_cash_flow_bool in H. congruence. }
      rewrite load_doc_other_key by done. simpl.
      rewrite (right_id_L ∅ (∪)). split; [done|].
      intros Hex. apply Exists_app in Hex as [Hex|Hex]; [by apply IHsome|].
      apply Exists_cons in Hex as [?|?%Exists_nil]; done.
Qed.

(** X19. When at least one playbook document is mapped to ["cash_flow"]
    (the direct and the indirect presentation, say), the expected cash-flow
    leaves are the union of the leaves of all such documents, without
    duplicates and in increasing order. *)
Theorem X19_cash_flow_leaves_are_sorted_union (docs : list LabelNormalizer.playbook_doc) :
  Exists (doc_for "cash_flow") docs →
  ∃ l, load_playbook_leaf_nodes docs !! "cash_flow" = Some l ∧
       StronglySorted Py.str_lt l ∧
       ∀ x, x ∈ l ↔ ∃ doc, doc ∈ docs ∧ doc_for "cash_flow" doc ∧ x ∈ doc_leaves doc.
Proof.
  intros Hex.
  destruct (fold_load_doc_cash_flow ∅ docs) as [_ Hsome].
  eexists. split; [by apply Hsome|].
  match goal with
  | |- context [Py.sorted (elements ?X)] =>
      destruct (sorted_elements_listing X) as [Hsorted Hmem]
  end.
  split; [exact Hsorted|]. intros x. rewrite Hmem.
  rewrite lookup_empty, elem_of_union, !elem_of_list_to_set. simpl. split.
  - intros [?%elem_of_nil|Hx]; [done|].
    apply list_elem_of_In, in_flat_map in Hx as (doc & Hin & Hx).
    apply filter_In in Hin as [Hin Hcf]. apply doc_for_cash_flow_bool in Hcf.
    exists doc. by rewrite !list_elem_of_In.
  - intros (doc & Hin & Hcf & Hx). right.
    apply list_elem_of_In, in_flat_map. exists doc.
    rewrite filter_In, <- !list_elem_of_In. by rewrite doc_for_cash_flow_bool.
Qed.

Lemma X19_cash_flow_leaves_are_sorted_union_witness :
  load_playbook_leaf_nodes Examples.playbook_variants !! "cash_flow"
  = Some ["adjustments"; "net_cash_operating"; "receipts_from_customers"] ∧
  ∃ l, load_playbook_leaf_nodes Examples.playbook_variants !! "cash_flow" = Some l ∧
       StronglySorted Py.str_lt l.
Proof.
  split; [vm_compute; reflexivity|].
  destruct (X19_cash_flow_leaves_are_sorted_union Examples.playbook_variants)
    as (l & Hl & Hs & _).
  - apply Exists_cons_tl, Exists_cons_hd. eexists _, _. split; reflexivity.
  - exists l. split; assumption.
Defined.

End PlaybookLeaves.

(** ** The completeness stage on the runs table *)

Section CompletenessStage.

Import QualityEngine Stage1.

Lemma NoDup_fmap_elem_inj {A B} (f : A → B) (l : list A) (x y : A) :
  NoDup (f <$> l) → x ∈ l → y ∈ l → f x = f y → x = y.
Proof.
  induction l as [|a l IH]; intros Hnd Hx Hy Hf.
  - inversion Hx.
  - rewrite fmap_cons in Hnd. apply NoDup_cons in Hnd as [Hna Hnd].
    apply elem_of_cons in Hx as [->|Hx]; apply elem_of_cons in Hy as [->|Hy].
    + reflexivity.
    + exfalso. apply Hna. rewrite Hf. apply list_elem_of_fmap. exists y. split; [reflexivity | assumption].
    + exfalso. apply Hna. rewrite <- Hf. apply list_elem_of_fmap. exists x. split; [reflexivity | assumption].
    + apply IH; assumption.
Qed.

Lemma NoDup_fmap_filter {A B} (f : A → B) (p : A → bool) (l : list A) :
  NoDup (f <$> l) → NoDup (f <$> List.filter p l).
Proof.
  induction l as [|a l IH]; intros Hnd; [assumption|].
  rewrite fmap_cons in Hnd. apply NoDup_cons in Hnd as [Hna Hnd].
  simpl. destruct (p a).
  - rewrite fmap_cons. apply NoDup_cons. split; [|apply IH; assumption].
    intros Hin. apply Hna. apply list_elem_of_fmap in Hin as (x & -> & Hx).
    apply list_elem_of_fmap. exists x. split; [reflexivity|].
    apply list_elem_of_In in Hx. apply filter_In in Hx as [Hx _].
    apply list_elem_of_In. assumption.
  - apply IH; assumption.
Qed.

Lemma apply_updates_stage_version (u : updates) (r : QualityEngineRun) (k : nat) :
  stage_version k (apply_updates u r) = stage_version k r.
Proof. destruct k as [|[|[|[|[|k]]]]]; reflexivity. Qed.

Lemma apply_updates_stage_status (u : updates) (r : QualityEngineRun) (k : nat) :
  2 ≤ k → stage_status k (apply_updates u r) = stage_status k r.
Proof. destruct k as [|[|[|[|[|k]]]]]; intros; try reflexivity; lia. Qed.

(** The update stage 1a writes always carries one of its two verdicts. *)
Lemma updates_for_status (pb : gmap string (list string)) (c : option content) :
  upd_stage_1_status (updates_for pb c) = Some "COMPLETENESS_ERROR" ∨
  updates_for pb c =
    {| upd_stage_1_status := Some "COMPLETENESS_CHECK_PASSED";
       upd_failure_reason := None; upd_details := None |}.
Proof.
  destruct c as [[[items|]]|]; simpl; try (left; reflexivity).
  destruct (first_failure pb items) as [[k res]|]; [left | right]; reflexivity.
Qed.

(** Updates by run id, one per fetched run, on a table: every row is
    updated by the fetched run that has its id. *)
Lemma fold_update_quality_run (U : QualityEngineRun → updates)
    (s t : list QualityEngineRun) :
  NoDup (run_id <$> s) →
  fold_left (λ table run, update_quality_run (run_id run) (U run) table) s t =
  map (λ r, match find (λ run, Z.eqb (run_id run) (run_id r)) s with
            | Some run => apply_updates (U run) r
            | None => r
            end) t.
Proof.
  revert t. induction s as [|a s IH]; intros t Hnd.
  - simpl. symmetry. apply map_id.
  - rewrite fmap_cons in Hnd. apply NoDup_cons in Hnd as [Hna Hnd].
    cbn [fold_left]. rewrite (IH _ Hnd). unfold update_quality_run.
    rewrite map_map. apply map_ext. intros r. cbn [find].
    destruct (Z.eqb_spec (run_id r) (run_id a)) as [e|n].
    + cbn [run_id apply_updates]. rewrite e, Z.eqb_refl.
      destruct (find (λ run, Z.eqb (run_id run) (run_id a)) s) as [run|] eqn:E;
        [|reflexivity].
      exfalso. apply find_some in E as [Hin Heq]. apply Z.eqb_eq in Heq.
      apply Hna. rewrite <- Heq. apply list_elem_of_fmap. exists run.
      split; [reflexivity | apply list_elem_of_In; assumption].
    + destruct (Z.eqb_spec (run_id a) (run_id r)) as [e'|_]; [congruence|].
      reflexivity.
Qed.

Lemma find_picked (runs : list QualityEngineRun) (r : QualityEngineRun) :
  NoDup (run_id <$> runs) → r ∈ runs →
  find (λ run, Z.eqb (run_id run) (run_id r)) (List.filter picked runs) =
  if picked r then Some r else None.
Proof.
  intros Hnd Hr.
  destruct (find _ _) as [run|] eqn:E.
  - apply find_some in E as [Hin Heq]. apply Z.eqb_eq in Heq.
    apply filter_In in Hin as [Hin Hp]. apply list_elem_of_In in Hin.
    assert (run = r) as -> by (eapply NoDup_fmap_elem_inj; eassumption).
    rewrite Hp. reflexivity.
  - destruct (picked r) eqn:Hp; [|reflexivity]. exfalso.
    assert (Hin : In r (List.filter picked runs)).
    { apply filter_In. split; [apply list_elem_of_In; assumption | assumption]. }
    pose proof (find_none _ _ E _ Hin) as Hf. cbn beta in Hf.
    rewrite Z.eqb_refl in Hf. discriminate.
Qed.

(** With unique run ids, stage 1a is a row-by-row map of the table. *)
Lemma run_stage_1a_checks_rows (playbook_docs : list LabelNormalizer.playbook_doc)
    (content_of : Z → option content) (runs : list QualityEngineRun) :
  NoDup (run_id <$> runs) →
  PlaybookUtils.load_playbook_leaf_nodes playbook_docs ≠ ∅ →
  run_stage_1a_checks playbook_docs content_of runs =
  map (checked_row (PlaybookUtils.load_playbook_leaf_nodes playbook_docs) content_of) runs.
Proof.
  intros Hnd Hpb. unfold run_stage_1a_checks.
  destruct (decide _) as [e|_]; [contradiction|]. cbv zeta.
  set (pb := PlaybookUtils.load_playbook_leaf_nodes playbook_docs).
  unfold get_runs_by_stage_1_status. fold picked.
  transitivity (fold_left
    (λ table run, update_quality_run (run_id run)
                    (updates_for pb (content_of (doc_id run))) table)
    (List.filter picked runs) runs).
  { destruct (List.filter picked runs); reflexivity. }
  rewrite (fold_update_quality_run (λ run, updates_for pb (content_of (doc_id run))))
    by (apply NoDup_fmap_filter; assumption).
  apply map_ext_in. intros r Hr. apply list_elem_of_In in Hr.
  rewrite (find_picked _ _ Hnd Hr). unfold checked_row.
  destruct (picked r); reflexivity.
Qed.

Lemma checked_row_run_ids (pb : gmap string (list string))
    (content_of : Z → option content) (runs : list QualityEngineRun) :
  run_id <$> map (checked_row pb content_of) runs = run_id <$> runs.
Proof.
  change (map (checked_row pb content_of) runs)
    with (checked_row pb content_of <$> runs).
  rewrite <- list_fmap_compose. apply list_fmap_ext. intros _ r _.
  unfold compose, checked_row. destruct (picked r); reflexivity.
Qed.

Lemma first_failure_None (pb : gmap string (list string))
    (items : list (string * option Completeness.statement_data)) :
  first_failure pb items = None ↔ all_statements_complete pb items.
Proof.
  unfold all_statements_complete.
  induction items as [|[k d] rest IH]; cbn [first_failure].
  - split; [intros _ ? ? ? Hin; inversion Hin | reflexivity].
  - destruct (check_statement pb k d) as [res|] eqn:E.
    + destruct (Completeness.res_status res) eqn:S.
      * rewrite IH. split.
        -- intros H k' d' res' Hin Hc.
           apply elem_of_cons in Hin as [Heq|Hin]; [|eapply H; eassumption].
           injection Heq as -> ->. congruence.
        -- intros H k' d' res' Hin Hc. eapply H; [|eassumption].
           apply elem_of_cons. right. assumption.
      * split; [discriminate|]. intros H. exfalso.
        assert (Completeness.res_status res = Completeness.SUCCESS) as HS.
        { eapply H; [|eassumption]. apply elem_of_cons. left. reflexivity. }
        congruence.
    + rewrite IH. split.
      * intros H k' d' res' Hin Hc.
        apply elem_of_cons in Hin as [Heq|Hin]; [|eapply H; eassumption].
        injection Heq as -> ->. congruence.
      * intros H k' d' res' Hin Hc. eapply H; [|eassumption].
        apply elem_of_cons. right. assumption.
Qed.

Lemma first_failure_app (pb : gmap string (list string))
    (before rest : list (string * option Completeness.statement_data)) :
  all_statements_complete pb before →
  first_failure pb (before ++ rest) = first_failure pb rest.
Proof.
  unfold all_statements_complete.
  induction before as [|[k d] before IH]; intros H; [reflexivity|].
  cbn [app first_failure].
  assert (IH' : first_failure pb (before ++ rest) = first_failure pb rest).
  { apply IH. intros k' d' res' Hin Hc. eapply H; [|eassumption].
    apply elem_of_cons. right. assumption. }
  destruct (check_statement pb k d) as [res|] eqn:E; [|assumption].
  rewrite (H k d res); [assumption | apply elem_of_cons; left; reflexivity | assumption].
Qed.

Lemma checked_row_lookup (playbook_docs : list LabelNormalizer.playbook_doc)
    (content_of : Z → option content) (runs : list QualityEngineRun)
    (i : nat) (r : QualityEngineRun) :
  NoDup (run_id <$> runs) →
  PlaybookUtils.load_playbook_leaf_nodes playbook_docs ≠ ∅ →
  runs !! i = Some r →
  run_stage_1a_checks playbook_docs content_of runs !! i =
  Some (checked_row (PlaybookUtils.load_playbook_leaf_nodes playbook_docs) content_of r).
Proof.
  intros Hnd Hpb Hi. rewrite run_stage_1a_checks_rows by assumption.
  change (map ?f runs) with (f <$> runs).
  rewrite list_lookup_fmap, Hi. reflexivity.
Qed.

(** X20. With unique run ids and a loaded playbook, a fetched run whose
    document has an extraction block ends stage 1a in one of two states, and
    it is COMPLETENESS_CHECK_PASSED exactly when every statement of the
    block that the loop looks at passes the completeness check. *)
Theorem X20_stage_1a_passes_iff_all_statements_complete
    (playbook_docs : list LabelNormalizer.playbook_doc)
    (content_of : Z → option content) (runs : list QualityEngineRun)
    (i : nat) (r : QualityEngineRun)
    (items : list (string * option Completeness.statement_data)) :
  NoDup (run_id <$> runs) →
  PlaybookUtils.load_playbook_leaf_nodes playbook_docs ≠ ∅ →
  runs !! i = Some r →
  picked r = true →
  content_of (doc_id r) = Some {| llm_call_2_extraction := Some items |} →
  ∃ r', run_stage_1a_checks playbook_docs content_of runs !! i = Some r' ∧
        (stage_1_status r' = "COMPLETENESS_CHECK_PASSED" ∨
         stage_1_status r' = "COMPLETENESS_ERROR") ∧
        (stage_1_status r' = "COMPLETENESS_CHECK_PASSED" ↔
         all_statements_complete
           (PlaybookUtils.load_playbook_leaf_nodes playbook_docs) items).
Proof.
  intros Hnd Hpb Hi Hp Hc.
  eexists. split; [apply checked_row_lookup; eassumption|].
  unfold checked_row. rewrite Hp, Hc. cbn [updates_for].
  rewrite <- first_failure_None.
  destruct (first_failure _ items) as [[k res]|]; cbn.
  - split; [right; reflexivity|]. split; discriminate.
  - split; [left; reflexivity|]. split; reflexivity.
Qed.

Lemma X20_stage_1a_passes_iff_all_statements_complete_witness :
  ∃ r', run_stage_1a_checks Examples.playbook Examples.extraction_of
          Examples.quality_runs !! 0 = Some r' ∧
        (stage_1_status r' = "COMPLETENESS_CHECK_PASSED" ∨
         stage_1_status r' = "COMPLETENESS_ERROR") ∧
        (stage_1_status r' = "COMPLETENESS_CHECK_PASSED" ↔
         all_statements_complete
           (PlaybookUtils.load_playbook_leaf_nodes Examples.playbook)
           [("standalone_pnl",
             Examples.normalized ["interest_earned"; "other_income"]);
            ("notes", None)]).
Proof.
  apply (X20_stage_1a_passes_iff_all_statements_complete
           Examples.playbook Examples.extraction_of Examples.quality_runs 0
           (Examples.quality_run 1 10 "PENDING")).
  - vm_compute.
    repeat (apply NoDup_cons_2;
      [intros H; repeat (apply elem_of_cons in H as [H|H]; [discriminate|]);
       inversion H|]).
    apply NoDup_nil_2.
  - intros H. apply (f_equal (λ m, m !! "pnl")) in H. vm_compute in H. discriminate.
  - reflexivity.
  - reflexivity.
  - reflexivity.
Defined.

(** X21. Stage 1a reports the first failing statement only: when the
    statements before it pass (or are passed over), the run gets
    COMPLETENESS_ERROR, a reason naming that statement's key and the details
    of its check, whatever the statements after it are. *)
Theorem X21_stage_1a_reports_first_failing_statement
    (playbook_docs : list LabelNormalizer.playbook_doc)
    (content_of : Z → option content) (runs : list QualityEngineRun)
    (i : nat) (r : QualityEngineRun)
    (before after : list (string * option Completeness.statement_data))
    (statement_key : string) (statement_data : option Completeness.statement_data)
    (result : Completeness.result) :
  let pb := PlaybookUtils.load_playbook_leaf_nodes playbook_docs in
  NoDup (run_id <$> runs) →
  pb ≠ ∅ →
  runs !! i = Some r →
  picked r = true →
  content_of (doc_id r) =
    Some {| llm_call_2_extraction :=
              Some (before ++ (statement_key, statement_data) :: after) |} →
  all_statements_complete pb before →
  check_statement pb statement_key statement_data = Some result →
  Completeness.res_status result = Completeness.FAILURE →
  ∃ r', run_stage_1a_checks playbook_docs content_of runs !! i = Some r' ∧
        stage_1_status r' = "COMPLETENESS_ERROR" ∧
        failure_reason r' =
          Some ("Completeness check failed on: " ++ statement_key)%string ∧
        details r' = CompletenessDetails <$> Completeness.res_details result.
Proof.
  intros pb Hnd Hpb Hi Hp Hc Hbefore Hcheck Hfail.
  eexists. split; [apply checked_row_lookup; eassumption|].
  unfold checked_row. rewrite Hp, Hc. cbn [updates_for]. fold pb.
  rewrite (first_failure_app pb _ _ Hbefore). cbn [first_failure].
  rewrite Hcheck, Hfail. cbn. repeat split; reflexivity.
Qed.

Lemma X21_stage_1a_reports_first_failing_statement_witness :
  ∃ r', run_stage_1a_checks Examples.playbook Examples.extraction_of
          Examples.quality_runs !! 1 = Some r' ∧
        stage_1_status r' = "COMPLETENESS_ERROR" ∧
        failure_reason r' =
          Some "Completeness check failed on: standalone_pnl" ∧
        details r' =
          Some (CompletenessDetails
                  {| Completeness.missing_ids := Some ["other_income"];
                     Completeness.unexpected_ids := None;
                     Completeness.reason := None |}).
Proof.
  apply (X21_stage_1a_reports_first_failing_statement
           Examples.playbook Examples.extraction_of Examples.quality_runs 1
           (Examples.quality_run 2 11 "PENDING") [] []
           "standalone_pnl" (Examples.normalized ["interest_earned"])
           {| Completeness.res_status := Completeness.FAILURE;
              Completeness.res_details :=
                Some {| Completeness.missing_ids := Some ["other_income"];
                        Completeness.unexpected_ids := None;
                        Completeness.reason := None |} |}).
  - vm_compute.
    repeat (apply NoDup_cons_2;
      [intros H; repeat (apply elem_of_cons in H as [H|H]; [discriminate|]);
       inversion H|]).
    apply NoDup_nil_2.
  - intros H. apply (f_equal (λ m, m !! "pnl")) in H. vm_compute in H. discriminate.
  - reflexivity.
  - reflexivity.
  - reflexivity.
  - intros k d res Hin. inversion Hin.
  - vm_compute. reflexivity.
  - reflexivity.
Defined.

Lemma example_run_ids_NoDup : NoDup (run_id <$> Examples.quality_runs).
Proof.
  vm_compute.
  repeat (apply NoDup_cons_2;
    [intros H; repeat (apply elem_of_cons in H as [H|H]; [discriminate|]);
     inversion H|]).
  apply NoDup_nil_2.
Qed.

Lemma example_playbook_loaded :
  PlaybookUtils.load_playbook_leaf_nodes Examples.playbook ≠ ∅.
Proof.
  intros H. apply (f_equal (λ m, m !! "pnl")) in H. vm_compute in H. discriminate.
Qed.

Lemma checked_row_failure (pb : gmap string (list string))
    (content_of : Z → option content) (r : QualityEngineRun)
    (items : list (string * option Completeness.statement_data))
    (statement_key : string) (result : Completeness.result) :
  picked r = true →
  content_of (doc_id r) = Some {| llm_call_2_extraction := Some items |} →
  first_failure pb items = Some (statement_key, result) →
  checked_row pb content_of r =
  apply_updates
    {| upd_stage_1_status := Some "COMPLETENESS_ERROR";
       upd_failure_reason :=
         Some (Some ("Completeness check failed on: " ++ statement_key)%string);
       upd_details :=
         Some (CompletenessDetails <$> Completeness.res_details result) |} r.
Proof.
  intros Hp Hc Hf. unfold checked_row. rewrite Hp, Hc. cbn [updates_for].
  rewrite Hf. reflexivity.
Qed.

Lemma checked_row_success (pb : gmap string (list string))
    (content_of : Z → option content) (r : QualityEngineRun)
    (items : list (string * option Completeness.statement_data)) :
  picked r = true →
  content_of (doc_id r) = Some {| llm_call_2_extraction := Some items |} →
  first_failure pb items = None →
  checked_row pb content_of r =
  apply_updates
    {| upd_stage_1_status := Some "COMPLETENESS_CHECK_PASSED";
       upd_failure_reason := None; upd_details := None |} r.
Proof.
  intros Hp Hc Hf. unfold checked_row. rewrite Hp, Hc. cbn [updates_for].
  rewrite Hf. reflexivity.
Qed.

(** X22. A success writes the status only. A run that failed the check and
    passes it on a later pass (the document's content having changed) is
    COMPLETENESS_CHECK_PASSED and still carries the reason and the details
    of the earlier failure. *)
Theorem X22_recheck_success_keeps_old_failure_reason
    (playbook_docs : list LabelNormalizer.playbook_doc)
    (content_1 content_2 : Z → option content) (runs : list QualityEngineRun)
    (i : nat) (r : QualityEngineRun)
    (items_1 items_2 : list (string * option Completeness.statement_data))
    (statement_key : string) (result : Completeness.result) :
  let pb := PlaybookUtils.load_playbook_leaf_nodes playbook_docs in
  NoDup (run_id <$> runs) →
  pb ≠ ∅ →
  runs !! i = Some r →
  picked r = true →
  content_1 (doc_id r) = Some {| llm_call_2_extraction := Some items_1 |} →
  first_failure pb items_1 = Some (statement_key, result) →
  content_2 (doc_id r) = Some {| llm_call_2_extraction := Some items_2 |} →
  all_statements_complete pb items_2 →
  ∃ r', run_stage_1a_checks playbook_docs content_2
          (run_stage_1a_checks playbook_docs content_1 runs) !! i = Some r' ∧
        stage_1_status r' = "COMPLETENESS_CHECK_PASSED" ∧
        failure_reason r' =
          Some ("Completeness check failed on: " ++ statement_key)%string ∧
        details r' = CompletenessDetails <$> Completeness.res_details result.
Proof.
  intros pb Hnd Hpb Hi Hp Hc1 Hf1 Hc2 Hall.
  apply first_failure_None in Hall.
  assert (Hnd' : NoDup (run_id <$> run_stage_1a_checks playbook_docs content_1 runs)).
  { rewrite run_stage_1a_checks_rows by assumption.
    rewrite checked_row_run_ids. assumption. }
  exists (checked_row pb content_2 (checked_row pb content_1 r)). split.
  { apply checked_row_lookup; [assumption | assumption|].
    apply checked_row_lookup; eassumption. }
  rewrite (checked_row_failure pb content_1 r items_1 statement_key result)
    by assumption.
  erewrite checked_row_success; [|reflexivity | exact Hc2 | exact Hall].
  repeat split; reflexivity.
Qed.

Lemma X22_recheck_success_keeps_old_failure_reason_witness :
  ∃ r', run_stage_1a_checks Examples.playbook
          (λ _, Some {| llm_call_2_extraction := Some [] |})
          (run_stage_1a_checks Examples.playbook Examples.extraction_of
             Examples.quality_runs) !! 1 = Some r' ∧
        stage_1_status r' = "COMPLETENESS_CHECK_PASSED" ∧
        failure_reason r' =
          Some "Completeness check failed on: standalone_pnl" ∧
        details r' =
          Some (CompletenessDetails
                  {| Completeness.missing_ids := Some ["other_income"];
                     Completeness.unexpected_ids := None;
                     Completeness.reason := None |}).
Proof.
  apply (X22_recheck_success_keeps_old_failure_reason
           Examples.playbook Examples.extraction_of
           (λ _, Some {| llm_call_2_extraction := Some [] |})
           Examples.quality_runs 1
           (Examples.quality_run 2 11 "PENDING")
           [("standalone_pnl", Examples.normalized ["interest_earned"])] []
           "standalone_pnl"
           {| Completeness.res_status := Completeness.FAILURE;
              Completeness.res_details :=
                Some {| Completeness.missing_ids := Some ["other_income"];
                        Completeness.unexpected_ids := None;
                        Completeness.reason := None |} |}).
  - exact example_run_ids_NoDup.
  - exact example_playbook_loaded.
  - reflexivity.
  - reflexivity.
  - reflexivity.
  - vm_compute. reflexivity.
  - reflexivity.
  - intros k d res Hin. inversion Hin.
Defined.

Lemma checked_row_idemp (pb : gmap string (list string))
    (content_of : Z → option content) (r : QualityEngineRun) :
  checked_row pb content_of (checked_row pb content_of r) =
  checked_row pb content_of r.
Proof.
  unfold checked_row. destruct (picked r) eqn:Hp; [|rewrite Hp; reflexivity].
  cbn [doc_id apply_updates].
  set (u := updates_for pb (content_of (doc_id r))).
  assert (Hu : (upd_stage_1_status u = Some "COMPLETENESS_ERROR" ∧
                is_Some (upd_failure_reason u) ∧ is_Some (upd_details u)) ∨
               u = {| upd_stage_1_status := Some "COMPLETENESS_CHECK_PASSED";
                      upd_failure_reason := None; upd_details := None |}).
  { subst u. destruct (content_of (doc_id r)) as [[[items|]]|]; cbn [updates_for];
      try (left; split; [reflexivity | split; eexists; reflexivity]).
    destruct (first_failure pb items) as [[k res]|]; [left | right; reflexivity].
    split; [reflexivity | split; eexists; reflexivity]. }
  destruct Hu as [(Hs & [fr Hfr] & [dt Hdt])|Hu].
  - unfold picked at 1. cbn [apply_updates stage_1_status]. rewrite Hs.
    cbn [default]. change (existsb _ _) with true. cbv iota.
    unfold apply_updates. cbn [run_id doc_id stage_1_status stage_2_status
      stage_3_status stage_4_status stage_5_status stage_1_version stage_2_version
      stage_3_version stage_4_version stage_5_version failure_reason details
      playbook_config_hash]. rewrite Hs, Hfr, Hdt. reflexivity.
  - rewrite Hu. reflexivity.
Qed.

(** X23. With unique run ids, a second pass of stage 1a over the same
    documents writes what the first wrote: the table (whose timestamps are
    not part of the rows here) is the same after two passes as after one. *)
Theorem X23_stage_1a_is_idempotent
    (playbook_docs : list LabelNormalizer.playbook_doc)
    (content_of : Z → option content) (runs : list QualityEngineRun) :
  NoDup (run_id <$> runs) →
  run_stage_1a_checks playbook_docs content_of
    (run_stage_1a_checks playbook_docs content_of runs) =
  run_stage_1a_checks playbook_docs content_of runs.
Proof.
  intros Hnd.
  destruct (decide (PlaybookUtils.load_playbook_leaf_nodes playbook_docs = ∅))
    as [He|Hne].
  - unfold run_stage_1a_checks. rewrite !decide_True by assumption. reflexivity.
  - rewrite (run_stage_1a_checks_rows _ _ runs) by assumption.
    rewrite run_stage_1a_checks_rows;
      [|rewrite checked_row_run_ids; assumption | assumption].
    rewrite map_map. apply map_ext. intros r. apply checked_row_idemp.
Qed.

Lemma X23_stage_1a_is_idempotent_witness :
  run_stage_1a_checks Examples.playbook Examples.extraction_of
    (run_stage_1a_checks Examples.playbook Examples.extraction_of
       Examples.quality_runs) =
  run_stage_1a_checks Examples.playbook Examples.extraction_of
    Examples.quality_runs.
Proof.
  apply (X23_stage_1a_is_idempotent Examples.playbook Examples.extraction_of
           Examples.quality_runs).
  exact example_run_ids_NoDup.
Defined.

Lemma stage_1a_touch_update (pb : gmap string (list string)) (c : option content)
    (r r' : QualityEngineRun) :
  stage_1a_touch r r' →
  stage_1a_touch r (apply_updates (updates_for pb c) r').
Proof.
  intros Ht. right.
  assert (Hsame : same_outside_stage_1a r r').
  { destruct Ht as [->|[H _]]; [|assumption].
    repeat split; reflexivity. }
  destruct Hsame as (H1 & H2 & H3 & H4 & H5). split.
  - repeat split.
    + exact H1.
    + exact H2.
    + intros k. rewrite apply_updates_stage_version. apply H3.
    + intros k Hk. rewrite apply_updates_stage_status by assumption. apply H4, Hk.
    + exact H5.
  - cbn [stage_1_status apply_updates].
    destruct (updates_for_status pb c) as [-> | ->]; [left | right]; reflexivity.
Qed.

Lemma stage_1a_touch_table (pb : gmap string (list string))
    (content_of : Z → option content) (s runs table : list QualityEngineRun) :
  Forall2 stage_1a_touch runs table →
  Forall2 stage_1a_touch runs
    (fold_left
       (λ table run,
          update_quality_run (run_id run)
            (updates_for pb (content_of (doc_id run))) table)
       s table).
Proof.
  revert table. induction s as [|a s IH]; intros table H; [assumption|].
  cbn [fold_left]. apply IH. unfold update_quality_run.
  change (map ?f table) with (f <$> table). apply Forall2_fmap_r.
  eapply Forall2_impl; [exact H|]. intros r r' Ht. unfold compose.
  destruct (Z.eqb (run_id r') (run_id a)); [|assumption].
  apply stage_1a_touch_update. assumption.
Qed.

Lemma run_stage_1a_checks_touch (playbook_docs : list LabelNormalizer.playbook_doc)
    (content_of : Z → option content) (runs : list QualityEngineRun) :
  Forall2 stage_1a_touch runs (run_stage_1a_checks playbook_docs content_of runs).
Proof.
  assert (Hrefl : Forall2 stage_1a_touch runs runs).
  { apply Forall2_same_length_lookup_2; [reflexivity|].
    intros i x y Hx Hy. left. congruence. }
  unfold run_stage_1a_checks. destruct (decide _); [assumption|]. cbv zeta.
  destruct (get_runs_by_stage_1_status _ runs) as [|a s] eqn:E; [assumption|].
  apply stage_1a_touch_table. assumption.
Qed.

(** X24. Stage 1a writes its verdict and nothing else. Row by row, the
    table after a pass has the row of before, or a row with the same ids,
    the same five versions, the same statuses of stages 2 to 5 and the same
    configuration hash, whose stage-1 status is COMPLETENESS_ERROR or
    COMPLETENESS_CHECK_PASSED: it never writes PASSED and never stamps a
    version. This needs no uniqueness of run ids. *)
Theorem X24_stage_1a_writes_only_its_verdict
    (playbook_docs : list LabelNormalizer.playbook_doc)
    (content_of : Z → option content) (runs : list QualityEngineRun) :
  Forall2
    (λ r r',
       r' = r ∨
       (same_outside_stage_1a r r' ∧
        stage_1_status r' ≠ "PASSED" ∧
        (stage_1_status r' = "COMPLETENESS_ERROR" ∨
         stage_1_status r' = "COMPLETENESS_CHECK_PASSED")))
    runs (run_stage_1a_checks playbook_docs content_of runs).
Proof.
  eapply Forall2_impl; [apply run_stage_1a_checks_touch|].
  intros r r' [->|[Hs Hv]]; [left; reflexivity | right].
  split; [assumption|]. split; [|assumption].
  destruct Hv as [-> | ->]; discriminate.
Qed.

Lemma stmt_reset_s1_where_reset_row (r : QualityEngineRun) :
  stmt_reset_s1_where (reset_row r) = false.
Proof.
  unfold reset_row. destruct (stmt_reset_s1_where r) eqn:E; [reflexivity | assumption].
Qed.

(** X25. Stage 1a leaves no work for the version sweep. In the order of the
    engine's [main] (sweep, then stage 1), a further sweep right after stage
    1a changes nothing: no row stage 1a wrote is selected by the reset. *)
Theorem X25_sweep_after_stage_1a_changes_nothing
    (playbook_docs : list LabelNormalizer.playbook_doc)
    (content_of : Z → option content) (runs : list QualityEngineRun) :
  trigger_waterfall_resets
    (run_stage_1_orchestrator playbook_docs content_of
       (trigger_waterfall_resets runs)) =
  run_stage_1_orchestrator playbook_docs content_of (trigger_waterfall_resets runs).
Proof.
  unfold run_stage_1_orchestrator.
  pose proof (run_stage_1a_checks_touch playbook_docs content_of
                (trigger_waterfall_resets runs)) as H.
  assert (Hw : Forall (λ r, stmt_reset_s1_where r = false)
                 (trigger_waterfall_resets runs)).
  { unfold trigger_waterfall_resets. apply Forall_forall. intros r Hr.
    change (map reset_row runs) with (reset_row <$> runs) in Hr.
    apply list_elem_of_fmap in Hr as (r0 & -> & _).
    apply stmt_reset_s1_where_reset_row. }
  revert H Hw.
  generalize (run_stage_1a_checks playbook_docs content_of
                (trigger_waterfall_resets runs)).
  generalize (trigger_waterfall_resets runs).
  intros t t' H. induction H as [|r r' t t' Hr Ht IH]; intros Hw; [reflexivity|].
  apply Forall_cons in Hw as [Hwr Hwt].
  unfold trigger_waterfall_resets in *. cbn [map]. rewrite (IH Hwt). f_equal.
  unfold reset_row.
  assert (stmt_reset_s1_where r' = false) as ->; [|reflexivity].
  destruct Hr as [->|[_ Hs]]; [assumption|].
  unfold stmt_reset_s1_where. destruct Hs as [-> | ->]; reflexivity.
Qed.

End CompletenessStage.

(** ** The statement slots *)

Section StatementSlots.

Import StatementNormalizer.

Variable statement_mapping : gmap string (option string).

Lemma find_filter_implied {A} (p q : A → bool) (l : list A) :
  (∀ x, p x = true → q x = true) →
  find p (List.filter q l) = find p l.
Proof.
  intros Hpq. induction l as [|a l IH]; [reflexivity|].
  cbn [List.filter find]. destruct (q a) eqn:Hq.
  - cbn [find]. destruct (p a); [reflexivity | assumption].
  - destruct (p a) eqn:Hp; [|assumption].
    rewrite (Hpq a Hp) in Hq. discriminate.
Qed.

Lemma find_app_None {A} (p : A → bool) (l k : list A) :
  find p (l ++ k) =
  match find p l with Some x => Some x | None => find p k end.
Proof.
  induction l as [|a l IH]; [reflexivity|].
  cbn [app find]. destruct (p a); [reflexivity | assumption].
Qed.

Lemma mapped_statements_cons (s : ParsedStatement.t) (raw : list ParsedStatement.t) :
  mapped_statements statement_mapping (s :: raw) =
  match standard_mapping_of statement_mapping s with
  | Some sm => (s, sm) :: mapped_statements statement_mapping raw
  | None => mapped_statements statement_mapping raw
  end.
Proof.
  unfold mapped_statements. cbn [omap list_omap].
  destruct (standard_mapping_of statement_mapping s); reflexivity.
Qed.

(** The first loop, when it returns: the accumulators grow by the mapped
    statements of each kind, in order. *)
Lemma categorize_loop_spec (raw : list ParsedStatement.t) (st st' : loop_state) :
  categorize_loop statement_mapping raw st = Py.Returned st' →
  standalone_statements st' =
    standalone_statements st ++
    List.filter (λ x, Py.contains "standalone" x.2)
      (mapped_statements statement_mapping raw) ∧
  consolidated_statements st' =
    consolidated_statements st ++
    List.filter (λ x, negb (Py.contains "standalone" x.2) &&
                      Py.contains "consolidated" x.2)
      (mapped_statements statement_mapping raw) ∧
  found st' =
    found st ∪ list_to_set (mapped_statements statement_mapping raw).*2.
Proof.
  revert st. induction raw as [|s raw IH]; intros st H.
  - injection H as <-. cbn. rewrite !app_nil_r.
    repeat split; try reflexivity. symmetry. apply (right_id_L ∅ (∪)).
  - cbn [categorize_loop] in H. rewrite mapped_statements_cons.
    unfold categorize_step, standard_mapping_of in *.
    destruct (ParsedStatement.statement_type s) as [name|]; [|discriminate].
    cbn [mbind option_bind].
    destruct (lookup_mapping statement_mapping name) as [sm|]; [|apply IH; assumption].
    cbn [List.filter snd fmap list_fmap list_to_set].
    destruct (Py.contains "standalone" sm) eqn:Hs;
      [|destruct (Py.contains "consolidated" sm) eqn:Hc];
      cbn [negb andb]; apply IH in H as (H1 & H2 & H3);
      cbn [standalone_statements consolidated_statements found] in *;
      rewrite H1, H2, H3, <- ?app_assoc; cbn [app];
      (split; [reflexivity|]); (split; [reflexivity|]);
      symmetry; apply (assoc_L (∪)).
Qed.

(** The first loop returns when every statement has a type, and raises at
    the first that has none. *)
Lemma categorize_loop_returns (raw : list ParsedStatement.t) (st : loop_state) :
  Forall (λ s, is_Some (ParsedStatement.statement_type s)) raw →
  ∃ st', categorize_loop statement_mapping raw st = Py.Returned st'.
Proof.
  revert st. induction raw as [|s raw IH]; intros st H.
  - eexists. reflexivity.
  - apply Forall_cons in H as [[name Hn] H]. cbn [categorize_loop].
    unfold categorize_step. rewrite Hn.
    destruct (lookup_mapping statement_mapping name) as [sm|]; [|apply IH; assumption].
    destruct (Py.contains "standalone" sm);
      [|destruct (Py.contains "consolidated" sm)]; apply IH; assumption.
Qed.

Lemma categorize_loop_raises (raw : list ParsedStatement.t) (st : loop_state) :
  Exists (λ s, ParsedStatement.statement_type s = None) raw →
  categorize_loop statement_mapping raw st = Py.Raised "KeyError".
Proof.
  revert st. induction raw as [|s raw IH]; intros st H; [inversion H|].
  cbn [categorize_loop]. unfold categorize_step.
  destruct (ParsedStatement.statement_type s) as [name|] eqn:Hn; [|reflexivity].
  apply Exists_cons in H as [H|H]; [congruence|].
  destruct (lookup_mapping statement_mapping name) as [sm|]; [|apply IH; assumption].
  destruct (Py.contains "standalone" sm);
    [|destruct (Py.contains "consolidated" sm)]; apply IH; assumption.
Qed.

Lemma find_mapped_statements (expected : string) (raw : list ParsedStatement.t) :
  match @find (ParsedStatement.t * string) (λ stmt, String.eqb stmt.2 expected)
          (mapped_statements statement_mapping raw) with
  | Some (s, sm) => sm = expected ∧ first_mapped_to statement_mapping raw expected s
  | None => Forall (λ s, standard_mapping_of statement_mapping s ≠ Some expected) raw
  end.
Proof.
  induction raw as [|a raw IH]; [constructor|].
  rewrite mapped_statements_cons.
  destruct (standard_mapping_of statement_mapping a) as [sm|] eqn:Ha.
  - cbn [find snd]. destruct (String.eqb_spec sm expected) as [->|Hne].
    + split; [reflexivity|]. exists [], raw. repeat split; [assumption | constructor].
    + destruct (find _ _) as [[s sm']|].
      * destruct IH as [-> (before & after & -> & Hs & Hb)]. split; [reflexivity|].
        exists (a :: before), after. repeat split; [assumption|].
        constructor; [congruence | assumption].
      * constructor; [congruence | assumption].
  - destruct (find _ _) as [[s sm']|].
    + destruct IH as [-> (before & after & -> & Hs & Hb)]. split; [reflexivity|].
      exists (a :: before), after. repeat split; [assumption|].
      constructor; [congruence | assumption].
    + constructor; [congruence | assumption].
Qed.

Lemma elem_of_mapped_statements (x : string) (raw : list ParsedStatement.t) :
  x ∈ (mapped_statements statement_mapping raw).*2 ↔
  ∃ s, s ∈ raw ∧ standard_mapping_of statement_mapping s = Some x.
Proof.
  unfold mapped_statements. rewrite list_elem_of_fmap. split.
  - intros ([s sm] & -> & H). apply list_elem_of_omap in H as (s' & Hs' & H).
    destruct (standard_mapping_of statement_mapping s') as [sm'|] eqn:E;
      [|discriminate].
    injection H as <- <-. exists s'. split; assumption.
  - intros (s & Hs & E). exists (s, x). split; [reflexivity|].
    apply list_elem_of_omap. exists s. split; [assumption|]. rewrite E. reflexivity.
Qed.

(** What a slot holds, for a list of statements that finds what the mapped
    statements find. *)
Lemma slot_for_spec (statements : list statement_with_mapping)
    (raw : list ParsedStatement.t) (expected : string) :
  @find (ParsedStatement.t * string) (λ stmt, String.eqb stmt.2 expected) statements =
  @find (ParsedStatement.t * string) (λ stmt, String.eqb stmt.2 expected)
    (mapped_statements statement_mapping raw) →
  match slot_for statements expected with
  | Provided s sm => sm = expected ∧ first_mapped_to statement_mapping raw expected s
  | NotProvided =>
      Forall (λ s, standard_mapping_of statement_mapping s ≠ Some expected) raw
  end.
Proof.
  intros H. unfold slot_for. rewrite H. clear H.
  generalize (find_mapped_statements expected raw).
  destruct (@find (ParsedStatement.t * string) _ _) as [[s sm]|];
    intros Hf; exact Hf.
Qed.

Lemma elem_of_missing (found : gset string) (expected : string) :
  expected ∈ List.filter (λ stmt, bool_decide (stmt ∉ found)) EXPECTED_STATEMENTS ↔
  expected ∈ EXPECTED_STATEMENTS ∧ expected ∉ found.
Proof.
  rewrite list_elem_of_In, filter_In, <- list_elem_of_In, bool_decide_eq_true.
  reflexivity.
Qed.

(** X26. When [categorize_statements] returns, each slot of the two filings
    is one of the six expected names; a slot that is provided holds the first
    raw statement whose type maps to the slot's name (later ones of the same
    mapping are dropped) and the name is not reported missing; a slot that is
    not provided has no raw statement mapping to it and is reported missing. *)
Theorem X26_slot_holds_first_statement_mapped_to_it
    (raw_statements : list ParsedStatement.t) (c : categorized)
    (expected : string) (sl : slot) :
  categorize_statements raw_statements statement_mapping = Py.Returned c →
  (expected, sl) ∈ standalone c ++ consolidated c →
  expected ∈ EXPECTED_STATEMENTS ∧
  match sl with
  | Provided s sm =>
      sm = expected ∧
      first_mapped_to statement_mapping raw_statements expected s ∧
      expected ∉ missing_statements c
  | NotProvided =>
      Forall (λ s, standard_mapping_of statement_mapping s ≠ Some expected)
        raw_statements ∧
      expected ∈ missing_statements c
  end.
Proof.
  unfold categorize_statements.
  destruct (categorize_loop _ _ _) as [st|] eqn:E; [|discriminate].
  intros Hc Hin. injection Hc as <-.
  apply categorize_loop_spec in E as (H1 & H2 & H3).
  cbn [standalone_statements consolidated_statements found app] in H1, H2, H3.
  unfold missing_statements. cbn [standalone consolidated map app] in Hin.
  rewrite H1, H2 in Hin.
  assert (Hexp : expected ∈ EXPECTED_STATEMENTS ∧
    sl = slot_for (mapped_statements statement_mapping raw_statements) expected).
  { unfold slot_for in *.
    repeat (apply elem_of_cons in Hin as [Hin|Hin];
      [injection Hin as -> ->; split;
        [unfold EXPECTED_STATEMENTS;
         repeat (try (apply elem_of_cons; left; reflexivity);
                 apply elem_of_cons; right)|];
        rewrite find_filter_implied;
          [reflexivity
          | intros [s sm] Hsm; cbn [snd] in *;
            apply String.eqb_eq in Hsm; rewrite Hsm; reflexivity]|]).
    inversion Hin. }
  destruct Hexp as [Hexp ->]. split; [assumption|].
  pose proof (slot_for_spec (mapped_statements statement_mapping raw_statements)
                raw_statements expected eq_refl) as Hs.
  destruct (slot_for _ expected) as [|s sm].
  - split; [assumption|]. apply elem_of_missing. split; [assumption|].
    rewrite H3. intros Hf.
    apply elem_of_union in Hf as [Hf|Hf]; [apply elem_of_empty in Hf; exact Hf|].
    apply elem_of_list_to_set, elem_of_mapped_statements in Hf as (s & Hs1 & Hs2).
    rewrite Forall_forall in Hs. exact (Hs s Hs1 Hs2).
  - destruct Hs as [-> Hfirst]. split; [reflexivity|]. split; [assumption|].
    intros Hm. apply elem_of_missing in Hm as [_ Hm]. apply Hm. rewrite H3.
    apply elem_of_union_r, elem_of_list_to_set, elem_of_mapped_statements.
    destruct Hfirst as (before & after & -> & Hmap & _).
    exists s. split; [|assumption]. apply elem_of_app. right. apply elem_of_cons.
    left. reflexivity.
Qed.

(** X27. [categorize_statements] returns exactly when every raw statement
    has a [statement_type]; otherwise it raises [KeyError], also when the
    statement without a type comes after statements that were categorized.
    When it returns, the filings have the six expected keys in order, and
    [found_statements] are the standard mappings of the raw statements,
    those outside the six slots included. *)
Theorem X27_categorize_returns_iff_every_statement_has_a_type
    (raw_statements : list ParsedStatement.t) :
  (Forall (λ s, is_Some (ParsedStatement.statement_type s)) raw_statements ∧
   ∃ c, categorize_statements raw_statements statement_mapping = Py.Returned c ∧
        (standalone c).*1 ++ (consolidated c).*1 = EXPECTED_STATEMENTS ∧
        ∀ x, x ∈ found_statements c ↔
             ∃ s, s ∈ raw_statements ∧
                  standard_mapping_of statement_mapping s = Some x) ∨
  (Exists (λ s, ParsedStatement.statement_type s = None) raw_statements ∧
   categorize_statements raw_statements statement_mapping = Py.Raised "KeyError").
Proof.
  destruct (decide (Forall (λ s, is_Some (ParsedStatement.statement_type s))
                      raw_statements)) as [Hall|Hex].
  - left. split; [assumption|]. unfold categorize_statements.
    destruct (categorize_loop_returns raw_statements
                {| standalone_statements := []; consolidated_statements := [];
                   found := ∅ |} Hall) as [st Hst].
    rewrite Hst. eexists. split; [reflexivity|].
    split; [reflexivity|]. intros x. cbn [found_statements].
    apply categorize_loop_spec in Hst as (_ & _ & ->). cbn [found].
    rewrite <- elem_of_mapped_statements, elem_of_union, elem_of_list_to_set.
    split; [intros [H|H]; [apply elem_of_empty in H; contradiction | exact H]|].
    intros H. right. exact H.
  - right. apply not_Forall_Exists in Hex; [|tc_solve].
    assert (Hex' : Exists (λ s, ParsedStatement.statement_type s = None)
                     raw_statements).
    { eapply Exists_impl; [exact Hex|]. intros s Hs. unfold compose in Hs.
      destruct (ParsedStatement.statement_type s) as [name|]; [|reflexivity].
      exfalso. apply Hs. exists name. reflexivity. }
    split; [assumption|]. unfold categorize_statements.
    rewrite categorize_loop_raises by assumption. reflexivity.
Qed.

End StatementSlots.

Section StatementSlotsExample.

Import StatementNormalizer.

Lemma X26_slot_holds_first_statement_mapped_to_it_witness :
  "standalone_pnl" ∈ EXPECTED_STATEMENTS ∧
  "standalone_pnl" = "standalone_pnl" ∧
  first_mapped_to (create_statement_mapping Examples.statements_found)
    Examples.raw_statements "standalone_pnl"
    (Examples.raw_statement "Standalone Results" "first") ∧
  "standalone_pnl" ∉
    ["standalone_balance_sheet"; "standalone_cash_flow";
     "consolidated_pnl"; "consolidated_cash_flow"].
Proof.
  refine (X26_slot_holds_first_statement_mapped_to_it
            (create_statement_mapping Examples.statements_found)
            Examples.raw_statements
            {| standalone :=
                 [("standalone_pnl",
                   Provided (Examples.raw_statement "Standalone Results" "first")
                     "standalone_pnl");
                  ("standalone_balance_sheet", NotProvided);
                  ("standalone_cash_flow", NotProvided)];
               consolidated :=
                 [("consolidated_pnl", NotProvided);
                  ("consolidated_balance_sheet",
                   Provided
                     (Examples.raw_statement "Consolidated Balance Sheet" "c")
                     "consolidated_balance_sheet");
                  ("consolidated_cash_flow", NotProvided)];
               found_statements :=
                 ∅ ∪ {["standalone_pnl"]} ∪ {["segment_results"]} ∪
                 {["standalone_pnl"]} ∪ {["consolidated_balance_sheet"]};
               missing_statements :=
                 ["standalone_balance_sheet"; "standalone_cash_flow";
                  "consolidated_pnl"; "consolidated_cash_flow"] |}
            "standalone_pnl"
            (Provided (Examples.raw_statement "Standalone Results" "first")
               "standalone_pnl") _ _).
  - vm_compute. reflexivity.
  - apply elem_of_cons. left. reflexivity.
Defined.

End StatementSlotsExample.

(** ** Cleaning the text of a response *)

Section ResponseText.

Import ResponseCleaning.

#[local] Arguments String.append !s1 s2 : simpl nomatch.

Lemma string_app_assoc (a b c : string) : ((a ++ b) ++ c = a ++ (b ++ c))%string.
Proof.
  induction a as [|x a IH]; cbn [String.append]; [reflexivity | f_equal; exact IH].
Qed.

Lemma string_app_nil_r (a : string) : (a ++ "" = a)%string.
Proof.
  induction a as [|x a IH]; cbn [String.append]; [reflexivity | f_equal; exact IH].
Qed.

Lemma string_length_app (a b : string) :
  String.length (a ++ b) = String.length a + String.length b.
Proof.
  induction a as [|x a IH]; cbn [String.append String.length Nat.add];
    [reflexivity | f_equal; exact IH].
Qed.

Lemma startswith_single (c b : Ascii.ascii) (t : string) :
  startswith (String c "") (String b t) = Ascii.eqb c b.
Proof. cbn. apply andb_true_r. Qed.

Lemma find_single_cons_None (c b : Ascii.ascii) (t : string) :
  find (String c "") (String b t) = None →
  Ascii.eqb c b = false ∧ find (String c "") t = None.
Proof.
  cbn [find]. rewrite startswith_single. destruct (Ascii.eqb c b); [discriminate|].
  destruct (find (String c "") t); [discriminate|]. intros _. split; reflexivity.
Qed.

Lemma find_single_app (c : Ascii.ascii) (pre rest : string) :
  find (String c "") pre = None →
  find (String c "") (pre ++ String c rest) = Some (String.length pre).
Proof.
  induction pre as [|b pre IH]; intros H.
  - cbn [String.append find]. rewrite startswith_single, Ascii.eqb_refl. reflexivity.
  - apply find_single_cons_None in H as [Hb H].
    cbn [String.append find String.length]. rewrite startswith_single, Hb, (IH H).
    reflexivity.
Qed.

Lemma find_single_app_None (c : Ascii.ascii) (a b : string) :
  find (String c "") a = None → find (String c "") b = None →
  find (String c "") (a ++ b) = None.
Proof.
  induction a as [|x a IH]; intros Ha Hb; [assumption|].
  apply find_single_cons_None in Ha as [Hx Ha].
  cbn [String.append find]. rewrite startswith_single, Hx, (IH Ha Hb). reflexivity.
Qed.

Lemma rfind_single_None (c : Ascii.ascii) (t : string) :
  find (String c "") t = None → rfind (String c "") t = None.
Proof.
  induction t as [|b t IH]; intros H; [reflexivity|].
  apply find_single_cons_None in H as [Hb H].
  cbn [rfind]. rewrite (IH H), startswith_single, Hb. reflexivity.
Qed.

Lemma rfind_single_app (c : Ascii.ascii) (before post : string) :
  find (String c "") post = None →
  rfind (String c "") (before ++ String c post) = Some (String.length before).
Proof.
  intros H. apply rfind_single_None in H.
  induction before as [|b before IH].
  - cbn [String.append rfind]. rewrite H, startswith_single, Ascii.eqb_refl.
    reflexivity.
  - cbn [String.append rfind String.length]. rewrite IH. reflexivity.
Qed.

Lemma substring_app_skip (pre rest : string) (n : nat) :
  String.substring (String.length pre) n (pre ++ rest) = String.substring 0 n rest.
Proof. induction pre as [|b pre IH]; [reflexivity | exact IH]. Qed.

Lemma substring_app_take (a b : string) :
  String.substring 0 (String.length a) (a ++ b) = a.
Proof.
  induction a as [|x a IH]; cbn.
  - destruct b; reflexivity.
  - rewrite IH. reflexivity.
Qed.

Lemma find_space_None (c : Ascii.ascii) (ws : string) :
  Py.is_space c = false → all_space ws = true → find (String c "") ws = None.
Proof.
  intros Hc. induction ws as [|b ws IH]; intros H; [reflexivity|].
  cbn [all_space] in H. apply andb_true_iff in H as [Hb H].
  cbn [find]. rewrite startswith_single, (IH H).
  destruct (Ascii.eqb_spec c b) as [->|_]; [congruence | reflexivity].
Qed.

(** Stripping. *)

Lemma lstrip_app (pre : string) (c : Ascii.ascii) (rest : string) :
  Py.is_space c = false →
  Py.lstrip (pre ++ String c rest) = (Py.lstrip pre ++ String c rest)%string.
Proof.
  intros Hc. induction pre as [|b pre IH]; cbn [String.append Py.lstrip].
  - rewrite Hc. reflexivity.
  - destruct (Py.is_space b); [exact IH | reflexivity].
Qed.

Lemma rstrip_cons (c : Ascii.ascii) (rest : string) :
  Py.is_space c = false → Py.rstrip (String c rest) = String c (Py.rstrip rest).
Proof.
  intros Hc. cbn [Py.rstrip]. destruct (Py.rstrip rest); [rewrite Hc|]; reflexivity.
Qed.

Lemma rstrip_app (a b : string) :
  Py.rstrip b ≠ "" → Py.rstrip (a ++ b) = (a ++ Py.rstrip b)%string.
Proof.
  intros Hb. induction a as [|x a IH]; [reflexivity|].
  cbn [String.append Py.rstrip]. rewrite IH.
  destruct (a ++ Py.rstrip b)%string eqn:E; [|reflexivity].
  destruct a; [cbn in E; congruence | discriminate].
Qed.

Lemma rstrip_space (ws : string) : all_space ws = true → Py.rstrip ws = "".
Proof.
  induction ws as [|b ws IH]; intros H; [reflexivity|].
  cbn [all_space] in H. apply andb_true_iff in H as [Hb H].
  cbn [Py.rstrip]. rewrite (IH H), Hb. reflexivity.
Qed.

Lemma find_single_lstrip (c : Ascii.ascii) (t : string) :
  find (String c "") t = None → find (String c "") (Py.lstrip t) = None.
Proof.
  induction t as [|b t IH]; intros H; [reflexivity|].
  cbn [Py.lstrip]. destruct (Py.is_space b); [|assumption].
  apply find_single_cons_None in H as [_ H]. apply IH, H.
Qed.

Lemma find_single_rstrip (c : Ascii.ascii) (t : string) :
  find (String c "") t = None → find (String c "") (Py.rstrip t) = None.
Proof.
  induction t as [|b t IH]; intros H; [reflexivity|].
  apply find_single_cons_None in H as [Hb H]. specialize (IH H).
  cbn [Py.rstrip]. destruct (Py.rstrip t) as [|y r] eqn:E.
  - destruct (Py.is_space b); [reflexivity|].
    cbn [find]. rewrite startswith_single, Hb. reflexivity.
  - cbn [find]. rewrite startswith_single, Hb.
    cbn [find] in IH. rewrite IH. reflexivity.
Qed.

Lemma rstrip_kept_app (a b : string) :
  Py.rstrip b = b ∧ b ≠ "" → Py.rstrip (a ++ b) = (a ++ b)%string ∧ (a ++ b)%string ≠ "".
Proof.
  intros [Hb Hne]. split.
  - rewrite rstrip_app; rewrite Hb; [reflexivity | assumption].
  - destruct a; [assumption | discriminate].
Qed.

(** A text from a character that is no white space to another is its own
    strip. *)
Lemma strip_enclosed (c d : Ascii.ascii) (body : string) :
  Py.is_space c = false → Py.is_space d = false →
  Py.strip (String c (body ++ String d "")) = String c (body ++ String d "").
Proof.
  intros Hc Hd. unfold Py.strip. cbn [Py.lstrip]. rewrite Hc.
  rewrite (rstrip_cons _ _ Hc). f_equal.
  rewrite rstrip_app; rewrite (rstrip_cons _ _ Hd); [reflexivity | discriminate].
Qed.

(** Removing fences. *)

Lemma startswith_fence_backtick (fence : string) (c : Ascii.ascii) (rest : string) :
  startswith "`" fence = true →
  startswith "`" (String c rest) = false →
  startswith fence (String c rest) = false.
Proof.
  destruct fence as [|a fence]; [discriminate|].
  rewrite !startswith_single. intros Ha Hc. apply Ascii.eqb_eq in Ha. subst a.
  cbn [startswith]. rewrite Hc. reflexivity.
Qed.

Lemma re_sub_fence_keeps (fence s t : string) :
  startswith "`" fence = true →
  find "`" s = None →
  re_sub_fence fence Scanning (s ++ t) = (s ++ re_sub_fence fence Scanning t)%string.
Proof.
  intros Hf. induction s as [|c s IH]; intros Hs; [reflexivity|].
  apply find_single_cons_None in Hs as [Hc Hs].
  cbn [String.append re_sub_fence].
  rewrite (startswith_fence_backtick fence c (s ++ t) Hf)
    by (rewrite startswith_single; exact Hc).
  rewrite (IH Hs). reflexivity.
Qed.

Lemma re_sub_fence_space (fence ws t : string) :
  all_space ws = true →
  re_sub_fence fence InSpace (ws ++ t) = re_sub_fence fence InSpace t.
Proof.
  induction ws as [|b ws IH]; intros H; [reflexivity|].
  cbn [all_space] in H. apply andb_true_iff in H as [Hb H].
  cbn [String.append re_sub_fence]. rewrite Hb. apply IH, H.
Qed.

Lemma re_sub_fence_space_end (fence : string) (c : Ascii.ascii) (rest : string) :
  Py.is_space c = false →
  re_sub_fence fence InSpace (String c rest) =
  re_sub_fence fence Scanning (String c rest).
Proof. intros Hc. cbn [re_sub_fence]. rewrite Hc. reflexivity. Qed.

(** The part between the first opening and the last closing character. *)
Lemma json_part_enclosed (o c : Ascii.ascii) (pre body post : string) :
  Py.is_space o = false → Py.is_space c = false →
  find (String o "") pre = None →
  find (String c "") post = None →
  json_part (String o "") (String c "")
    (pre ++ String o (body ++ String c post)) =
  Some (String o (body ++ String c "")).
Proof.
  intros Ho Hc Hpre Hpost. unfold json_part.
  rewrite (find_single_app o pre _ Hpre).
  replace (pre ++ String o (body ++ String c post))%string
    with ((pre ++ String o body) ++ String c post)%string
    by (rewrite string_app_assoc; reflexivity).
  rewrite (rfind_single_app c _ post Hpost), string_length_app.
  cbn [String.length].
  destruct (Nat.ltb_spec (String.length pre) (String.length pre + S (String.length body)))
    as [_|Hle]; [|lia].
  rewrite string_app_assoc. cbn [String.append].
  replace (String.length pre + S (String.length body) + 1 - String.length pre)
    with (String.length (String o (body ++ String c "")))
    by (cbn [String.length]; rewrite string_length_app; cbn [String.length]; lia).
  rewrite substring_app_skip.
  replace (String o (body ++ String c post))
    with (String o (body ++ String c "") ++ post)%string
    by (cbn [String.append]; rewrite string_app_assoc; reflexivity).
  rewrite substring_app_take, (strip_enclosed o c body Ho Hc). reflexivity.
Qed.

Lemma json_part_enclosed_start (o c : Ascii.ascii) (body post : string) :
  Py.is_space o = false → Py.is_space c = false →
  find (String c "") post = None →
  json_part (String o "") (String c "") (String o (body ++ String c post)) =
  Some (String o (body ++ String c "")).
Proof.
  intros Ho Hc Hpost.
  exact (json_part_enclosed o c "" body post Ho Hc eq_refl Hpost).
Qed.

(** X28. A JSON object inside prose is extracted. When the text has no
    backtick, the part from the first opening brace to the last closing
    brace is returned as it is, whatever surrounds it and whatever it
    contains. *)
Theorem X28_clean_json_response_extracts_the_object (pre body post : string) :
  find "`" pre = None → find "`" body = None → find "`" post = None →
  find "{" pre = None →
  find "}" post = None →
  clean_json_response (pre ++ "{" ++ body ++ "}" ++ post) = ("{" ++ body ++ "}")%string.
Proof.
  intros Hpre Hbody Hpost Ho Hc. unfold clean_json_response.
  assert (Hstrip : Py.strip (pre ++ "{" ++ body ++ "}" ++ post) =
                   (Py.lstrip pre ++ "{" ++ body ++ "}" ++ Py.rstrip post)%string).
  { unfold Py.strip. cbn [String.append]. rewrite lstrip_app by reflexivity.
    rewrite rstrip_app; rewrite rstrip_cons by reflexivity; [|discriminate].
    f_equal. f_equal. rewrite rstrip_app;
      rewrite rstrip_cons by reflexivity; [reflexivity | discriminate]. }
  rewrite Hstrip.
  assert (Hno : find "`" (Py.lstrip pre ++ "{" ++ body ++ "}" ++ Py.rstrip post) = None).
  { apply find_single_app_None; [apply find_single_lstrip; assumption|].
    apply (find_single_app_None _ "{"); [reflexivity|].
    apply find_single_app_None; [assumption|].
    apply (find_single_app_None _ "}"); [reflexivity|].
    apply find_single_rstrip; assumption. }
  rewrite <- (string_app_nil_r (Py.lstrip pre ++ _)).
  rewrite !re_sub_fence_keeps by (reflexivity || assumption).
  cbn [re_sub_fence]. rewrite !string_app_nil_r.
  cbn [String.append].
  rewrite (json_part_enclosed _ _ (Py.lstrip pre) body (Py.rstrip post));
    [reflexivity | reflexivity | reflexivity
    | apply find_single_lstrip; assumption
    | apply find_single_rstrip; assumption].
Qed.

Lemma X28_clean_json_response_extracts_the_object_witness :
  clean_json_response ("Here it is: " ++ "{" ++ "'a': {'b': [1, 2]}" ++ "}" ++ " Done.") =
  ("{" ++ "'a': {'b': [1, 2]}" ++ "}")%string.
Proof.
  apply (X28_clean_json_response_extracts_the_object
           "Here it is: " "'a': {'b': [1, 2]}" " Done."); reflexivity.
Defined.

(** X29. A fenced JSON object is unwrapped. For a text of the form
    [```json], white space, an object without backticks, white space,
    [```], the result is the object. *)
Theorem X29_clean_json_response_removes_the_fences (ws1 body ws2 : string) :
  all_space ws1 = true → all_space ws2 = true →
  find "`" body = None →
  clean_json_response ("```json" ++ ws1 ++ "{" ++ body ++ "}" ++ ws2 ++ "```") =
  ("{" ++ body ++ "}")%string.
Proof.
  intros H1 H2 Hbody. unfold clean_json_response.
  assert (Hstrip : Py.strip ("```json" ++ ws1 ++ "{" ++ body ++ "}" ++ ws2 ++ "```") =
                   ("```json" ++ ws1 ++ "{" ++ body ++ "}" ++ ws2 ++ "```")%string).
  { unfold Py.strip. change (Py.lstrip ("```json" ++ ?x)) with ("```json" ++ x)%string.
    apply rstrip_kept_app. do 5 apply rstrip_kept_app.
    split; [reflexivity | discriminate]. }
  rewrite Hstrip.
  assert (Hopen : ∀ x,
    re_sub_fence "```json" Scanning ("```json" ++ x) =
    re_sub_fence "```json" InSpace x).
  { intros x. reflexivity. }
  rewrite Hopen, (re_sub_fence_space _ ws1 _ H1).
  cbn [String.append]. rewrite re_sub_fence_space_end by reflexivity.
  assert (Hmid : find "`" ("{" ++ body ++ "}" ++ ws2) = None).
  { apply (find_single_app_None _ "{"); [reflexivity|].
    apply find_single_app_None; [assumption|].
    apply (find_single_app_None _ "}"); [reflexivity|].
    apply find_space_None; [reflexivity | assumption]. }
  remember ("{" ++ body ++ "}" ++ ws2)%string as obj eqn:Eobj.
  assert (Hassoc : ("{" ++ body ++ "}" ++ ws2 ++ "```" = obj ++ "```")%string).
  { subst obj. cbn [String.append]. rewrite string_app_assoc. reflexivity. }
  cbn [String.append] in Hassoc. rewrite Hassoc.
  rewrite re_sub_fence_keeps by (reflexivity || assumption).
  change (re_sub_fence "```json" Scanning "```") with "```".
  rewrite re_sub_fence_keeps by (reflexivity || assumption).
  change (re_sub_fence "```" Scanning "```") with "".
  rewrite string_app_nil_r. subst obj. cbn [String.append].
  rewrite (json_part_enclosed_start _ _ body ws2);
    [reflexivity | reflexivity | reflexivity
    | apply find_space_None; [reflexivity | assumption]].
Qed.

Lemma X29_clean_json_response_removes_the_fences_witness :
  clean_json_response ("```json" ++ "  " ++ "{" ++ "'a': 1" ++ "}" ++ " " ++ "```") =
  ("{" ++ "'a': 1" ++ "}")%string.
Proof.
  apply (X29_clean_json_response_removes_the_fences "  " "'a': 1" " ");
    reflexivity.
Defined.

End ResponseText.
